(** * genplot-mp: range clipping, category alignment, frequency expansion
      and statistical characterisation

    A shallow embedding of the data-processing core of [genplot-mp.py]:
    [check_limits], [prepare_data], [original_X], the moment and CDF
    computations of [stat_plot], the category merge of
    [do_plot_group_bars], [saving_logic], [check_geometry] and the loop
    of the main program that reads the files of a group.

    Conventions of the embedding.
    - A finite Python float is the rational ([Q]) it denotes; NaN and the
      two infinities are values of their own. A [datetime] is a rational
      that orders as the instants do.
    - Python's dynamically typed values are the tagged union [value]; an
      ordering comparison between values of different kinds raises
      [TypeError], as in Python 3.
    - Code that can raise returns a [res]; [Raise e] is an uncaught
      exception, which ends the run.
    - The slice [l[a:b]] with [0 <= a], [0 <= b <= len l] is
      [firstn (b - a) (skipn a l)].
    - The builtin [float] on text and [datetime.strptime] are parameters
      of the functions that call them. [sorted] is the stable sort on keys
      that are totally ordered; what it returns when a key is NaN depends
      on the steps of Python's sorting algorithm and is a parameter too.
    - Library functions behave as in Python 3.10 to 3.12:
      [math.factorial] accepts ints only and [statistics.quantiles] needs
      two data points. *)

From Stdlib Require Import List String Ascii Bool Arith ZArith QArith Lia.
From Stdlib Require Import Sorted Permutation Lqa.
Import ListNotations.

Set Implicit Arguments.

(* ------------------------------------------------------------------ *)
(** ** Python values and exceptions *)

Module Py.

Inductive exn : Set :=
| TypeError | ValueError | IndexError | ZeroDivisionError | StatisticsError.

Inductive res (A : Type) : Type :=
| Ok (a : A)
| Raise (e : exn).

Arguments Ok {A} a.
Arguments Raise {A} e.

Definition bind {A B} (m : res A) (k : A -> res B) : res B :=
  match m with
  | Ok a => k a
  | Raise e => Raise e
  end.

Definition is_ok {A} (m : res A) : bool :=
  match m with Ok _ => true | Raise _ => false end.

(** What [float(s)] returns on text. *)
Inductive float : Type :=
| Finite (q : Q)
| Infinite (positive : bool)     (* inf, -inf *)
| NaN.

Inductive value : Type :=
| VNum (q : Q)            (* a finite float *)
| VNaN                    (* nan *)
| VInf (positive : bool)  (* inf, -inf *)
| VStr (s : string)       (* text *)
| VDate (t : Q).          (* datetime *)

Definition of_float (f : float) : value :=
  match f with
  | Finite q => VNum q
  | Infinite b => VInf b
  | NaN => VNaN
  end.

(** Truth value of an object used as a condition ([if plot["min-x"]:]):
    [None], the empty string and [0.0] are false. *)
Definition truthy (b : option value) : bool :=
  match b with
  | None => false
  | Some (VNum q) => negb (Qeq_bool q 0)
  | Some VNaN => true
  | Some (VInf _) => true
  | Some (VStr s) => negb (String.eqb s "")
  | Some (VDate _) => true
  end.

(** [a <= b]. Every comparison with NaN is false; comparing a float or a
    datetime with text raises. *)
Definition le (a b : value) : res bool :=
  match a, b with
  | VNum p, VNum q => Ok (Qle_bool p q)
  | VNum _, VInf t => Ok t
  | VInf s, VNum _ => Ok (negb s)
  | VInf s, VInf t => Ok (implb s t)
  | (VNum _ | VInf _ | VNaN), VNaN | VNaN, (VNum _ | VInf _) => Ok false
  | VStr s, VStr t => Ok (String.leb s t)
  | VDate s, VDate t => Ok (Qle_bool s t)
  | _, _ => Raise TypeError
  end.

(** [a < b]. *)
Definition lt (a b : value) : res bool :=
  match a, b with
  | VNum p, VNum q => Ok (negb (Qle_bool q p))
  | VNum _, VInf t => Ok t
  | VInf s, VNum _ => Ok (negb s)
  | VInf s, VInf t => Ok (negb s && t)
  | (VNum _ | VInf _ | VNaN), VNaN | VNaN, (VNum _ | VInf _) => Ok false
  | VStr s, VStr t => Ok (String.ltb s t)
  | VDate s, VDate t => Ok (negb (Qle_bool t s))
  | _, _ => Raise TypeError
  end.

Definition ge (a b : value) : res bool := le b a.
Definition gt (a b : value) : res bool := lt b a.

(** The order [sorted] uses on a list whose elements are all of one kind;
    on such lists it never raises, and it is total unless one is NaN. *)
Definition leb (a b : value) : bool :=
  match le a b with Ok c => c | Raise _ => false end.

(** [l[a:b]] *)
Definition slice {A} (l : list A) (a b : nat) : list A :=
  firstn (b - a) (skipn a l).

(** [sorted(l, key = key)] on keys that are totally ordered: the stable
    sort, written as insertion of each element before the first one whose
    key is not smaller. *)
Section Sorted.
Context {A K : Type} (key : A -> K) (kle : K -> K -> bool).

Fixpoint insert (a : A) (l : list A) : list A :=
  match l with
  | [] => [a]
  | b :: l' => if kle (key a) (key b) then a :: l else b :: insert a l'
  end.

Fixpoint sorted (l : list A) : list A :=
  match l with
  | [] => []
  | a :: l' => insert a (sorted l')
  end.
End Sorted.

(** [for i, v in enumerate(l): if p(v): r = i; break], [None] standing
    for the [else] branch of the loop. The test is evaluated element by
    element, so an exception at an earlier element wins. *)
Fixpoint first_index {A} (p : A -> res bool) (l : list A) : res (option nat) :=
  match l with
  | [] => Ok None
  | v :: l' =>
      bind (p v) (fun c =>
        if c then Ok (Some 0%nat)
        else bind (first_index p l') (fun r => Ok (option_map S r)))
  end.

(** [for i, v in reversed(list(enumerate(l))): if p(v): r = i; break] *)
Definition last_index {A} (p : A -> res bool) (l : list A) : res (option nat) :=
  bind (first_index p (rev l)) (fun r =>
    Ok (option_map (fun j => (List.length l - 1 - j)%nat) r)).

Fixpoint mapM {A B} (f : A -> res B) (l : list A) : res (list B) :=
  match l with
  | [] => Ok []
  | a :: l' => bind (f a) (fun b => bind (mapM f l') (fun bs => Ok (b :: bs)))
  end.

(** [l[i]] for [i >= 0] *)
Definition index {A} (l : list A) (i : nat) : res A :=
  match nth_error l i with Some a => Ok a | None => Raise IndexError end.

(** [l[-1]] *)
Definition last_item {A} (l : list A) : res A :=
  match rev l with a :: _ => Ok a | [] => Raise IndexError end.

End Py.

Import Py.

Notation "x <- m ;; k" := (Py.bind m (fun x => k))
  (at level 61, m at next level, right associativity).
Notation "' pat <- m ;; k" := (Py.bind m (fun pat => k))
  (at level 61, pat pattern, m at next level, right associativity).

(* ------------------------------------------------------------------ *)
(** ** [check_limits] and [prepare_data] *)

Module Prepare.

Inductive graph_type : Set :=
| Timeseries | Histogram | Bar | Line | Scatter | Stem | Pie | Buckets.

Definition is_timeseries (g : graph_type) : bool :=
  match g with Timeseries => true | _ => false end.
Definition is_histogram (g : graph_type) : bool :=
  match g with Histogram => true | _ => false end.
Definition is_pie (g : graph_type) : bool :=
  match g with Pie => true | _ => false end.

(** One entry of [graph["graphs"][i]["plot"]]. [all_data] holds the data
    lines [plot["all-data"][1:]], each already split on [","]; the bounds
    are the header fields as read, or what the preparation stored there. *)
Record plot : Type := mkPlot {
  graph_type_of : graph_type;
  all_data : list (list string);
  min_x : option value;
  max_x : option value;
  min_y : option value;
  max_y : option value;
  x : list value;
  y : list value;
  is_categorical_in_x : bool;
  is_categorical_in_y : bool
}.

Section WithParsers.
(** [float(s)] on text, [None] when it raises [ValueError] *)
Variable py_float : string -> option float.
(** [datetime.strptime(s, DATE_FORMAT)], [None] when it raises *)
Variable strptime : string -> option Q.
(** [sorted(l, key = key)] when some key is NaN *)
Variable nan_sorted : forall A : Type, (A -> value) -> list A -> list A.

Definition to_float (s : string) : res value :=
  match py_float s with Some f => Ok (of_float f) | None => Raise ValueError end.

Definition is_nan (v : value) : bool :=
  match v with VNaN => true | _ => false end.

(** [sorted(l, key = key)] on floats or datetimes *)
Definition py_sorted {A : Type} (key : A -> value) (l : list A) : list A :=
  if existsb (fun a => is_nan (key a)) l then nan_sorted key l
  else sorted key leb l.

Definition to_date (s : string) : res value :=
  match strptime s with Some t => Ok (VDate t) | None => Raise ValueError end.

(** [float(v)] *)
Definition float_of (v : value) : res value :=
  match v with
  | VNum q => Ok (VNum q)
  | VNaN => Ok VNaN
  | VInf b => Ok (VInf b)
  | VStr s => to_float s
  | VDate _ => Raise TypeError
  end.

(** [datetime.strptime(v, DATE_FORMAT)] *)
Definition strptime_of (v : value) : res value :=
  match v with
  | VStr s => to_date s
  | _ => Raise TypeError
  end.

(** One iteration of the loop of [check_limits]. *)
Definition check_limit (limit : option value) : option value :=
  match limit with
  | Some v =>
      match float_of v with
      | Ok f => Some f
      | Raise _ => Some v
      end
  | None => None
  end.

Definition check_limits (limits : option value * option value)
  : option value * option value :=
  (check_limit (fst limits), check_limit (snd limits)).

(** The rows a comprehension keeps: [len(sp) >= n]; the second test of
    the source, ["" != all(sp)], compares text with a boolean and always
    holds. *)
Definition rows_with (n : nat) (rows : list (list string)) : list (list string) :=
  filter (fun sp => n <=? List.length sp)%nat rows.

Definition to_numbers (rows : list (list string)) (data_index : nat)
  : res (list value * bool) :=
  match mapM (fun sp => s <- index sp data_index ;; to_float s) (rows_with 1 rows) with
  | Ok lplot => Ok (lplot, false)
  | Raise _ =>
      lplot <- mapM (fun sp => s <- index sp data_index ;; Ok (VStr s)) (rows_with 1 rows) ;;
      Ok (lplot, true)
  end.

(** The bound an [if plot["min-x"]:] test lets through. *)
Definition given (b : option value) : option value :=
  if truthy b then b else None.

(** Lower cut of the x-axis and the bound written back. *)
Definition left_cut (xs : list value) (lo : option value) : res (nat * option value) :=
  match given lo with
  | Some m =>
      r <- first_index (fun v => ge v m) xs ;;
      Ok (match r with Some i => i | None => 0%nat end, lo)
  | None =>
      m <- index xs 0 ;;
      Ok (0%nat, Some m)
  end.

(** Upper cut of the x-axis outside histograms: the first index whose
    value exceeds the bound. *)
Definition right_cut (xs : list value) (hi : option value) : res (nat * option value) :=
  match given hi with
  | Some m =>
      r <- first_index (fun v => gt v m) xs ;;
      Ok (match r with Some i => i | None => List.length xs end, hi)
  | None =>
      m <- last_item xs ;;
      Ok (List.length xs, Some m)
  end.

(** Upper cut of a histogram: the last index whose value does not exceed
    the bound. *)
Definition right_cut_histogram (xs : list value) (hi : option value)
  : res (nat * option value) :=
  match given hi with
  | Some m =>
      r <- last_index (fun v => le v m) xs ;;
      Ok (match r with Some i => i | None => List.length xs end, hi)
  | None =>
      m <- last_item xs ;;
      Ok (List.length xs, Some m)
  end.

(** [float(b)] under [if b:] *)
Definition float_if_given (b : option value) : res (option value) :=
  match given b with
  | Some m => f <- float_of m ;; Ok (Some f)
  | None => Ok b
  end.

Fixpoint min_from (m : value) (l : list value) : res value :=
  match l with
  | [] => Ok m
  | c :: l' => b <- lt c m ;; min_from (if b then c else m) l'
  end.

Fixpoint max_from (m : value) (l : list value) : res value :=
  match l with
  | [] => Ok m
  | c :: l' => b <- gt c m ;; max_from (if b then c else m) l'
  end.

(** [min(l)] and [max(l)] *)
Definition py_min (l : list value) : res value :=
  match l with [] => Raise ValueError | c :: l' => min_from c l' end.
Definition py_max (l : list value) : res value :=
  match l with [] => Raise ValueError | c :: l' => max_from c l' end.

(** [[c if c >= lo else np.nan for c in ys]] *)
Definition blank_below (lo : value) (ys : list value) : res (list value) :=
  mapM (fun c => b <- ge c lo ;; Ok (if b then c else VNaN)) ys.

(** [[c if c <= hi else np.nan for c in ys]] *)
Definition blank_above (hi : value) (ys : list value) : res (list value) :=
  mapM (fun c => b <- le c hi ;; Ok (if b then c else VNaN)) ys.

(** The block "Y-axis ranging": the y values and the two bounds after it. *)
Definition range_y (cat_y : bool) (ys : list value) (lo hi : option value)
  : res (list value * option value * option value) :=
  lo1 <- (if negb cat_y then float_if_given lo else Ok lo) ;;
  hi1 <- (if negb cat_y then float_if_given hi else Ok hi) ;;
  '(ys1, lo2) <-
     match given lo1 with
     | Some m => ys' <- blank_below m ys ;; Ok (ys', lo1)
     | None =>
         m <- (if negb cat_y then py_min ys else index ys 0) ;;
         Ok (ys, Some m)
     end ;;
  '(ys2, hi2) <-
     match given hi1 with
     | Some m => ys' <- blank_above m ys1 ;; Ok (ys', hi1)
     | None =>
         m <- (if negb cat_y then py_max ys1 else last_item ys1) ;;
         Ok (ys1, Some m)
     end ;;
  Ok (ys2, lo2, hi2).

(** The list of pairs that is sorted on the numeric and timestamp paths. *)
Definition pairs (conv_x : string -> res value) (cat_y : bool)
    (rows : list (list string)) : res (list (value * value)) :=
  mapM (fun sp =>
          s0 <- index sp 0 ;;
          vx <- conv_x s0 ;;
          s1 <- index sp 1 ;;
          vy <- (if negb cat_y then to_float s1 else Ok (VStr s1)) ;;
          Ok (vx, vy))
       (rows_with 2 rows).

(** [plot["x"]] and [plot["is-categorical-in-x"]] as first extracted. *)
Definition extract_x (p : plot) : res (list value * bool) :=
  match graph_type_of p with
  | Timeseries =>
      l <- mapM (fun sp => s <- index sp 0 ;; to_date s) (rows_with 2 (all_data p)) ;;
      Ok (l, is_categorical_in_x p)
  | Pie =>
      l <- mapM (fun sp => s <- index sp 0 ;; Ok (VStr s)) (rows_with 2 (all_data p)) ;;
      Ok (l, true)
  | _ => to_numbers (all_data p) 0
  end.

(** [plot["y"]] and [plot["is-categorical-in-y"]]; a histogram has none. *)
Definition extract_y (p : plot) : res (list value * bool) :=
  if is_histogram (graph_type_of p) then Ok (y p, false)
  else to_numbers (all_data p) 1.

Definition date_if_given (b : option value) : res (option value) :=
  match given b with
  | Some m => d <- strptime_of m ;; Ok (Some d)
  | None => Ok b
  end.

(** The x-range bounds after parsing. *)
Definition bounds_x (p : plot) : res (option value * option value) :=
  if is_timeseries (graph_type_of p) then
    lo <- date_if_given (min_x p) ;;
    hi <- date_if_given (max_x p) ;;
    Ok (lo, hi)
  else Ok (check_limits (min_x p, max_x p)).

(** The y-range bounds after parsing. *)
Definition bounds_y (p : plot) : option value * option value :=
  if is_histogram (graph_type_of p) then (min_y p, max_y p)
  else check_limits (min_y p, max_y p).

(** Histogram branch of the range restriction. *)
Definition clip_histogram (xs : list value) (lo hi : option value)
  : res (list value * option value * option value) :=
  let tmp := py_sorted (fun v => v) xs in
  '(left_, lo') <- left_cut tmp lo ;;
  '(right_, hi') <- right_cut_histogram tmp hi ;;
  Ok (slice tmp left_ right_, lo', hi').

(** The sorted list of pairs [tmp], when the branch builds one. *)
Definition sorted_pairs (g : graph_type) (cat_x cat_y : bool)
    (rows : list (list string)) : res (option (list (value * value))) :=
  if is_timeseries g then
    l <- pairs to_date cat_y rows ;; Ok (Some (py_sorted fst l))
  else if negb cat_x then
    l <- pairs to_float cat_y rows ;; Ok (Some (py_sorted fst l))
  else Ok None.

(** "X-axis ranging" and "final selection" outside histograms: the
    clipped x and y and the two x bounds. *)
Definition clip_xy (g : graph_type) (cat_x cat_y : bool)
    (rows : list (list string)) (xs ys : list value) (lo hi : option value)
  : res (list value * list value * option value * option value) :=
  tmp <- sorted_pairs g cat_x cat_y rows ;;
  let xs1 := match tmp with Some t => map fst t | None => xs end in
  '(left_, lo1) <- left_cut xs1 lo ;;
  '(right_, hi1) <- right_cut xs1 hi ;;
  '(xs2, ys2) <-
     match tmp with
     | Some t =>
         let t' := slice t left_ right_ in
         if is_timeseries g then
           ys' <- (if negb cat_y then mapM float_of (map snd t') else Ok (map snd t')) ;;
           Ok (map fst t', ys')
         else
           xs' <- mapM float_of (map fst t') ;;
           ys' <- (if negb cat_y then mapM float_of (map snd t') else Ok (map snd t')) ;;
           Ok (xs', ys')
     | None => Ok (slice xs1 left_ right_, slice ys left_ right_)
     end ;;
  '(lo2, hi2) <-
     (if negb cat_x && negb (is_timeseries g) then
        a <- float_if_given lo1 ;;
        b <- float_if_given hi1 ;;
        Ok (a, b)
      else Ok (lo1, hi1)) ;;
  Ok (xs2, ys2, lo2, hi2).

(** The body of the loop of [prepare_data] for one dataset. *)
Definition prepare_plot (p : plot) : res plot :=
  let g := graph_type_of p in
  '(xs, cat_x) <- extract_x p ;;
  '(ys, cat_y) <- extract_y p ;;
  '(lo_x, hi_x) <- bounds_x p ;;
  let '(lo_y, hi_y) := bounds_y p in
  if is_histogram g then
    '(xs', lo_x', hi_x') <- clip_histogram xs lo_x hi_x ;;
    Ok (mkPlot g (all_data p) lo_x' hi_x' lo_y hi_y xs' ys cat_x cat_y)
  else
    '(xs', ys', lo_x', hi_x') <- clip_xy g cat_x cat_y (all_data p) xs ys lo_x hi_x ;;
    '(ys'', lo_y', hi_y') <- range_y cat_y ys' lo_y hi_y ;;
    Ok (mkPlot g (all_data p) lo_x' hi_x' lo_y' hi_y' xs' ys'' cat_x cat_y).

End WithParsers.

(** A plot as the main program builds it from a file: graph type, the four
    bound fields of the header and the data lines. *)
Definition read_plot (g : graph_type) (lo_x hi_x lo_y hi_y : string)
    (rows : list (list string)) : plot :=
  mkPlot g rows (Some (VStr lo_x)) (Some (VStr hi_x)) (Some (VStr lo_y)) (Some (VStr hi_y))
         [] [] false false.

End Prepare.

(* ------------------------------------------------------------------ *)
(** ** Concrete readers for plain literals

    [float] and [strptime] are builtins; the two functions below agree
    with them on plain decimal literals ([-12.5]), on [nan], [inf] and
    [-inf], and on zero-padded stamps [YYYY-MM-DD HH:MM:SS], and are used
    to run the model on concrete files. No sample file holds a NaN, so
    [as_given] stands for [sorted] on keys with a NaN. *)

Module Literal.

Definition digit (c : ascii) : option Z :=
  let n := Z.of_nat (nat_of_ascii c) in
  if (48 <=? n)%Z && (n <=? 57)%Z then Some (n - 48)%Z else None.

(** Reads the digits of [s] after the accumulated value [acc]; also
    returns how many digits there were. *)
Fixpoint digits (s : string) (acc : Z) (n : nat) : option (Z * nat) :=
  match s with
  | EmptyString => Some (acc, n)
  | String c s' =>
      match digit c with
      | Some d => digits s' (10 * acc + d)%Z (S n)
      | None => None
      end
  end.

Fixpoint split_dot (s : string) : string * option string :=
  match s with
  | EmptyString => (EmptyString, None)
  | String c s' =>
      if Ascii.eqb c "."%char then (EmptyString, Some s')
      else let '(a, b) := split_dot s' in (String c a, b)
  end.

Definition unsigned (s : string) : option Q :=
  let '(ip, fp) := split_dot s in
  match digits ip 0 0, fp with
  | Some (i, S _), None => Some (inject_Z i)
  | Some (i, S _), Some f =>
      match digits f 0 0 with
      | Some (m, S k) => Some (inject_Z i + Qmake m (Pos.of_nat (10 ^ S k)))%Q
      | _ => None
      end
  | _, _ => None
  end.

Definition dec_float (s : string) : option float :=
  if String.eqb s "nan" then Some NaN
  else if String.eqb s "inf" then Some (Infinite true)
  else if String.eqb s "-inf" then Some (Infinite false)
  else
    match s with
    | String "-"%char s' => option_map (fun q => Finite (Qopp q)) (unsigned s')
    | _ => option_map Finite (unsigned s)
    end.

Definition as_given (A : Type) (key : A -> value) (l : list A) : list A := l.

(** Keeps the digits of a stamp when it has the shape of [DATE_FORMAT]. *)
Fixpoint stamp_digits (shape s : string) (acc : Z) : option Z :=
  match shape, s with
  | EmptyString, EmptyString => Some acc
  | String k shape', String c s' =>
      if Ascii.eqb k "d"%char then
        match digit c with
        | Some d => stamp_digits shape' s' (10 * acc + d)%Z
        | None => None
        end
      else if Ascii.eqb k c then stamp_digits shape' s' acc else None
  | _, _ => None
  end.

Definition stamp (s : string) : option Q :=
  option_map inject_Z (stamp_digits "dddd-dd-dd dd:dd:dd" s 0).

End Literal.

(* ------------------------------------------------------------------ *)
(** ** [original_X]: rebuilding the samples of a bucketed dataset *)

Module Expand.

(** [int(y)] on a float: truncation towards zero. *)
Definition py_int (y : Q) : Z := Z.quot (Qnum y) (Zpos (Qden y)).

Section Values.
Context {A : Type}.

(** [original_X(values, counters, zipped_xy)]; an argument left out is
    [None]. An empty [zipped_xy] is rebuilt from the two lists, and
    [zip] raises when they were left out. *)
Definition original_X (values : option (list A)) (counters : option (list Q))
    (zipped_xy : option (list (A * Q))) : res (list A) :=
  zipped <-
    match zipped_xy with
    | Some (p :: l) => Ok (p :: l)
    | _ =>
        match values, counters with
        | Some vs, Some cs => Ok (combine vs cs)
        | _, _ => Raise TypeError
        end
    end ;;
  Ok (fold_left (fun tmp xy => tmp ++ repeat (fst xy) (Z.to_nat (py_int (snd xy))))
                zipped []).

(** The pairs as the caller holds them when frequencies are counts. *)
Definition with_counts (l : list (A * nat)) : list (A * Q) :=
  map (fun p => (fst p, inject_Z (Z.of_nat (snd p)))) l.

(** Re-aggregation as the specification words it: the lengths of the
    consecutive runs of equal values, in order. *)
Variable eqb : A -> A -> bool.

Fixpoint aggregate_runs (l : list A) : list (A * nat) :=
  match l with
  | [] => []
  | a :: l' =>
      match aggregate_runs l' with
      | (b, n) :: r => if eqb a b then (b, S n) :: r else (a, 1%nat) :: (b, n) :: r
      | [] => [(a, 1%nat)]
      end
  end.
End Values.

End Expand.

(* ------------------------------------------------------------------ *)
(** ** Floating-point arithmetic

    [stat_plot] computes on finite floats. The result of [+], [-], [*]
    or [/] is the float nearest to the exact result, [rnd] of it; the
    values of [sum] on floats and of the library functions [math.pow],
    [statistics.fmean] and [statistics.stdev] are what Python returns.
    All of them are kept as the fields of one record, so that what is
    proved holds whatever the rounding. Overflow is outside the model. *)

Module Float.

Record arith : Type := mkArith {
  rnd : Q -> Q;              (* the float nearest to an exact result *)
  sum : list Q -> Q;         (* sum(l), l a non-empty list of floats *)
  pow : Q -> Q -> Q;         (* math.pow(a, b), where it is defined *)
  fmean : list Q -> Q;       (* statistics.fmean(l), l not empty *)
  stdev : list Q -> Q -> Q   (* statistics.stdev(l, xbar), two points or more *)
}.

(** Exact arithmetic. Float arithmetic agrees with it wherever every
    result is itself a float, as on the sample datasets, which hold
    halves of small integers and whose variances are squares. *)
Definition exact_sum (l : list Q) : Q := fold_left Qplus l 0.

Definition exact_sqrt (a : Q) : Q :=
  let r := Qred a in Qmake (Z.sqrt (Qnum r)) (Pos.sqrt (Qden r)).

Definition exact_pow (a b : Q) : Q :=
  if Qeq_bool b 2 then a * a
  else if Qeq_bool b (1 # 2) then exact_sqrt a
  else 1.

Definition exact : arith :=
  mkArith (fun q => q) exact_sum exact_pow
    (fun l => exact_sum l / inject_Z (Z.of_nat (List.length l)))
    (fun l xbar =>
       exact_sqrt (exact_sum (map (fun v => (v - xbar) * (v - xbar)) l)
                   / inject_Z (Z.of_nat (List.length l - 1)))).

End Float.

(* ------------------------------------------------------------------ *)
(** ** [stat_plot]: moments, theoretical curves, empirical CDF *)

Module Stat.

(** [sum(l)] on ints *)
Definition int_sum (l : list Z) : Z := fold_left Z.add l 0%Z.

(** [Counter(l)]: the distinct values in order of first occurrence, each
    with its number of occurrences. *)
Fixpoint count_up (v : Q) (c : list (Q * Z)) : list (Q * Z) :=
  match c with
  | [] => [(v, 1%Z)]
  | (k, n) :: c' => if Qeq_bool k v then (k, (n + 1)%Z) :: c' else (k, n) :: count_up v c'
  end.

Definition Counter (l : list Q) : list (Q * Z) :=
  fold_left (fun c v => count_up v c) l [].

(** [statistics.quantiles(data, n = 4)] needs two data points; its
    values are only drawn. *)
Definition quantiles {A} (data : list A) : res unit :=
  if (List.length data <? 2)%nat then Raise StatisticsError else Ok tt.

(** The numbers the CDF block adds up and divides: the counts of a
    [Counter] are ints, the frequencies of a bucketed dataset floats. *)
Record number (N : Type) : Type := mkNumber {
  zero : N;                     (* the int 0 as a summand *)
  plus : N -> N -> N;           (* a + b *)
  total : list N -> N;          (* sum(l) *)
  over : N -> N -> res Q        (* a / b *)
}.

Section WithArith.
Variable fl : Float.arith.

(** [a * b], [a - b] and [a + b] on floats *)
Definition mul (a b : Q) : Q := Float.rnd fl (a * b).
Definition sub (a b : Q) : Q := Float.rnd fl (a - b).
Definition add (a b : Q) : Q := Float.rnd fl (a + b).

(** [a / b] on floats *)
Definition py_div (a b : Q) : res Q :=
  if Qeq_bool b 0 then Raise ZeroDivisionError else Ok (Float.rnd fl (a / b)).

(** [a / b] on ints: the float nearest to the quotient *)
Definition int_div (a b : Z) : res Q :=
  if (b =? 0)%Z then Raise ZeroDivisionError
  else Ok (Float.rnd fl (inject_Z a / inject_Z b)).

(** [math.pow(a, 0.5)]: a negative [a] is outside its domain *)
Definition pow_half (a : Q) : res Q :=
  if Qle_bool 0 a then Ok (Float.pow fl a (1 # 2)) else Raise ValueError.

(** [sum(l)] on floats; the sum of no number is the int 0 *)
Definition sum (l : list Q) : Q :=
  match l with [] => 0 | _ => Float.sum fl l end.

(** Mean and standard deviation of a bucketed dataset, lines 1098-1100. *)
Definition moments_buckets (xs ys : list Q) : res (Q * Q) :=
  let zipped_xy := combine xs ys in
  avg <- py_div (sum (map (fun xy => mul (snd xy) (fst xy)) zipped_xy)) (sum ys) ;;
  var <- py_div (sum (map (fun xy => mul (snd xy) (Float.pow fl (sub (fst xy) avg) 2))
                          zipped_xy))
                (sum ys) ;;
  stddev <- pow_half var ;;
  Ok (avg, stddev).

(** [stats.fmean(xs)] and [stats.stdev(xs, avg)], lines 1095-1096. *)
Definition fmean (xs : list Q) : res Q :=
  match xs with
  | [] => Raise StatisticsError
  | _ => Ok (Float.fmean fl xs)
  end.

Definition stdev (xs : list Q) (avg : Q) : res Q :=
  if (List.length xs <? 2)%nat then Raise StatisticsError
  else Ok (Float.stdev fl xs avg).

Definition moments_raw (xs : list Q) : res (Q * Q) :=
  avg <- fmean xs ;;
  stddev <- stdev xs avg ;;
  Ok (avg, stddev).

Definition ints : number Z := mkNumber 0%Z Z.add int_sum int_div.
Definition floats : number Q := mkNumber 0 add sum py_div.

(** [cdf = []; [cdf.append(x[1] + (cdf[-1] if cdf else 0)) for x in counter]],
    [acc] being [cdf[-1]], or 0 while [cdf] is empty. *)
Fixpoint running {N} (num : number N) (acc : N) (counter : list (Q * N)) : list N :=
  match counter with
  | [] => []
  | xc :: counter' =>
      plus num (snd xc) acc :: running num (plus num (snd xc) acc) counter'
  end.

(** Lines 1341-1345: the abscissas and the cumulative probabilities. *)
Definition cdf_points {N} (num : number N) (counter : list (Q * N))
  : res (list Q * list Q) :=
  let x_values := map fst counter in
  let tot := total num (map snd counter) in
  y_values <- mapM (fun c => over num c tot) (running num (zero num) counter) ;;
  Ok (x_values, y_values).

(** Lines 1332-1345. The items of a [Counter] are pairs with distinct
    first components, so [sorted] orders them by value. *)
Definition empirical_cdf (buckets : bool) (xs ys : list Q) : res (list Q * list Q) :=
  if buckets then
    let zipped_xy := combine xs ys in
    data <- Expand.original_X None None (Some zipped_xy) ;;
    _ <- quantiles data ;;
    cdf_points floats zipped_xy
  else
    _ <- quantiles xs ;;
    cdf_points ints (sorted fst Qle_bool (Counter xs)).

End WithArith.

End Stat.

(** The sequence of computations of [stat_plot]. What matplotlib returns
    for the histogram of a raw dataset ([values[0]], the bin heights, and
    [values[1]], the bin edges) is part of the input; a theoretical curve
    is kept as its parameter and the abscissas it is evaluated on. *)
Module Fit.
Import Stat.

Record dataset : Type := mkDataset {
  buckets : bool;          (* "buckets" == plot["graph-type"] *)
  xs : list Q;             (* plot["x"] *)
  ys : list Q;             (* plot["y"], bucketed data only *)
  heights : list Q;        (* values[0] *)
  edges : list Q           (* values[1]; matplotlib returns two edges or more *)
}.

Record curve : Type := mkCurve {
  location : Q;
  x_values : list Q
}.

Record fit : Type := mkFit {
  avg : Q;
  stddev : Q;
  normal : curve;
  poisson : curve;
  poisson_prob : option (list Q);
  exponential : curve;
  uniform : curve;
  quartiles_sample : list Q;
  cdf : list Q * list Q
}.

Section WithPpf.
Variable fl : Float.arith.
(** [scipy.stats.poisson.ppf(q, mu, loc = 0)] *)
Variable ppf : Q -> Q -> res Q.

Definition moments (d : dataset) : res (Q * Q) :=
  if buckets d then moments_buckets fl (xs d) (ys d) else moments_raw fl (xs d).

(** Lines 1145-1150. [a = 1.0/(stddev * math.sqrt(math.tau))] divides
    by zero exactly when the standard deviation is zero. *)
Definition normal_curve (d : dataset) (avg stddev : Q) : res curve :=
  let x_values := if buckets d then xs d else edges d in
  if Qeq_bool stddev 0 then Raise ZeroDivisionError
  else Ok (mkCurve avg x_values).

Definition is_integral (q : Q) : bool := Qeq_bool (inject_Z (Expand.py_int q)) q.

(** Lines 1181-1201. For each abscissa [math.log(avg)] comes first and
    needs a positive mean; [math.factorial(x)] then accepts ints only,
    the abscissas of a bucketed dataset being floats, and no negative
    one; [min(x_values)] needs a point. *)
Definition poisson_curve (d : dataset) (avg : Q) : res curve :=
  let x_values :=
    if buckets d then xs d else map (fun v => inject_Z (Expand.py_int v)) (edges d) in
  _ <- mapM (fun v =>
               if Qle_bool avg 0 then Raise ValueError
               else if buckets d then Raise TypeError
               else if Qle_bool 0 v then Ok v
               else Raise ValueError) x_values ;;
  match x_values with
  | [] => Raise ValueError
  | _ => Ok (mkCurve avg x_values)
  end.

Definition prob_steps : list Q := [0.25; 0.50; 0.75; 0.90; 0.99].

(** Lines 1222-1236: the only computation under [try ... except]. *)
Definition poisson_quantiles (avg : Q) : option (list Q) :=
  match mapM (fun p => ppf p avg) prob_steps with
  | Ok prob => Some prob
  | Raise _ => None
  end.

(** Lines 1241-1249. *)
Definition exponential_curve (d : dataset) (avg : Q) : res curve :=
  avg_exp <- py_div fl 1 avg ;;
  let x_values := if buckets d then xs d else edges d in
  Ok (mkCurve avg_exp (filter (fun v => negb (Qle_bool v 0)) x_values)).

(** Lines 1285-1295. *)
Definition uniform_curve (d : dataset) : res curve :=
  if buckets d then
    avg_uniform <- fmean fl (ys d) ;;
    Ok (mkCurve avg_uniform (xs d))
  else
    avg_uniform <- py_div fl (sum fl (heights d))
                              (inject_Z (Z.of_nat (List.length (heights d)))) ;;
    Ok (mkCurve avg_uniform (edges d)).

(** Lines 1308-1313: the sample handed to [stats.quantiles], which needs
    two points. *)
Definition quartiles_data (d : dataset) : res (list Q) :=
  data <- (if buckets d then Expand.original_X None None (Some (combine (xs d) (ys d)))
           else Ok (xs d)) ;;
  _ <- quantiles data ;;
  Ok data.

(** What [stat_plot] has computed when it comes to the CDF. *)
Record progress : Type := mkProgress {
  so_far_avg : Q;
  so_far_stddev : Q;
  so_far_normal : curve;
  so_far_poisson : curve;
  so_far_prob : option (list Q);
  so_far_exponential : curve;
  so_far_uniform : curve;
  so_far_sample : list Q
}.

(** Lines 1094-1313. *)
Definition before_cdf (d : dataset) : res progress :=
  '(avg, stddev) <- moments d ;;
  n <- normal_curve d avg stddev ;;
  p <- poisson_curve d avg ;;
  let prob := poisson_quantiles avg in
  e <- exponential_curve d avg ;;
  u <- uniform_curve d ;;
  q <- quartiles_data d ;;
  Ok (mkProgress avg stddev n p prob e u q).

Definition with_cdf (pre : progress) (c : list Q * list Q) : fit :=
  mkFit (so_far_avg pre) (so_far_stddev pre) (so_far_normal pre) (so_far_poisson pre)
        (so_far_prob pre) (so_far_exponential pre) (so_far_uniform pre)
        (so_far_sample pre) c.

Definition stat_plot (d : dataset) : res fit :=
  pre <- before_cdf d ;;
  c <- empirical_cdf fl (buckets d) (xs d) (ys d) ;;
  Ok (with_cdf pre c).

(** Lines 1726-1735: one process per dataset, each running [stat_plot]
    on its own; an exception ends that process only. *)
Definition stat_all (ds : list dataset) : list (res fit) := map stat_plot ds.
End WithPpf.

End Fit.

(* ------------------------------------------------------------------ *)
(** ** [do_plot_group_bars]: the shared domain of categorical datasets *)

Module Align.
Import Prepare.

(** [a == b] *)
Definition py_eq (a b : value) : bool :=
  match a, b with
  | VNum p, VNum q => Qeq_bool p q
  | VInf s, VInf t => Bool.eqb s t
  | VStr s, VStr t => String.eqb s t
  | VDate s, VDate t => Qeq_bool s t
  | _, _ => false
  end.

(** [v in l] *)
Definition py_in (v : value) (l : list value) : bool := existsb (py_eq v) l.

(** [l.index(v)], for a [v] that is in [l] *)
Fixpoint py_index (v : value) (l : list value) : nat :=
  match l with
  | [] => 0
  | a :: l' => if py_eq a v then 0 else S (py_index v l')
  end.

(** [l.remove(v)] *)
Fixpoint py_remove (v : value) (l : list value) : list value :=
  match l with
  | [] => []
  | a :: l' => if py_eq a v then l' else a :: py_remove v l'
  end.

(** Lines 873-878: the keys of the group in order of first appearance. *)
Definition merge_keys (nb_datasets : nat) (group : list plot) : list value :=
  fold_left
    (fun merged p =>
       if is_categorical_in_x p && (1 <? nb_datasets)%nat then
         fold_left (fun m v => if negb (py_in v m) then m ++ [v] else m) (x p) merged
       else merged)
    group [].

(** Lines 873-881: [merged_x] after [merged_x.sort()]. *)
Definition merged_x (group : list plot) : list value :=
  sorted (fun v => v) leb (merge_keys (List.length group) group).

(** Lines 889 and 897: the y values of [p] laid out on [merged]. *)
Definition realign (gap : value) (p : plot) (merged : list value) : res (list value) :=
  mapM (fun v => if py_in v (x p) then index (y p) (py_index v (x p)) else Ok gap) merged.

(** What the loop carries from one dataset to the next. *)
Record carried : Type := mkCarried {
  null_value_found : bool;
  x_data : list value
}.

(** Lines 887-902 for one dataset: the [x_data] and [y_data] handed to
    [do_plot_individual_bar], and the state carried on. *)
Definition align_one (nb_datasets : nat) (merged : list value) (st : carried) (p : plot)
  : res (list value * list value * carried) :=
  if is_categorical_in_x p && (1 <? nb_datasets)%nat then
    if is_categorical_in_y p then
      y_data <- realign (VStr "") p merged ;;
      if negb (null_value_found st) && py_in (VStr "") y_data then
        Ok (x_data st, VStr "" :: py_remove (VStr "") y_data, mkCarried true (x_data st))
      else Ok (x_data st, y_data, st)
    else
      y_data <- realign VNaN p merged ;;
      Ok (x_data st, y_data, st)
  else Ok (x p, y p, mkCarried (null_value_found st) (x p)).

Fixpoint align_from (nb_datasets : nat) (merged : list value) (st : carried)
    (group : list plot) : res (list (list value * list value)) :=
  match group with
  | [] => Ok []
  | p :: group' =>
      '(xd, yd, st') <- align_one nb_datasets merged st p ;;
      rest <- align_from nb_datasets merged st' group' ;;
      Ok ((xd, yd) :: rest)
  end.

(** Lines 870-903: the data plotted for each dataset of the group, in
    order. *)
Definition align_group (group : list plot) : res (list (list value * list value)) :=
  let merged := merged_x group in
  let x0 := map (fun i => VNum (inject_Z (Z.of_nat i))) (seq 0 (List.length merged)) in
  align_from (List.length group) merged (mkCarried false x0) group.

(** [a < b] on what [plot["min-y"]] holds; [None] compares with nothing. *)
Definition lt_entry (a b : option value) : res bool :=
  match a, b with
  | Some u, Some v => lt u v
  | _, _ => Raise TypeError
  end.

Fixpoint min_entry_from (m : option value) (l : list (option value))
  : res (option value) :=
  match l with
  | [] => Ok m
  | c :: l' => b <- lt_entry c m ;; min_entry_from (if b then c else m) l'
  end.

(** Line 869: [minY = min([plot["min-y"] for plot in gr["plot"]])] *)
Definition min_y_of (group : list plot) : res (option value) :=
  match map min_y group with
  | [] => Raise ValueError
  | c :: l' => min_entry_from c l'
  end.

(** The data plotted for each dataset of the group, in order. The
    bottom of the bars, [minY], is computed first; it is handed to the
    rendering, as are titles and legends, which are left out. *)
Definition do_plot_group_bars (group : list plot) : res (list (list value * list value)) :=
  _ <- min_y_of group ;;
  align_group group.

End Align.

(* ------------------------------------------------------------------ *)
(** ** The exploded slices of a pie ([prepare_data], line 1422) *)

Module Pie.

(** [plot["exploded"]]: one offset per data line of two fields or more,
    0.1 when the third field is "e". *)
Definition exploded (rows : list (list string)) : list Q :=
  map (fun sp => if (2 <? List.length sp)%nat && String.eqb (nth 2 sp EmptyString) "e"
                 then 0.1 else 0)
      (Prepare.rows_with 2 rows).

End Pie.

(* ------------------------------------------------------------------ *)
(** ** [saving_logic] and [check_geometry] *)

Module Cli.

Definition DEFAULT_FILE_FORMAT : string := "svg".
Definition DEFAULT_GRAPHS_PER_ROW : Z := 3.

Definition FORMAT_CHOICES : list string :=
  ["raw"; "rgba"; "png"; "jpg"; "jpeg"; "tif"; "tiff"; "ps"; "pgf"; "pdf"; "eps";
   "svg"; "svgz"]%string.

(** [s.rfind(c)]: the index of the last [c] in [s], or -1. *)
Fixpoint rfind_from (c : ascii) (s : string) (i last : Z) : Z :=
  match s with
  | EmptyString => last
  | String a s' => rfind_from c s' (i + 1)%Z (if Ascii.eqb a c then i else last)
  end.

Definition rfind (c : ascii) (s : string) : Z := rfind_from c s 0%Z (-1)%Z.

(** [s[n:]] for [n >= 0] *)
Definition from (n : nat) (s : string) : string :=
  String.substring n (String.length s - n) s.

(** [s in l] on text *)
Definition mem (s : string) (l : list string) : bool := existsb (String.eqb s) l.

(** [saving_logic(save_as, save_as_format)]; [None] is Python's [None]. *)
Definition saving_logic (save_as save_as_format : option string)
  : option string * bool * option string :=
  match save_as with
  | Some name =>
      let '(name1, b_replace) :=
        if String.eqb (String.substring 0 1 name) "!" then (from 1 name, true)
        else (name, false) in
      match save_as_format with
      | None =>
          let pos := rfind "."%char name1 in
          if (-1 <? pos)%Z && mem (from (Z.to_nat (pos + 1)) name1) FORMAT_CHOICES
          then (Some name1, b_replace, Some (from (Z.to_nat (pos + 1)) name1))
          else (Some name1, b_replace, Some DEFAULT_FILE_FORMAT)
      | Some fmt => (Some name1, b_replace, Some fmt)
      end
  | None => (None, false, Some DEFAULT_FILE_FORMAT)
  end.

(** [a // b] on integers *)
Definition floordiv (a b : Z) : res Z :=
  if (b =? 0)%Z then Raise ZeroDivisionError else Ok (a / b)%Z.

(** [check_geometry(nb_graphs, geometry)]. The regular expression and
    [int] of the branch that reads a geometry are the parameter
    [parse_geom], [None] when the expression does not match. *)
Definition check_geometry (parse_geom : string -> option (Z * Z))
    (nb_graphs : Z) (geometry : option string) : res (option (Z * Z)) :=
  match geometry with
  | None =>
      let nb_cols :=
        if (nb_graphs <=? DEFAULT_GRAPHS_PER_ROW)%Z then nb_graphs
        else DEFAULT_GRAPHS_PER_ROW in
      q <- floordiv (nb_graphs - 1) nb_cols ;;
      Ok (Some ((q + 1)%Z, nb_cols))
  | Some text =>
      match parse_geom text with
      | None => Ok None
      | Some (nb_rows, nb_cols) => Ok (Some (nb_rows, nb_cols))
      end
  end.

End Cli.

(* ------------------------------------------------------------------ *)
(** ** Reading the files of a group (main program) *)

Module Ingest.

(** [s.split(sep)] for a separator of one character. *)
Fixpoint split (sep : ascii) (s : string) : list string :=
  match s with
  | EmptyString => [EmptyString]
  | String c s' =>
      if Ascii.eqb c sep then EmptyString :: split sep s'
      else match split sep s' with
           | h :: t => String c h :: t
           | [] => [String c EmptyString]
           end
  end.

Definition newline : ascii := ascii_of_nat 10.

(** [l and not l.startswith("#")] *)
Definition keep_line (l : string) : bool :=
  negb (String.eqb l "") && negb (String.prefix "#" l).

(** [plot["all-data"]]: the lines of the file that are neither empty nor
    comments. *)
Definition all_data_of (text : string) : list string :=
  filter keep_line (split newline text).

(** [GRAPH_TYPES], as names and as the enumeration of the preparation. *)
Definition of_name (name : string) : option Prepare.graph_type :=
  if String.eqb name "timeseries" then Some Prepare.Timeseries
  else if String.eqb name "histogram" then Some Prepare.Histogram
  else if String.eqb name "bar" then Some Prepare.Bar
  else if String.eqb name "line" then Some Prepare.Line
  else if String.eqb name "scatter" then Some Prepare.Scatter
  else if String.eqb name "stem" then Some Prepare.Stem
  else if String.eqb name "pie" then Some Prepare.Pie
  else if String.eqb name "buckets" then Some Prepare.Buckets
  else None.

(** What the main program keeps of one file. *)
Record dataset : Type := mkDataset {
  graph_type : string;
  title : string;
  x_axis_label : string;
  y_axis_label : string;
  legends : string;
  save_as : option string;
  b_replace : bool;
  save_as_format : option string;
  nb_bins : option Z;
  plot : Prepare.plot
}.

Inductive step : Type :=
| Accepted (d : dataset)
| Skipped                 (* warning, [continue] *)
| Exit                    (* [exit(1)] *)
| Crash (e : exn).

Section WithInt.
(** [int(s)] on text, [None] when it raises [ValueError] *)
Variable py_int : string -> option Z.

(** The body of the loop over the files of a group, lines 1575-1605. *)
Definition load_file (current_plot : option string) (text : string) : step :=
  match all_data_of text with
  | [] => Crash IndexError
  | header :: data =>
      let tmp := split "|"%char header in
      match tmp with
      | [] => Crash IndexError
      | t0 :: _ =>
          if truthy (option_map VStr current_plot)
             && negb (String.eqb t0 (match current_plot with Some c => c | None => "" end))
          then Skipped
          else
            match of_name t0 with
            | None => Exit
            | Some g =>
                match nth_error tmp 1, nth_error tmp 2, nth_error tmp 3,
                      nth_error tmp 4, nth_error tmp 5, nth_error tmp 6,
                      nth_error tmp 7, nth_error tmp 8, nth_error tmp 9,
                      nth_error tmp 10 with
                | Some t1, Some t2, Some t3, Some t4, Some t5, Some t6, Some t7,
                  Some t8, Some t9, Some t10 =>
                    let '(name, replace_, fmt) := Cli.saving_logic (Some t9) (Some t10) in
                    let p := Prepare.read_plot g t4 t5 t6 t7
                               (map (split ","%char) data) in
                    let result bins :=
                      Accepted (mkDataset t0 t1 t2 t3 t8 name replace_ fmt bins p) in
                    if Prepare.is_histogram g then
                      match nth_error tmp 11 with
                      | None => Crash IndexError
                      | Some t11 =>
                          if String.eqb t11 "" then result None
                          else match py_int t11 with
                               | Some n => result (Some n)
                               | None => Crash ValueError
                               end
                      end
                    else result None
                | _, _, _, _, _, _, _, _, _, _ => Crash IndexError
                end
            end
      end
  end.

Inductive loaded : Type :=
| Loaded (ds : list dataset)
| Aborted
| Crashed (e : exn).

(** The loop over the files of one group, [current_plot] being the type
    of the group so far. *)
Fixpoint load_group (current_plot : option string) (texts : list string) : loaded :=
  match texts with
  | [] => Loaded []
  | text :: texts' =>
      match load_file current_plot text with
      | Accepted d =>
          match load_group (Some (graph_type d)) texts' with
          | Loaded ds => Loaded (d :: ds)
          | other => other
          end
      | Skipped => load_group current_plot texts'
      | Exit => Aborted
      | Crash e => Crashed e
      end
  end.

End WithInt.

End Ingest.

(* ------------------------------------------------------------------ *)
(** ** Vocabulary of the statements *)

(** The index a scan stops at, for a test that cannot raise. *)
Fixpoint find_first {A} (f : A -> bool) (l : list A) : option nat :=
  match l with
  | [] => None
  | v :: l' => if f v then Some 0%nat else option_map S (find_first f l')
  end.

(** The first index whose key is at least [a], or 0 when there is none. *)
Definition lower_cut {A} (k : A -> Q) (a : Q) (t : list A) : nat :=
  match find_first (fun u => Qle_bool a (k u)) t with Some i => i | None => 0%nat end.

(** The first index whose key exceeds [b], or the length when there is
    none. *)
Definition upper_cut {A} (k : A -> Q) (b : Q) (t : list A) : nat :=
  match find_first (fun u => negb (Qle_bool (k u) b)) t with
  | Some i => i
  | None => List.length t
  end.

(** The rational a float or a datetime stands for. *)
Definition keyq (v : value) : Q :=
  match v with VNum q | VDate q => q | _ => 0 end.

(** The kind of x a graph type with a numeric or timestamp axis holds. *)
Definition inj (g : Prepare.graph_type) (q : Q) : value :=
  if Prepare.is_timeseries g then VDate q else VNum q.

Definition kind (g : Prepare.graph_type) (v : value) : Prop := v = inj g (keyq v).

(** The reader of x on a numeric or timestamp axis. *)
Definition conv (py_float : string -> option float) (strptime : string -> option Q)
    (g : Prepare.graph_type) : string -> res value :=
  if Prepare.is_timeseries g then Prepare.to_date strptime else Prepare.to_float py_float.

(** A bound of the x range is usable on an axis of kind [g] when it is
    left out (or zero, which Python takes for left out) or is of that
    kind. *)
Definition bound_kind (g : Prepare.graph_type) (b : option value) : Prop :=
  Prepare.given b = None \/ exists q, b = Some (inj g q).

Definition first_key (xs : list value) : Q :=
  match xs with v :: _ => keyq v | [] => 0 end.

Definition last_key (xs : list value) : Q :=
  match rev xs with v :: _ => keyq v | [] => 0 end.

(** The bound in force: the one given, or else the observed one. *)
Definition bound_or (b : option value) (observed : Q) : Q :=
  match Prepare.given b with Some m => keyq m | None => observed end.

(** Ascending order of the rationals values stand for. *)
Definition ascending (u v : value) : Prop := Qle_bool (keyq u) (keyq v) = true.

(** [a <= v <= b] on the rational [v] stands for. *)
Definition in_range (a b : Q) (v : value) : bool :=
  Qle_bool a (keyq v) && Qle_bool (keyq v) b.

(** [c'] is what y-clipping with the bounds in force leaves of [c]: the
    value itself, or the gap sentinel exactly when a bound excludes it. *)
Definition blanked (lo hi : option value) (c c' : value) : Prop :=
  (c' = c \/ c' = VNaN) /\
  (forall m, lo = Some m -> Py.ge c m = Ok false -> c' = VNaN) /\
  (forall m, hi = Some m -> Py.le c m = Ok false -> c' = VNaN) /\
  (c' = VNaN ->
   c = VNaN \/
   (exists m, lo = Some m /\ Py.ge c m = Ok false) \/
   (exists m, hi = Some m /\ Py.le c m = Ok false)).

(** The flat sequence the specification asks of a frequency expansion:
    each value as many times as its count, in the order of the pairs. *)
Definition expansion {A} (l : list (A * nat)) : list A :=
  flat_map (fun p => repeat (fst p) (snd p)) l.





(** Rounding keeps the order and keeps 1. *)
Definition monotone (fl : Float.arith) : Prop :=
  (forall a b, a <= b -> Float.rnd fl a <= Float.rnd fl b) /\
  Float.rnd fl 1 == 1.

(** The number of samples not above [v]. *)
Definition count_le (xs : list Q) (v : Q) : Z :=
  Z.of_nat (List.length (filter (fun u => Qle_bool u v) xs)).

(** The counts of a counter at the keys not above [v], added up. *)
Fixpoint counted_le (c : list (Q * Z)) (v : Q) : Z :=
  match c with
  | [] => 0
  | (k, n) :: c' => ((if Qle_bool k v then n else 0) + counted_le c' v)%Z
  end.

(** The empirical distribution function of a sample at the points
    [keys]: the share of the samples not above each point, as a float. *)
Definition empirical (fl : Float.arith) (xs keys : list Q) : list Q :=
  map (fun x => Float.rnd fl (inject_Z (count_le xs x)
                              / inject_Z (Z.of_nat (List.length xs)))) keys.

(** Floats: finite numbers, NaN and the infinities. *)
Definition is_float (v : value) : Prop :=
  match v with VNum _ | VNaN | VInf _ => True | _ => False end.

(** The min-y of the datasets of a group can be compared with each other:
    they are all floats, or all text. *)
Definition comparable_min_y (group : list Prepare.plot) : Prop :=
  Forall (fun p => exists v, Prepare.min_y p = Some v /\ is_float v) group \/
  Forall (fun p => exists s, Prepare.min_y p = Some (VStr s)) group.

(** Text values, the keys of a categorical axis. *)
Definition is_str (v : value) : Prop := exists s, v = VStr s.

Definition str_key (v : value) : string :=
  match v with VStr s => s | _ => EmptyString end.

(** A bound of the x range that is left out (empty or zero) or is text. *)
Definition text_bound (b : option value) : Prop :=
  Prepare.given b = None \/ exists s, b = Some (VStr s).

(** The first index whose label is not below the min-x given, as text; 0
    when there is none, or when min-x is left out. *)
Definition label_lower_cut (lo : option value) (labels : list string) : nat :=
  match Prepare.given lo with
  | Some m =>
      match find_first (fun s => String.leb (str_key m) s) labels with
      | Some i => i
      | None => 0%nat
      end
  | None => 0%nat
  end.

(** The first index whose label is above the max-x given, as text; the
    number of labels when there is none, or when max-x is left out. *)
Definition label_upper_cut (hi : option value) (labels : list string) : nat :=
  match Prepare.given hi with
  | Some m =>
      match find_first (fun s => String.ltb (str_key m) s) labels with
      | Some i => i
      | None => List.length labels
      end
  | None => List.length labels
  end.

(** The bound written back: the one given, or else the label observed. *)
Definition label_or (b : option value) (observed : string) : option value :=
  match Prepare.given b with Some _ => b | None => Some (VStr observed) end.

(** What a dataset holds at a key of the shared domain: its y at the
    first occurrence of the key, or the gap sentinel. *)
Definition own_value (gap : value) (p : Prepare.plot) (v : value) : value :=
  if Align.py_in v (Prepare.x p)
  then nth (Align.py_index v (Prepare.x p)) (Prepare.y p) gap
  else gap.

(** What [do_plot_group_bars] plots for dataset [p] on the shared domain
    [merged]: as many y values as keys; for a numeric y the dataset's own
    values with NaN at the keys it lacks; for a categorical y the own
    values with the empty string at the keys it lacks, the first empty
    entry possibly moved to the front. *)
Definition realigned (merged : list value) (p : Prepare.plot)
    (out : list value * list value) : Prop :=
  List.length (snd out) = List.length merged /\
  (Prepare.is_categorical_in_y p = false ->
   snd out = map (own_value VNaN p) merged) /\
  (Prepare.is_categorical_in_y p = true ->
   let aligned := map (own_value (VStr "") p) merged in
   snd out = aligned \/
   (Align.py_in (VStr "") aligned = true /\
    snd out = VStr "" :: Align.py_remove (VStr "") aligned)).

(* ------------------------------------------------------------------ *)
(** ** Sample datasets *)

(** A bar chart file with x values 1, 3, 2. *)
Definition rows_132 : list (list string) :=
  [["1"; "5"]; ["3"; "6"]; ["2"; "7"]]%string.

Definition pairs_132 : list (value * value) :=
  [(VNum 1, VNum 5); (VNum 3, VNum 6); (VNum 2, VNum 7)].

(** A bar chart file with the labels a, b, c. *)
Definition rows_abc : list (list string) :=
  [["a"; "5"]; ["b"; "6"]; ["c"; "7"]]%string.

(** A bucketed dataset with the single bucket (2, 3): its standard
    deviation is zero. *)
Definition single_bucket : Fit.dataset := Fit.mkDataset true [2] [3] [] [].

(** A bucketed dataset with the buckets (1, 1) and (3, 1): mean 2,
    standard deviation 1. *)
Definition two_buckets : Fit.dataset := Fit.mkDataset true [1; 3] [1; 1] [] [].

(** The raw sample 0.5, 2.5, 2.5, 2.5 (mean 2, standard deviation 1) with
    its histogram on two bins: heights 1 and 3, edges 0.5, 1.5, 2.5. *)
Definition raw_halves : Fit.dataset :=
  Fit.mkDataset false [1 # 2; 5 # 2; 5 # 2; 5 # 2] [] [1; 3] [1 # 2; 3 # 2; 5 # 2].

(** A raw dataset with a single sample. *)
Definition raw_single : Fit.dataset := Fit.mkDataset false [5] [] [] [].

(** A quantile function that always answers. *)
Definition ppf_mean (q mu : Q) : res Q := Ok mu.

(** Two bar datasets over the key sets {a, c} and {b, c}, with numeric
    and with text y values; [lo] is the min-y the preparation has left,
    the smallest y of a numeric axis and the first y of a categorical
    one. *)
Definition bars (keys ys : list value) (cat_y : bool) (lo : value) : Prepare.plot :=
  Prepare.mkPlot Prepare.Bar [] None None (Some lo) None keys ys true cat_y.

Definition group_numeric : list Prepare.plot :=
  [bars [VStr "a"; VStr "c"] [VNum 1; VNum 3] false (VNum 1);
   bars [VStr "b"; VStr "c"] [VNum 2; VNum 4] false (VNum 2)].

Definition group_text : list Prepare.plot :=
  [bars [VStr "a"; VStr "c"] [VStr "u"; VStr "w"] true (VStr "u");
   bars [VStr "b"; VStr "c"] [VStr "p"; VStr "q"] true (VStr "p")].

(** A group mixing a dataset with numeric y and one with text y. *)
Definition group_mixed : list Prepare.plot :=
  [bars [VStr "a"; VStr "c"] [VNum 1; VNum 3] false (VNum 1);
   bars [VStr "b"; VStr "c"] [VStr "p"; VStr "q"] true (VStr "p")].

(** The gap sentinel of a dataset and its y values laid out on the
    shared domain, before any reordering. *)
Definition gap_of (p : Prepare.plot) : value :=
  if Prepare.is_categorical_in_y p then VStr "" else VNaN.

Definition laid_out (merged : list value) (p : Prepare.plot)
    (out : list value * list value) : Prop :=
  snd out = map (own_value (gap_of p) p) merged.

(** A time series file whose second line does not start with a stamp. *)
Definition series_bad_stamp : Prepare.plot :=
  Prepare.read_plot Prepare.Timeseries "" "" "" ""
    [["2024-01-02 03:04:05"; "1"]; ["yesterday"; "2"]]%string.

(** The text of three files: two bar charts and a line chart. *)
Definition nl : string := String Ingest.newline EmptyString.

Definition file_bar_1 : string :=
  ("bar|first|x|y|||||one|!f.svg|svg" ++ nl ++ "# a comment" ++ nl ++ nl ++ "1,2" ++ nl)%string.

Definition file_line : string :=
  ("line|second|x|y|||||two|g|png" ++ nl ++ "1,2" ++ nl)%string.

Definition file_bar_2 : string :=
  ("bar|third|x|y|||||three||" ++ nl ++ "3,4" ++ nl)%string.

(** [int] on text is not called by these files. *)
Definition no_int (s : string) : option Z := None.

(* ================================================================== *)
(** * Properties *)

(** ** Sorting, searching and slicing *)

Section SortFacts.
Context {A K : Type} (key : A -> K) (kle : K -> K -> bool).
Hypothesis kle_total : forall a b, kle a b = false -> kle b a = true.
Hypothesis kle_trans : forall a b c, kle a b = true -> kle b c = true -> kle a c = true.

Let ord (a b : A) : Prop := kle (key a) (key b) = true.

Lemma insert_perm (a : A) (l : list A) : Permutation (a :: l) (insert key kle a l).
Proof.
  induction l as [|b l IH]; simpl; [reflexivity|].
  destruct (kle (key a) (key b)); [reflexivity|].
  rewrite perm_swap. now constructor.
Qed.

Lemma sorted_perm (l : list A) : Permutation l (sorted key kle l).
Proof.
  induction l as [|a l IH]; simpl; [constructor|].
  rewrite <- insert_perm. now constructor.
Qed.

Lemma insert_sorted (a : A) (l : list A) :
  StronglySorted ord l -> StronglySorted ord (insert key kle a l).
Proof.
  induction 1 as [|b l Hl IH Hb]; simpl.
  - repeat constructor.
  - destruct (kle (key a) (key b)) eqn:E.
    + constructor; [now constructor|].
      constructor; [exact E|].
      eapply Forall_impl; [|exact Hb]. intros c Hc. unfold ord in *. eauto.
    + constructor; [exact IH|].
      eapply Permutation_Forall; [apply insert_perm|].
      constructor; [now apply kle_total | exact Hb].
Qed.

Lemma sorted_sorted (l : list A) : StronglySorted ord (sorted key kle l).
Proof.
  induction l; simpl; [constructor | now apply insert_sorted].
Qed.
End SortFacts.

Lemma first_index_pure {A} (p : A -> res bool) (f : A -> bool) (l : list A) :
  Forall (fun v => p v = Ok (f v)) l ->
  first_index p l = Ok (find_first f l).
Proof.
  induction 1 as [|v l Hv _ IH]; simpl; [reflexivity|].
  rewrite Hv; simpl. destruct (f v); [reflexivity|].
  now rewrite IH.
Qed.

Lemma find_first_none {A} (f : A -> bool) (l : list A) :
  find_first f l = None <-> Forall (fun v => f v = false) l.
Proof.
  induction l as [|v l IH]; simpl.
  - split; [constructor | reflexivity].
  - destruct (f v) eqn:E.
    + split; [discriminate|]. intros H. inversion H; congruence.
    + destruct (find_first f l); simpl.
      * split; [discriminate|]. intros H. inversion H; subst.
        apply IH in H3. discriminate.
      * split; [|reflexivity]. intros _. constructor; [exact E | now apply IH].
Qed.

Lemma slice_all {A} (l : list A) : slice l 0 (List.length l) = l.
Proof. unfold slice. rewrite Nat.sub_0_r. simpl. apply firstn_all. Qed.

Lemma slice_cons {A} (v : A) (l : list A) (a b : nat) :
  slice (v :: l) (S a) (S b) = slice l a b.
Proof. reflexivity. Qed.

(** On a list sorted by a rational key, the slice between the first
    element not below [a] and the first element above [b] is the filter
    of the elements whose key is in [[a, b]]. *)
Section SliceSorted.
Context {A : Type} (k : A -> Q).
Variables a b : Q.

Let lower (u : A) : bool := Qle_bool a (k u).
Let above (u : A) : bool := negb (Qle_bool (k u) b).
Let inside (u : A) : bool := Qle_bool a (k u) && Qle_bool (k u) b.

Let ord (u v : A) : Prop := Qle_bool (k u) (k v) = true.

Lemma prefix_below (t : list A) :
  StronglySorted ord t ->
  firstn (upper_cut k b t) t = filter (fun u => Qle_bool (k u) b) t.
Proof.
  unfold upper_cut. fold above.
  induction 1 as [|u t Ht IH Hu]; simpl; [reflexivity|].
  unfold above at 1. destruct (Qle_bool (k u) b) eqn:E; simpl.
  - destruct (find_first above t) as [i|] eqn:F; simpl in *; now rewrite IH.
  - symmetry. clear IH Ht.
    induction Hu as [|v t Hv _ IHu]; simpl; [reflexivity|].
    assert (Qle_bool (k v) b = false) as ->.
    { destruct (Qle_bool (k v) b) eqn:G; [|reflexivity].
      unfold ord in Hv. rewrite Qle_bool_iff in Hv, G.
      assert (Qle_bool (k u) b = true) by (apply Qle_bool_iff; eapply Qle_trans; eauto).
      congruence. }
    exact IHu.
Qed.

Lemma slice_cuts_inside (t : list A) :
  StronglySorted ord t ->
  find_first lower t <> None ->
  slice t (lower_cut k a t) (upper_cut k b t) = filter inside t.
Proof.
  induction 1 as [|u t Ht IH Hu]; intros Hex; [now elim Hex|].
  destruct (lower u) eqn:El.
  - unfold lower_cut. fold lower. cbn [find_first]. rewrite El.
    unfold slice. rewrite Nat.sub_0_r. cbn [skipn].
    rewrite prefix_below by now constructor.
    symmetry. apply filter_ext_in. intros v Hv. unfold inside.
    assert (Qle_bool a (k v) = true) as ->; [|reflexivity].
    destruct Hv as [<-|Hv]; [exact El|].
    rewrite Forall_forall in Hu. specialize (Hu v Hv). unfold ord, lower in *.
    rewrite Qle_bool_iff in *. eapply Qle_trans; eauto.
  - assert (Hex' : find_first lower t <> None).
    { intros Hn. apply Hex. simpl. now rewrite El, Hn. }
    assert (Hin : inside u = false) by (unfold inside; unfold lower in El; now rewrite El).
    unfold lower_cut, upper_cut in IH |- *. fold lower in IH |- *. fold above in IH |- *.
  simpl. rewrite El, Hin.
    destruct (find_first lower t) as [i|] eqn:Fl; [|now elim Hex'].
    simpl. destruct (above u) eqn:Ea.
    + unfold slice. simpl. symmetry.
      clear IH Ht Fl Hex Hex'.
      induction Hu as [|v t Hv _ IHu]; simpl; [reflexivity|].
      assert (inside v = false) as ->; [|exact IHu].
      unfold inside, above, ord in *.
      destruct (Qle_bool (k v) b) eqn:G; [|apply andb_false_r].
      rewrite Qle_bool_iff in Hv, G.
      assert (Qle_bool (k u) b = true) by (apply Qle_bool_iff; eapply Qle_trans; eauto).
      rewrite H in Ea. discriminate.
    + destruct (find_first above t) as [j|] eqn:Fa; simpl;
        rewrite slice_cons; now apply IH.
Qed.

End SliceSorted.

Unset Implicit Arguments.

(** ** Values of one kind *)

Lemma kind_inj g q : kind g (inj g q).
Proof. unfold kind, inj. now destruct (Prepare.is_timeseries g). Qed.

Lemma keyq_inj g q : keyq (inj g q) = q.
Proof. unfold inj. now destruct (Prepare.is_timeseries g). Qed.

Lemma le_kind g u v : kind g u -> kind g v -> Py.le u v = Ok (Qle_bool (keyq u) (keyq v)).
Proof.
  unfold kind, inj. intros -> ->. now destruct (Prepare.is_timeseries g).
Qed.

Lemma lt_kind g u v :
  kind g u -> kind g v -> Py.lt u v = Ok (negb (Qle_bool (keyq v) (keyq u))).
Proof.
  unfold kind, inj. intros -> ->. now destruct (Prepare.is_timeseries g).
Qed.

Lemma leb_kind g u v : kind g u -> kind g v -> Py.leb u v = Qle_bool (keyq u) (keyq v).
Proof. intros Hu Hv. unfold Py.leb. now rewrite (le_kind g u v Hu Hv). Qed.

Lemma Qle_bool_total (a b : Q) : Qle_bool a b = false -> Qle_bool b a = true.
Proof.
  intros H. apply Qle_bool_iff. destruct (Qlt_le_dec b a) as [L|L].
  - now apply Qlt_le_weak.
  - apply Qle_bool_iff in L. congruence.
Qed.

Lemma Qle_bool_trans (a b c : Q) :
  Qle_bool a b = true -> Qle_bool b c = true -> Qle_bool a c = true.
Proof. rewrite !Qle_bool_iff. apply Qle_trans. Qed.

Lemma Qle_bool_refl (a : Q) : Qle_bool a a = true.
Proof. apply Qle_bool_iff, Qle_refl. Qed.

Lemma insert_kind {A} g (key : A -> value) (a : A) (l : list A) :
  kind g (key a) -> Forall (fun b => kind g (key b)) l ->
  insert key Py.leb a l = insert (fun b => keyq (key b)) Qle_bool a l.
Proof.
  intros Ha. induction 1 as [|b l Hb _ IH]; simpl; [reflexivity|].
  rewrite (leb_kind g _ _ Ha Hb). now rewrite IH.
Qed.

Lemma sorted_kind {A} g (key : A -> value) (l : list A) :
  Forall (fun b => kind g (key b)) l ->
  sorted key Py.leb l = sorted (fun b => keyq (key b)) Qle_bool l.
Proof.
  induction 1 as [|a l Ha Hl IH]; simpl; [reflexivity|].
  rewrite IH. apply (insert_kind g); [exact Ha|].
  eapply Permutation_Forall; [apply sorted_perm | exact Hl].
Qed.

Lemma find_first_map {A B} (h : A -> B) (f : B -> bool) (l : list A) :
  find_first f (map h l) = find_first (fun u => f (h u)) l.
Proof. induction l as [|u l IH]; simpl; [reflexivity | now rewrite IH]. Qed.

Lemma mapM_id {A} (f : A -> res A) (l : list A) :
  Forall (fun v => f v = Ok v) l -> mapM f l = Ok l.
Proof.
  induction 1 as [|v l Hv _ IH]; simpl; [reflexivity|]. now rewrite Hv, IH.
Qed.

Lemma mapM_Forall2 {A B} (f : A -> res B) (l : list A) (l' : list B) :
  mapM f l = Ok l' -> Forall2 (fun a b => f a = Ok b) l l'.
Proof.
  revert l'. induction l as [|a l IH]; simpl; intros l' H.
  - inversion H. constructor.
  - destruct (f a) eqn:E; [|discriminate]. simpl in H.
    destruct (mapM f l) eqn:M; [|discriminate]. simpl in H.
    inversion H; subst. constructor; [exact E | now apply IH].
Qed.

Lemma mapM_length {A B} (f : A -> res B) (l : list A) (l' : list B) :
  mapM f l = Ok l' -> List.length l' = List.length l.
Proof.
  intros H. apply mapM_Forall2 in H. symmetry. eapply Forall2_length; eauto.
Qed.

Lemma last_item_app {A} (l : list A) (v : A) : last_item (l ++ [v]) = Ok v.
Proof. unfold last_item. now rewrite rev_unit. Qed.

Lemma sorted_last_max {A} (ord : A -> A -> Prop) (l : list A) (v : A) :
  ord v v -> StronglySorted ord (l ++ [v]) -> Forall (fun u => ord u v) (l ++ [v]).
Proof.
  intros Hr. induction l as [|u l IH]; simpl; intros H.
  - repeat constructor. exact Hr.
  - inversion H; subst. constructor; [|now apply IH].
    rewrite Forall_forall in H3. apply H3. apply in_or_app. right. now left.
Qed.

(** ** The two scans of the x-axis on values of one kind *)

Section CutFacts.
Import Prepare.
Variable g : graph_type.

Lemma given_some (b : option value) (m : value) : given b = Some m -> b = Some m.
Proof. unfold given. destruct (truthy b); [auto | discriminate]. Qed.

Lemma left_cut_kind (xs : list value) (lo : option value) :
  Forall (kind g) xs -> xs <> [] -> bound_kind g lo ->
  let a := bound_or lo (first_key xs) in
  left_cut xs lo = Ok (lower_cut keyq a xs, Some (inj g a)).
Proof.
  intros Hk Hne Hb a. unfold left_cut, bound_or in *.
  destruct (given lo) as [m|] eqn:G.
  - subst a. apply given_some in G as Hlo. destruct Hb as [Hb|[q Hq]]; [congruence|].
    assert (m = inj g q) by congruence. subst m lo. rewrite keyq_inj.
    rewrite (first_index_pure _ (fun v => Qle_bool q (keyq v))).
    + reflexivity.
    + eapply Forall_impl; [|exact Hk]. intros v Hv. unfold ge.
      rewrite (le_kind g _ _ (kind_inj g q) Hv). now rewrite keyq_inj.
  - destruct xs as [|v xs]; [now elim Hne|]. subst a. simpl.
    inversion Hk; subst. unfold lower_cut. simpl. rewrite Qle_bool_refl.
    now rewrite <- H1.
Qed.

Lemma right_cut_kind (xs : list value) (hi : option value) :
  Forall (kind g) xs -> xs <> [] -> StronglySorted ascending xs -> bound_kind g hi ->
  let b := bound_or hi (last_key xs) in
  right_cut xs hi = Ok (upper_cut keyq b xs, Some (inj g b)).
Proof.
  intros Hk Hne Hs Hb b. unfold right_cut, bound_or in *.
  destruct (given hi) as [m|] eqn:G.
  - subst b. apply given_some in G as Hhi. destruct Hb as [Hb|[q Hq]]; [congruence|].
    assert (m = inj g q) by congruence. subst m hi. rewrite keyq_inj.
    rewrite (first_index_pure _ (fun v => negb (Qle_bool (keyq v) q))).
    + reflexivity.
    + eapply Forall_impl; [|exact Hk]. intros v Hv. unfold gt.
      rewrite (lt_kind g _ _ (kind_inj g q) Hv). now rewrite keyq_inj.
  - destruct (exists_last Hne) as (xs' & v & ->). subst b.
    unfold last_key. rewrite last_item_app, rev_unit. simpl.
    assert (Hv : kind g v).
    { rewrite Forall_forall in Hk. apply Hk, in_or_app. right. now left. }
    rewrite <- Hv. unfold upper_cut.
    assert (find_first (fun u => negb (Qle_bool (keyq u) (keyq v))) (xs' ++ [v]) = None) as ->.
    { apply find_first_none.
      eapply Forall_impl; [|apply (sorted_last_max ascending xs' v); [apply Qle_bool_refl | exact Hs]].
      intros u Hu. unfold ascending in Hu. now rewrite Hu. }
    reflexivity.
Qed.

End CutFacts.

(** ** Range clipping on a numeric or timestamp x-axis *)

Section ClipFacts.
Import Prepare.
Variable py_float : string -> option float.
Variable strptime : string -> option Q.
Variable nan_sorted : forall A : Type, (A -> value) -> list A -> list A.
Variable g : graph_type.

Lemma mapM_Forall {A B} (f : A -> res B) (P : B -> Prop) (l : list A) (l' : list B) :
  (forall a b, f a = Ok b -> P b) -> mapM f l = Ok l' -> Forall P l'.
Proof.
  intros HP H. apply mapM_Forall2 in H.
  induction H; constructor; eauto.
Qed.

Lemma kind_not_nan (v : value) : kind g v -> is_nan v = false.
Proof. unfold kind, inj. intros ->. now destruct (is_timeseries g). Qed.

(** On keys that are finite floats, or datetimes, [sorted] is the stable
    sort. *)
Lemma py_sorted_kind {A} (key : A -> value) (l : list A) :
  Forall (fun a => kind g (key a)) l ->
  py_sorted nan_sorted key l = sorted key Py.leb l.
Proof.
  intros H. unfold py_sorted.
  assert (existsb (fun a => is_nan (key a)) l = false) as ->; [|reflexivity].
  induction H as [|a l Ha _ IH]; simpl; [reflexivity|].
  now rewrite (kind_not_nan _ Ha), IH.
Qed.

Lemma float_of_float (f : float) : float_of py_float (of_float f) = Ok (of_float f).
Proof. now destruct f. Qed.

Lemma pairs_float_y (rows : list (list string)) (l : list (value * value)) :
  pairs py_float (conv py_float strptime g) false rows = Ok l ->
  Forall (fun p => float_of py_float (snd p) = Ok (snd p)) l.
Proof.
  unfold pairs. apply mapM_Forall. intros sp p H.
  destruct (index sp 0); [|discriminate]. simpl in H.
  destruct (conv py_float strptime g a); [|discriminate]. simpl in H.
  destruct (index sp 1); [|discriminate]. simpl in H.
  unfold to_float in H. destruct (py_float a1); [|discriminate].
  inversion H; subst. apply float_of_float.
Qed.

Lemma float_if_given_num (q : Q) :
  float_if_given py_float (Some (VNum q)) = Ok (Some (VNum q)).
Proof.
  unfold float_if_given, given. destruct (truthy (Some (VNum q))); reflexivity.
Qed.

Lemma Forall_slice {A} (P : A -> Prop) (l : list A) (i j : nat) :
  Forall P l -> Forall P (slice l i j).
Proof.
  intros H. unfold slice.
  rewrite <- (firstn_skipn i l) in H. apply Forall_app in H as [_ H].
  rewrite <- (firstn_skipn (j - i) (skipn i l)) in H. now apply Forall_app in H.
Qed.

(** The clipped series is the slice of the sorted pairs between the two
    cuts, and the bounds written back are the ones in force. *)
Lemma clip_xy_cuts (cat_x cat_y : bool) (rows : list (list string))
    (xs ys : list value) (lo hi : option value) (l : list (value * value)) :
  is_timeseries g = true \/ cat_x = false ->
  pairs py_float (conv py_float strptime g) cat_y rows = Ok l ->
  Forall (fun p => kind g (fst p)) l ->
  l <> [] ->
  bound_kind g lo -> bound_kind g hi ->
  let t := sorted fst Py.leb l in
  let k := fun p : value * value => keyq (fst p) in
  let a := bound_or lo (first_key (map fst t)) in
  let b := bound_or hi (last_key (map fst t)) in
  let sel := slice t (lower_cut k a t) (upper_cut k b t) in
  StronglySorted (fun u v => Qle_bool (k u) (k v) = true) t /\
  clip_xy py_float strptime nan_sorted g cat_x cat_y rows xs ys lo hi
  = Ok (map fst sel, map snd sel, Some (inj g a), Some (inj g b)).
Proof.
  intros Hax Hp Hk Hne Hlo Hhi t k a b sel.
  assert (Et : t = sorted k Qle_bool l) by (apply (sorted_kind g fst l Hk)).
  assert (Hst : StronglySorted (fun u v => Qle_bool (k u) (k v) = true) t).
  { rewrite Et. apply sorted_sorted; [apply Qle_bool_total | apply Qle_bool_trans]. }
  assert (Hpt : Permutation l t) by apply sorted_perm.
  assert (Hkt : Forall (fun p => kind g (fst p)) t) by (eapply Permutation_Forall; eauto).
  assert (Hkx : Forall (kind g) (map fst t)) by (now apply Forall_map).
  assert (Hnt : map fst t <> []).
  { intros E. apply map_eq_nil in E. rewrite E in Hpt.
    apply Permutation_sym, Permutation_nil in Hpt. contradiction. }
  assert (Hsx : StronglySorted ascending (map fst t)).
  { clear - Hst. induction Hst; simpl; constructor; auto.
    now apply Forall_map. }
  split; [exact Hst|].
  unfold clip_xy.
  assert (sorted_pairs py_float strptime nan_sorted g cat_x cat_y rows = Ok (Some t)) as ->.
  { unfold sorted_pairs, conv in *. destruct (is_timeseries g).
    - rewrite Hp. cbn [Py.bind]. now rewrite (py_sorted_kind fst l Hk).
    - destruct Hax as [Hax|Hax]; [discriminate|]. subst cat_x. cbn [negb].
      rewrite Hp. cbn [Py.bind]. now rewrite (py_sorted_kind fst l Hk). }
  cbn [Py.bind].
  rewrite (left_cut_kind g _ lo Hkx Hnt Hlo).
  rewrite (right_cut_kind g _ hi Hkx Hnt Hsx Hhi).
  cbn [Py.bind]. fold a b.
  assert (lower_cut keyq a (map fst t) = lower_cut k a t) as ->
    by (unfold lower_cut; now rewrite find_first_map).
  assert (upper_cut keyq b (map fst t) = upper_cut k b t) as ->
    by (unfold upper_cut; now rewrite find_first_map, length_map).
  fold sel.
  assert (Hks : Forall (fun p => kind g (fst p)) sel) by now apply Forall_slice.
  assert (Hys : (if negb cat_y then mapM (float_of py_float) (map snd sel) else Ok (map snd sel))
                = Ok (map snd sel)).
  { destruct cat_y; [reflexivity|]. simpl. apply mapM_id, Forall_map.
    apply Forall_slice. eapply Permutation_Forall; [exact Hpt|].
    now apply pairs_float_y with (rows := rows). }
  destruct (is_timeseries g) eqn:Ets.
  - rewrite Hys. cbn [Py.bind]. rewrite andb_false_r. reflexivity.
  - assert (mapM (float_of py_float) (map fst sel) = Ok (map fst sel)) as ->.
    { apply mapM_id, Forall_map. eapply Forall_impl; [|exact Hks].
      intros p Hq. unfold kind, inj in Hq. rewrite Ets in Hq. now rewrite Hq. }
    cbn [Py.bind]. rewrite Hys. cbn [Py.bind].
    destruct Hax as [Hax|Hax]; [discriminate|]. subst cat_x. simpl.
    unfold inj. rewrite Ets. rewrite !float_if_given_num. reflexivity.
Qed.

End ClipFacts.

Lemma find_first_exists {A} (f : A -> bool) (l : list A) :
  Exists (fun u => f u = true) l -> find_first f l <> None.
Proof.
  intros Hex Hn. apply find_first_none in Hn.
  apply Exists_exists in Hex as (u & Hu & Hf).
  rewrite Forall_forall in Hn. specialize (Hn u Hu). congruence.
Qed.

Section RangeClaims.
Import Prepare.
Variable py_float : string -> option float.
Variable strptime : string -> option Q.
Variable nan_sorted : forall A : Type, (A -> value) -> list A -> list A.


End RangeClaims.



Lemma upper_cut_last_key (xs : list value) :
  StronglySorted ascending xs ->
  upper_cut keyq (last_key xs) xs = List.length xs.
Proof.
  intros Hs. unfold upper_cut.
  destruct xs as [|v0 xs0]; [reflexivity|].
  destruct (@exists_last _ (v0 :: xs0)) as (xs' & v & E); [discriminate|].
  rewrite E in *. unfold last_key. rewrite rev_unit.
  assert (find_first (fun u => negb (Qle_bool (keyq u) (keyq v))) (xs' ++ [v]) = None) as ->.
  { apply find_first_none.
    eapply Forall_impl;
      [|apply (sorted_last_max ascending xs' v); [apply Qle_bool_refl | exact Hs]].
    intros u Hu. unfold ascending in Hu. now rewrite Hu. }
  reflexivity.
Qed.

Section FallbackClaims.
Import Prepare.
Variable py_float : string -> option float.
Variable strptime : string -> option Q.
Variable nan_sorted : forall A : Type, (A -> value) -> list A -> list A.

(** C10 (as amended). On a numeric or timestamp x-axis holding at least
    one value, all of them finite, with each bound left out (empty or
    zero) or of the kind of the axis: when min-x is given and every x is
    strictly below it, the lower cut falls back to index 0, so nothing is
    removed at the lower end. Outside histograms the result is the sorted
    series up to the upper cut, and it is the entire sorted series
    whenever max-x is left out or no x exceeds max-x; in a histogram the
    result is the entire sorted series when max-x is left out. *)
Theorem clip_xy_all_below_min :
  (forall (g : graph_type) (cat_x cat_y : bool)
          (rows : list (list string)) (xs ys : list value) (lo hi : option value)
          (l : list (value * value)) (m : value),
     is_timeseries g = true \/ cat_x = false ->
     pairs py_float (conv py_float strptime g) cat_y rows = Ok l ->
     Forall (fun p => kind g (fst p)) l ->
     l <> [] ->
     bound_kind g lo -> bound_kind g hi ->
     given lo = Some m ->
     Forall (fun p => Qle_bool (keyq m) (keyq (fst p)) = false) l ->
     let t := sorted fst Py.leb l in
     let k := fun p : value * value => keyq (fst p) in
     let b := bound_or hi (last_key (map fst t)) in
     let sel := firstn (upper_cut k b t) t in
     lower_cut k (keyq m) t = 0%nat /\
     clip_xy py_float strptime nan_sorted g cat_x cat_y rows xs ys lo hi
     = Ok (map fst sel, map snd sel, Some (inj g (keyq m)), Some (inj g b)) /\
     (given hi = None \/ Forall (fun p => Qle_bool (k p) b = true) l -> sel = t)) /\
  (forall (xs : list value) (lo hi : option value) (m : value),
     Forall (kind Histogram) xs ->
     xs <> [] ->
     bound_kind Histogram lo ->
     given lo = Some m ->
     Forall (fun v => Qle_bool (keyq m) (keyq v) = false) xs ->
     given hi = None ->
     let t := sorted (fun v => v) Py.leb xs in
     lower_cut keyq (keyq m) t = 0%nat /\
     clip_histogram nan_sorted xs lo hi
     = Ok (t, Some (VNum (keyq m)), Some (VNum (last_key t)))).
Proof.
  split.
  - intros g cat_x cat_y rows xs ys lo hi l m Hax Hp Hk Hne Hlo Hhi Hm Hall t k b sel.
    destruct (clip_xy_cuts py_float strptime nan_sorted g cat_x cat_y rows xs ys lo hi l
                Hax Hp Hk Hne Hlo Hhi) as [Hst Hclip].
    fold t k b in Hst, Hclip.
    assert (Hpt : Permutation l t) by apply sorted_perm.
    assert (Ha : bound_or lo (first_key (map fst t)) = keyq m)
      by (unfold bound_or; now rewrite Hm).
    rewrite Ha in Hclip.
    assert (Hnone : find_first (fun u => Qle_bool (keyq m) (k u)) t = None).
    { apply find_first_none. eapply Permutation_Forall; [exact Hpt | exact Hall]. }
    assert (H0 : lower_cut k (keyq m) t = 0%nat) by (unfold lower_cut; now rewrite Hnone).
    split; [exact H0|]. split.
    + rewrite Hclip, H0. unfold slice. rewrite Nat.sub_0_r. reflexivity.
    + intros Hup. unfold sel.
      assert (upper_cut k b t = List.length t) as ->; [|apply firstn_all].
      destruct Hup as [Hn|Hle].
      * unfold b, bound_or. rewrite Hn.
        assert (Hsx : StronglySorted ascending (map fst t)).
        { clear - Hst. induction Hst; simpl; constructor; auto. now apply Forall_map. }
        pose proof (upper_cut_last_key (map fst t) Hsx) as E.
        unfold upper_cut in *. rewrite find_first_map, length_map in E. exact E.
      * unfold upper_cut.
        assert (find_first (fun u => negb (Qle_bool (k u) b)) t = None) as ->; [|reflexivity].
        apply find_first_none. eapply Permutation_Forall; [exact Hpt|].
        eapply Forall_impl; [|exact Hle]. intros p Hq. simpl in Hq. now rewrite Hq.
  - intros xs lo hi m Hk Hne Hlo Hm Hall Hhi t.
    assert (Hpt : Permutation xs t) by apply sorted_perm.
    assert (Hkt : Forall (kind Histogram) t) by (eapply Permutation_Forall; eauto).
    assert (Hnt : t <> []).
    { intros E. rewrite E in Hpt. apply Permutation_sym, Permutation_nil in Hpt.
      contradiction. }
    assert (Hnone : find_first (fun u => Qle_bool (keyq m) (keyq u)) t = None).
    { apply find_first_none. eapply Permutation_Forall; [exact Hpt | exact Hall]. }
    assert (H0 : lower_cut keyq (keyq m) t = 0%nat) by (unfold lower_cut; now rewrite Hnone).
    split; [exact H0|].
    unfold clip_histogram.
    rewrite (py_sorted_kind nan_sorted Histogram (fun v => v) xs Hk). fold t.
    rewrite (left_cut_kind Histogram t lo Hkt Hnt Hlo). cbn [Py.bind].
    assert (Ha : bound_or lo (first_key t) = keyq m) by (unfold bound_or; now rewrite Hm).
    rewrite Ha, H0. unfold right_cut_histogram. rewrite Hhi.
    destruct (exists_last Hnt) as (t1 & w & E).
    assert (L : last_item t = Ok w) by (rewrite E; apply last_item_app).
    rewrite L. cbn [Py.bind]. rewrite slice_all.
    assert (Hw : kind Histogram w).
    { rewrite Forall_forall in Hkt. apply Hkt. rewrite E. apply in_or_app. right. now left. }
    unfold kind, inj in Hw. simpl in Hw.
    assert (Hlast : last_key t = keyq w) by (unfold last_key; now rewrite E, rev_unit).
    rewrite Hlast, <- Hw. reflexivity.
Qed.

End FallbackClaims.

Lemma clip_xy_all_below_min_witness :
  Prepare.clip_xy Literal.dec_float Literal.stamp Literal.as_given Prepare.Bar false false
    rows_132 [] [] (Some (VNum 10)) (Some (VNum 20))
  = Ok ([VNum 1; VNum 2; VNum 3], [VNum 5; VNum 7; VNum 6],
        Some (VNum 10), Some (VNum 20)) /\
  Prepare.clip_histogram Literal.as_given [VNum 1; VNum 3; VNum 2]
    (Some (VNum 10)) (Some (VStr ""))
  = Ok ([VNum 1; VNum 2; VNum 3], Some (VNum 10), Some (VNum 3)).
Proof.
  split.
  - refine (proj1 (proj2
      (proj1 (clip_xy_all_below_min Literal.dec_float Literal.stamp Literal.as_given)
         Prepare.Bar false false
         rows_132 [] [] (Some (VNum 10)) (Some (VNum 20)) pairs_132 (VNum 10)
         _ _ _ _ _ _ _ _))).
    + right. reflexivity.
    + reflexivity.
    + repeat constructor.
    + discriminate.
    + right. exists 10. reflexivity.
    + right. exists 20. reflexivity.
    + reflexivity.
    + repeat constructor.
  - refine (proj2
      (proj2 (clip_xy_all_below_min Literal.dec_float Literal.stamp Literal.as_given)
         [VNum 1; VNum 3; VNum 2] (Some (VNum 10)) (Some (VStr "")) (VNum 10)
         _ _ _ _ _ _)).
    + repeat constructor.
    + discriminate.
    + right. exists 10. reflexivity.
    + reflexivity.
    + repeat constructor.
    + reflexivity.
Defined.

(** C10 fails as stated: every x is below min-x, yet a max-x below some x
    still cuts the series, which is not returned whole. *)
Lemma clip_below_min_still_cut_by_max_x :
  exists p',
    Prepare.prepare_plot Literal.dec_float Literal.stamp Literal.as_given
      (Prepare.read_plot Prepare.Bar "10" "1.5" "" "" rows_132) = Ok p' /\
    Prepare.min_x p' = Some (VNum 10) /\
    Prepare.x p' = [VNum 1] /\
    Prepare.y p' = [VNum 5].
Proof.
  eexists. split; [vm_compute; reflexivity|]. simpl. repeat split.
Qed.

(** ** Pairing of x and y through the preparation *)

Ltac inv_bind H :=
  match type of H with
  | Py.bind ?m _ = Ok _ =>
      let E := fresh "E" in
      destruct m eqn:E; [cbn [Py.bind] in H | discriminate H]
  end.

Tactic Notation "bind_inv" hyp(H) "as" ident(E) :=
  match type of H with
  | Py.bind ?m _ = Ok _ =>
      destruct m eqn:E; [cbn [Py.bind] in H | discriminate H]
  end.

Section PairingFacts.
Import Prepare.
Variable py_float : string -> option float.
Variable strptime : string -> option Q.
Variable nan_sorted : forall A : Type, (A -> value) -> list A -> list A.

Lemma blank_below_spec (lo : value) (ys ys' : list value) :
  blank_below lo ys = Ok ys' ->
  Forall2 (fun c c' => exists b, Py.ge c lo = Ok b /\ c' = if b then c else VNaN) ys ys'.
Proof.
  intros H. apply mapM_Forall2 in H.
  eapply Forall2_impl; [|exact H]. intros c c' Hc. cbv beta in Hc.
  destruct (Py.ge c lo) as [b|] eqn:G; [|discriminate]. cbn [Py.bind] in Hc.
  exists b. split; [reflexivity | congruence].
Qed.

Lemma blank_above_spec (hi : value) (ys ys' : list value) :
  blank_above hi ys = Ok ys' ->
  Forall2 (fun c c' => exists b, Py.le c hi = Ok b /\ c' = if b then c else VNaN) ys ys'.
Proof.
  intros H. apply mapM_Forall2 in H.
  eapply Forall2_impl; [|exact H]. intros c c' Hc. cbv beta in Hc.
  destruct (Py.le c hi) as [b|] eqn:G; [|discriminate]. cbn [Py.bind] in Hc.
  exists b. split; [reflexivity | congruence].
Qed.

Lemma Forall2_refl {A} (R : A -> A -> Prop) (l : list A) :
  (forall a, R a a) -> Forall2 R l l.
Proof. intros HR. induction l; constructor; auto. Qed.

Lemma Forall2_trans_rel {A} (R S T : A -> A -> Prop) (l1 l2 l3 : list A) :
  (forall a b c, R a b -> S b c -> T a c) ->
  Forall2 R l1 l2 -> Forall2 S l2 l3 -> Forall2 T l1 l3.
Proof.
  intros HT H12. revert l3. induction H12; intros l3 H23; inversion H23; subst;
    constructor; eauto.
Qed.

(** The block "Y-axis ranging" blanks in place. *)
Lemma range_y_blanked (cat_y : bool) (ys ys' : list value) (lo hi lo' hi' : option value) :
  range_y py_float cat_y ys lo hi = Ok (ys', lo', hi') ->
  exists lo1 hi1,
    (if negb cat_y then float_if_given py_float lo else Ok lo) = Ok lo1 /\
    (if negb cat_y then float_if_given py_float hi else Ok hi) = Ok hi1 /\
    Forall2 (blanked (given lo1) (given hi1)) ys ys'.
Proof.
  unfold range_y. intros H.
  inv_bind H. rename a into lo1. inv_bind H. rename a into hi1.
  exists lo1, hi1. split; [reflexivity|]. split; [reflexivity|].
  inv_bind H. destruct a as [ys1 lo2]. inv_bind H. destruct a as [ys2 hi2].
  inversion H; subst; clear H.
  assert (H1 : Forall2 (fun c c' =>
            match given lo1 with
            | Some m => exists b, Py.ge c m = Ok b /\ c' = if b then c else VNaN
            | None => c' = c
            end) ys ys1).
  { destruct (given lo1) as [m|].
    - inv_bind E1. inversion E1; subst. now apply blank_below_spec.
    - inv_bind E1. inversion E1; subst. now apply Forall2_refl. }
  assert (H2 : Forall2 (fun c c' =>
            match given hi1 with
            | Some m => exists b, Py.le c m = Ok b /\ c' = if b then c else VNaN
            | None => c' = c
            end) ys1 ys').
  { destruct (given hi1) as [m|].
    - inv_bind E2. inversion E2; subst. now apply blank_above_spec.
    - inv_bind E2. inversion E2; subst. now apply Forall2_refl. }
  eapply Forall2_trans_rel; [|exact H1|exact H2].
  clear. intros c c1 c2 H1 H2. unfold blanked.
  destruct (given lo1) as [ml|], (given hi1) as [mh|].
  - destruct H1 as (b1 & G1 & ->), H2 as (b2 & G2 & ->).
    destruct b1, b2; repeat split; auto; try congruence.
    + intros _. right. right. eauto.
    + intros _. right. left. eauto.
    + intros _. right. left. eauto.
  - destruct H1 as (b1 & G1 & ->). subst c2.
    destruct b1; repeat split; auto; try congruence.
    intros _. right. left. eauto.
  - subst c1. destruct H2 as (b2 & G2 & ->).
    destruct b2; repeat split; auto; try congruence.
    intros _. right. right. eauto.
  - subst. repeat split; auto; congruence.
Qed.

Lemma to_numbers_length (rows : list (list string)) (i : nat) (l : list value) (c : bool) :
  to_numbers py_float rows i = Ok (l, c) ->
  List.length l = List.length (rows_with 1 rows) /\
  Forall (fun sp => (i < List.length sp)%nat) (rows_with 1 rows).
Proof.
  unfold to_numbers. intros H.
  assert (Hidx : forall (f : string -> res value) l',
             mapM (fun sp => s <- index sp i ;; f s) (rows_with 1 rows) = Ok l' ->
             List.length l' = List.length (rows_with 1 rows) /\
             Forall (fun sp => (i < List.length sp)%nat) (rows_with 1 rows)).
  { intros f l' M. split; [now apply mapM_length in M|].
    apply mapM_Forall2 in M. clear H. induction M; constructor; auto.
    unfold index in H. destruct (nth_error x0 i) eqn:N; [|discriminate].
    apply nth_error_Some. congruence. }
  destruct (mapM _ (rows_with 1 rows)) eqn:M.
  - inversion H; subst. exact (Hidx (to_float py_float) _ M).
  - inv_bind H. inversion H; subst. exact (Hidx (fun s => Ok (VStr s)) _ E).
Qed.

Lemma rows_with_two (rows : list (list string)) :
  Forall (fun sp => (1 < List.length sp)%nat) (rows_with 1 rows) ->
  rows_with 2 rows = rows_with 1 rows.
Proof.
  unfold rows_with. induction rows as [|sp rows IH]; cbn [filter]; [reflexivity|].
  destruct (1 <=? List.length sp)%nat eqn:E1.
  - intros H. inversion H; subst.
    assert ((2 <=? List.length sp)%nat = true) as -> by (apply Nat.leb_le; lia).
    now rewrite IH.
  - intros H. assert ((2 <=? List.length sp)%nat = false) as ->.
    { apply Nat.leb_gt. apply Nat.leb_gt in E1. lia. }
    now apply IH.
Qed.

Lemma slice_length_eq {A B} (l : list A) (l' : list B) (i j : nat) :
  List.length l = List.length l' ->
  List.length (slice l i j) = List.length (slice l' i j).
Proof. intros H. unfold slice. now rewrite !length_firstn, !length_skipn, H. Qed.

(** X-axis ranging cuts x and y at the same two indexes. *)
Lemma clip_xy_length (g : graph_type) (cat_x cat_y : bool) (rows : list (list string))
    (xs ys xs' ys' : list value) (lo hi lo' hi' : option value) :
  (is_timeseries g = false -> cat_x = true -> List.length xs = List.length ys) ->
  clip_xy py_float strptime nan_sorted g cat_x cat_y rows xs ys lo hi = Ok (xs', ys', lo', hi') ->
  List.length xs' = List.length ys'.
Proof.
  intros Hlen H. unfold clip_xy in H.
  inv_bind H. rename a into tmp.
  inv_bind H. destruct a as [left_ lo1]. inv_bind H. destruct a as [right_ hi1].
  inv_bind H. destruct a as [xs2 ys2]. inv_bind H. destruct a as [lo2 hi2].
  inversion H; subst; clear H.
  destruct tmp as [t|].
  - assert (Hy : forall l, (if negb cat_y then mapM (float_of py_float) (map snd (slice t left_ right_))
                            else Ok (map snd (slice t left_ right_))) = Ok l ->
                           List.length l = List.length (slice t left_ right_)).
    { intros l Hl. destruct (negb cat_y).
      - apply mapM_length in Hl. now rewrite Hl, length_map.
      - inversion Hl. apply length_map. }
    destruct (is_timeseries g).
    + inv_bind E2. inversion E2; subst. rewrite length_map. symmetry. now apply Hy.
    + inv_bind E2. inv_bind E2. inversion E2; subst.
      apply mapM_length in E4. rewrite E4, length_map. symmetry. now apply Hy.
  - inversion E2; subst. apply slice_length_eq.
    unfold sorted_pairs in E. destruct (is_timeseries g); [inv_bind E; discriminate|].
    destruct cat_x; simpl in E; [auto | inv_bind E; discriminate].
Qed.







(** [sorted] returns a rearrangement of its argument, whatever the
    keys. *)
Hypothesis nan_sorted_perm :
  forall (A : Type) (key : A -> value) (l : list A), Permutation l (nan_sorted A key l).



End PairingFacts.



(** ** Categorical x-axis *)

Section CategoricalClaims.
Import Prepare.
Variable py_float : string -> option float.
Variable strptime : string -> option Q.
Variable nan_sorted : forall A : Type, (A -> value) -> list A -> list A.

Lemma to_numbers_categorical (rows : list (list string)) (i : nat) (l : list value) :
  to_numbers py_float rows i = Ok (l, true) ->
  exists col, mapM (fun sp => index sp i) (rows_with 1 rows) = Ok col /\ l = map VStr col.
Proof.
  unfold to_numbers. intros H.
  destruct (mapM (fun sp => s <- index sp i;; to_float py_float s) (rows_with 1 rows));
    [inversion H|].
  bind_inv H as M. inversion H; subst; clear H.
  revert l M. induction (rows_with 1 rows) as [|sp r IH]; simpl; intros l M.
  - inversion M. exists []. auto.
  - destruct (index sp i) as [s|]; [|discriminate]. simpl in *.
    bind_inv M as M'. inversion M; subst.
    destruct (IH _ eq_refl) as (col & -> & ->). exists (s :: col). auto.
Qed.

Lemma slice_map {A B} (h : A -> B) (l : list A) (i j : nat) :
  slice (map h l) i j = map h (slice l i j).
Proof. unfold slice. now rewrite <- firstn_map, <- skipn_map. Qed.

Lemma left_cut_labels (labels : list string) (lo : option value) :
  labels <> [] -> text_bound lo ->
  left_cut (map VStr labels) lo
  = Ok (label_lower_cut lo labels, label_or lo (hd EmptyString labels)).
Proof.
  intros Hne Hb. unfold left_cut, label_lower_cut, label_or.
  destruct (given lo) as [m|] eqn:G.
  - apply given_some in G as Hlo. destruct Hb as [Hb|[s Hs]]; [congruence|].
    assert (m = VStr s) by congruence. subst m lo. cbn [str_key].
    rewrite (first_index_pure _ (fun v => String.leb s (str_key v))).
    + cbn [Py.bind]. now rewrite find_first_map.
    + apply Forall_map, Forall_forall. intros t _. reflexivity.
  - destruct labels as [|t labels]; [now elim Hne|]. reflexivity.
Qed.

Lemma right_cut_labels (labels : list string) (hi : option value) :
  labels <> [] -> text_bound hi ->
  right_cut (map VStr labels) hi
  = Ok (label_upper_cut hi labels, label_or hi (last labels EmptyString)).
Proof.
  intros Hne Hb. unfold right_cut, label_upper_cut, label_or.
  destruct (given hi) as [m|] eqn:G.
  - apply given_some in G as Hhi. destruct Hb as [Hb|[s Hs]]; [congruence|].
    assert (m = VStr s) by congruence. subst m hi. cbn [str_key].
    rewrite (first_index_pure _ (fun v => String.ltb s (str_key v))).
    + cbn [Py.bind]. now rewrite find_first_map, length_map.
    + apply Forall_map, Forall_forall. intros t _. reflexivity.
  - destruct (exists_last Hne) as (l' & w & ->).
    rewrite map_app. cbn [map]. rewrite last_item_app. cbn [Py.bind].
    now rewrite length_app, length_map, last_last, length_app.
Qed.

(** C6 (as amended). On a categorical x-axis outside time series (and
    outside histograms, whose branch sorts), with each x bound left out
    (empty or zero) or given as text, and at least one data line: range
    clipping never sorts. The x values are the first fields of the data
    lines in file order, and the clipped x and y are one and the same
    slice [[i:j]] of the input-order sequences, where [i] is the first
    index whose label is not below min-x in the order of text (0 when
    there is none or min-x is left out) and [j] the first index whose
    label is above max-x (the number of labels when there is none or
    max-x is left out). With both bounds left out the series passes
    through whole. *)
Theorem clip_xy_categorical (g : graph_type) (cat_y : bool) (rows : list (list string))
    (labels : list string) (ys : list value) (lo hi : option value) :
  is_timeseries g = false ->
  labels <> [] ->
  text_bound lo -> text_bound hi ->
  let i := label_lower_cut lo labels in
  let j := label_upper_cut hi labels in
  (forall l, to_numbers py_float rows 0 = Ok (l, true) ->
     exists col, mapM (fun sp => index sp 0) (rows_with 1 rows) = Ok col /\
                 l = map VStr col) /\
  clip_xy py_float strptime nan_sorted g true cat_y rows (map VStr labels) ys lo hi
  = Ok (map VStr (slice labels i j), slice ys i j,
        label_or lo (hd EmptyString labels), label_or hi (last labels EmptyString)) /\
  (given lo = None -> given hi = None ->
   List.length ys = List.length labels ->
   slice labels i j = labels /\ slice ys i j = ys).
Proof.
  intros Hts Hne Hlo Hhi i j. split; [|split].
  - intros l H. now apply to_numbers_categorical.
  - unfold clip_xy, sorted_pairs.
    rewrite Hts. cbn [negb Py.bind andb].
    rewrite (left_cut_labels labels lo Hne Hlo). cbn [Py.bind].
    rewrite (right_cut_labels labels hi Hne Hhi). cbn [Py.bind].
    fold i j. now rewrite slice_map.
  - intros Glo Ghi Hlen. unfold i, j, label_lower_cut, label_upper_cut.
    rewrite Glo, Ghi. split; [apply slice_all|].
    rewrite <- Hlen. apply slice_all.
Qed.

End CategoricalClaims.

Lemma clip_xy_categorical_witness :
  Prepare.clip_xy Literal.dec_float Literal.stamp Literal.as_given Prepare.Bar true false
    rows_abc [VStr "a"; VStr "b"; VStr "c"] [VNum 5; VNum 6; VNum 7]
    (Some (VStr "b")) (Some (VStr ""))
  = Ok ([VStr "b"; VStr "c"], [VNum 6; VNum 7], Some (VStr "b"), Some (VStr "c")).
Proof.
  refine (proj1 (proj2
    (clip_xy_categorical Literal.dec_float Literal.stamp Literal.as_given
       Prepare.Bar false rows_abc ["a"; "b"; "c"]%string [VNum 5; VNum 6; VNum 7]
       (Some (VStr "b")) (Some (VStr "")) eq_refl _ _ _))).
  - discriminate.
  - right. now exists "b"%string.
  - left. reflexivity.
Defined.

(** C6 fails as stated: a text min-x is compared with the labels and the
    pairs before the first label not below it are removed. *)
Lemma categorical_x_is_cut_by_text_bound :
  exists p',
    Prepare.prepare_plot Literal.dec_float Literal.stamp Literal.as_given
      (Prepare.read_plot Prepare.Bar "b" "" "" "" rows_abc) = Ok p' /\
    Prepare.is_categorical_in_x p' = true /\
    Prepare.x p' = [VStr "b"; VStr "c"] /\
    Prepare.y p' = [VNum 6; VNum 7].
Proof.
  eexists. split; [vm_compute; reflexivity|]. simpl. repeat split.
Qed.

(** ** Bounds that are not numbers *)

(** C7 (the code at the failing input). [check_limits] keeps the text of
    a min-x that is not a number; the lower scan of a numeric x-axis then
    compares a float with that text and the run ends in [TypeError],
    whereas the same file with min-x left out is prepared. *)
Theorem text_min_x_on_numeric_axis_raises :
  Prepare.check_limits Literal.dec_float (Some (VStr "abc"), Some (VStr ""))
  = (Some (VStr "abc"), Some (VStr "")) /\
  Prepare.prepare_plot Literal.dec_float Literal.stamp Literal.as_given
    (Prepare.read_plot Prepare.Bar "abc" "" "" "" rows_132) = Raise TypeError /\
  Py.is_ok (Prepare.prepare_plot Literal.dec_float Literal.stamp Literal.as_given
              (Prepare.read_plot Prepare.Bar "" "" "" "" rows_132)) = true.
Proof. repeat split; vm_compute; reflexivity. Qed.

(** ** Frequency expansion *)

Section ExpandClaims.
Import Expand.
Context {A : Type} (eqb : A -> A -> bool).
Hypothesis eqb_eq : forall a b, eqb a b = true <-> a = b.

Lemma py_int_count (n : nat) : Z.to_nat (py_int (inject_Z (Z.of_nat n))) = n.
Proof. unfold py_int. simpl. rewrite Z.quot_1_r. apply Nat2Z.id. Qed.

Lemma fold_expand (l : list (A * nat)) (acc : list A) :
  fold_left (fun tmp xy => tmp ++ repeat (fst xy) (Z.to_nat (py_int (snd xy))))
            (with_counts l) acc
  = acc ++ expansion l.
Proof.
  revert acc. induction l as [|[v n] l IH]; intros acc; simpl.
  - now rewrite app_nil_r.
  - rewrite IH. rewrite py_int_count. now rewrite <- app_assoc.
Qed.

Lemma aggregate_run (v : A) (n : nat) (rest : list A) :
  match aggregate_runs eqb rest with
  | (b, _) :: _ => v <> b
  | [] => True
  end ->
  aggregate_runs eqb (repeat v (S n) ++ rest) = (v, S n) :: aggregate_runs eqb rest.
Proof.
  intros Hd. induction n as [|n IH].
  - simpl. destruct (aggregate_runs eqb rest) as [|[b m] r]; [reflexivity|].
    destruct (eqb v b) eqn:E; [|reflexivity]. apply eqb_eq in E. contradiction.
  - change (repeat v (S (S n)) ++ rest) with (v :: (repeat v (S n) ++ rest)).
    cbn [aggregate_runs]. rewrite IH.
    assert (eqb v v = true) as -> by now apply eqb_eq. reflexivity.
Qed.

Lemma aggregate_expansion (l : list (A * nat)) :
  Forall (fun p => (0 < snd p)%nat) l ->
  NoDup (map fst l) ->
  aggregate_runs eqb (expansion l) = l.
Proof.
  induction l as [|[v n] l IH]; intros Hpos Hnd; [reflexivity|].
  inversion Hpos; subst. inversion Hnd; subst. simpl in *.
  destruct n as [|n]; [lia|].
  change (repeat v (S n) ++ flat_map (fun p => repeat (fst p) (snd p)) l)
    with (repeat v (S n) ++ expansion l).
  rewrite aggregate_run; rewrite IH; auto.
  destruct l as [|[b m] l']; [exact I|].
  intros ->. apply H3. now left.
Qed.

(** C3 (as amended). For every non-empty sequence of (value, frequency)
    pairs whose frequencies are natural numbers, frequency expansion
    returns the flat sequence in which each pair's value appears exactly
    its frequency times, consecutively, in the pairs' original order;
    expanding (v1,2),(v2,3) yields [[v1,v1,v2,v2,v2]]; and when every
    frequency is positive and the pair values are distinct, counting the
    consecutive runs of equal values in the expansion recovers the
    original pairs. *)
Theorem original_X_expands (l : list (A * nat)) :
  l <> [] ->
  original_X None None (Some (with_counts l)) = Ok (expansion l) /\
  (forall v1 v2 : A,
     original_X None None (Some [(v1, 2); (v2, 3)]) = Ok [v1; v1; v2; v2; v2]) /\
  (Forall (fun p => (0 < snd p)%nat) l -> NoDup (map fst l) ->
   aggregate_runs eqb (expansion l) = l).
Proof.
  intros Hne. split; [|split].
  - destruct l as [|p l']; [now elim Hne|].
    assert (E : exists q ql, with_counts (p :: l') = q :: ql) by (simpl; eauto).
    destruct E as (q & ql & E).
    unfold original_X. rewrite E. cbn [Py.bind]. rewrite <- E.
    now rewrite fold_expand.
  - intros v1 v2. reflexivity.
  - apply aggregate_expansion.
Qed.

End ExpandClaims.

Lemma original_X_expands_witness :
  Expand.original_X None None
    (Some (Expand.with_counts [("v1"%string, 2%nat); ("v2"%string, 3%nat)]))
  = Ok ["v1"; "v1"; "v2"; "v2"; "v2"]%string.
Proof.
  refine (proj1 (original_X_expands String.eqb String.eqb_eq
                   [("v1"%string, 2%nat); ("v2"%string, 3%nat)] _)).
  discriminate.
Defined.

(** C3 fails as stated: a pair of frequency zero leaves no trace in the
    expansion, so the runs of the expansion do not give it back. *)
Lemma zero_frequency_pair_is_not_recovered :
  let pairs := [("v1"%string, 0%nat); ("v2"%string, 3%nat)] in
  Expand.original_X None None (Some (Expand.with_counts pairs))
  = Ok ["v2"; "v2"; "v2"]%string /\
  Expand.aggregate_runs String.eqb ["v2"; "v2"; "v2"]%string = [("v2"%string, 3%nat)] /\
  Expand.aggregate_runs String.eqb ["v2"; "v2"; "v2"]%string <> pairs.
Proof. repeat split. discriminate. Qed.

(** ** Moments of a bucketed dataset *)



Lemma mapM_map_ok {A B} (f : A -> res B) (h : A -> B) (l : list A) :
  (forall a, f a = Ok (h a)) -> mapM f l = Ok (map h l).
Proof.
  intros Hf. induction l as [|a l IH]; simpl; [reflexivity|].
  now rewrite Hf, IH.
Qed.

Section MomentFacts.
Import Stat.
Variable fl : Float.arith.

Lemma py_div_ok (a b : Q) : ~ b == 0 -> py_div fl a b = Ok (Float.rnd fl (a / b)).
Proof.
  intros Hb. unfold py_div. destruct (Qeq_bool b 0) eqn:E; [|reflexivity].
  apply Qeq_bool_iff in E. contradiction.
Qed.




End MomentFacts.




(** ** Empirical CDF *)

Lemma last_map_nonempty {A B} (h : A -> B) (l : list A) (d : A) (d' : B) :
  l <> [] -> last (map h l) d' = h (last l d).
Proof.
  induction l as [|a l IH]; intros Hne; [now elim Hne|].
  destruct l as [|b l']; [reflexivity|].
  change (last (map h (a :: b :: l')) d') with (last (map h (b :: l')) d').
  change (last (a :: b :: l') d) with (last (b :: l') d).
  apply IH. discriminate.
Qed.

Lemma fold_Zadd (l : list Z) (acc : Z) :
  fold_left Z.add l acc = (acc + fold_left Z.add l 0)%Z.
Proof.
  revert acc. induction l as [|a l IH]; intros acc; simpl; [lia|].
  rewrite (IH (acc + a)%Z), (IH a). lia.
Qed.

Lemma int_sum_cons (a : Z) (l : list Z) : Stat.int_sum (a :: l) = (a + Stat.int_sum l)%Z.
Proof. unfold Stat.int_sum. simpl. now rewrite fold_Zadd. Qed.

Lemma int_sum_perm (l l' : list Z) :
  Permutation l l' -> Stat.int_sum l = Stat.int_sum l'.
Proof.
  induction 1; rewrite ?int_sum_cons; lia.
Qed.

Lemma Qle_bool_eq_l (k x v : Q) : k == x -> Qle_bool k v = Qle_bool x v.
Proof.
  intros E. apply eq_true_iff_eq. rewrite !Qle_bool_iff. now rewrite E.
Qed.

Section CounterFacts.
Import Stat.

Lemma count_up_total (v : Q) (c : list (Q * Z)) :
  int_sum (map snd (count_up v c)) = (1 + int_sum (map snd c))%Z.
Proof.
  induction c as [|[k n] c IH]; cbn [count_up map snd]; [reflexivity|].
  destruct (Qeq_bool k v); cbn [map snd]; rewrite !int_sum_cons; lia.
Qed.

Lemma count_up_has (v : Q) (c : list (Q * Z)) :
  exists p, In p (count_up v c) /\ fst p == v.
Proof.
  induction c as [|[k n] c (p & Hin & Hp)]; simpl.
  - exists (v, 1%Z). split; [now left | reflexivity].
  - destruct (Qeq_bool k v) eqn:E.
    + exists (k, (n + 1)%Z). split; [now left | now apply Qeq_bool_iff].
    + exists p. split; [now right | exact Hp].
Qed.

Lemma count_up_keeps (v : Q) (c : list (Q * Z)) (p : Q * Z) :
  In p c -> exists p', In p' (count_up v c) /\ fst p' = fst p.
Proof.
  induction c as [|[k n] c IH]; simpl; [contradiction|].
  intros [<-|Hin].
  - destruct (Qeq_bool k v); eexists; (split; [now left | reflexivity]).
  - destruct (IH Hin) as (p' & Hin' & E).
    destruct (Qeq_bool k v); [exists p; split; [now right | reflexivity]|].
    exists p'. split; [now right | exact E].
Qed.

Lemma count_up_from (v : Q) (c : list (Q * Z)) (k : Q) :
  In k (map fst (count_up v c)) -> k = v \/ In k (map fst c).
Proof.
  induction c as [|[k0 n] c IH]; simpl.
  - intros [<-|[]]. now left.
  - destruct (Qeq_bool k0 v); simpl.
    + intros H. now right.
    + intros [<-|H]; [right; now left|].
      destruct (IH H) as [->|Hin]; [now left | right; now right].
Qed.

(** The counts of a [Counter] add up to the number of samples; every
    sample has a key equal to it and every key is a sample. *)
Lemma Counter_spec (xs : list Q) :
  int_sum (map snd (Counter xs)) = Z.of_nat (List.length xs) /\
  (forall v, In v xs -> exists p, In p (Counter xs) /\ fst p == v) /\
  (forall k, In k (map fst (Counter xs)) -> In k xs).
Proof.
  unfold Counter.
  assert (G : forall l c,
             int_sum (map snd (fold_left (fun c v => count_up v c) l c))
             = (Z.of_nat (List.length l) + int_sum (map snd c))%Z /\
             (forall v, In v l \/ (exists p, In p c /\ fst p == v) ->
                        exists p, In p (fold_left (fun c v => count_up v c) l c) /\
                                  fst p == v) /\
             (forall k, In k (map fst (fold_left (fun c v => count_up v c) l c)) ->
                        In k l \/ In k (map fst c))).
  { induction l as [|a l IH]; intros c.
    - split; [simpl; lia|]. split.
      + intros v [[]|H]. exact H.
      + intros k H. now right.
    - destruct (IH (count_up a c)) as (IH1 & IH2 & IH3). split; [|split].
      + cbn [fold_left List.length]. rewrite IH1, count_up_total. lia.
      + intros v H. cbn [fold_left]. apply IH2.
        destruct H as [[<-|Hin]|(p & Hin & Hp)].
        * right. apply count_up_has.
        * now left.
        * right. destruct (count_up_keeps a c p Hin) as (p' & Hin' & E).
          exists p'. split; [exact Hin' | now rewrite E].
      + intros k H. cbn [fold_left] in H. destruct (IH3 k H) as [Hin|Hin].
        * left. now right.
        * destruct (count_up_from a c k Hin) as [->|Hc]; [left; now left | now right]. }
  destruct (G xs []) as (G1 & G2 & G3). split; [|split].
  - rewrite G1. unfold int_sum. simpl. lia.
  - intros v Hin. apply G2. now left.
  - intros k H. destruct (G3 k H) as [Hin|[]]. exact Hin.
Qed.

Lemma count_up_keys (P : Q -> Prop) (v : Q) (c : list (Q * Z)) :
  P v -> Forall (fun p => P (fst p)) c -> Forall (fun p => P (fst p)) (count_up v c).
Proof.
  intros Hv. induction 1 as [|[k n] c Hp Hc IH]; simpl.
  - repeat constructor. exact Hv.
  - destruct (Qeq_bool k v); constructor; auto.
Qed.

Lemma count_up_distinct (v : Q) (c : list (Q * Z)) :
  StronglySorted (fun p q => ~ fst p == fst q) c ->
  StronglySorted (fun p q => ~ fst p == fst q) (count_up v c).
Proof.
  induction 1 as [|[k n] c Hs IH Hk]; simpl.
  - repeat constructor.
  - destruct (Qeq_bool k v) eqn:E.
    + constructor; [exact Hs | exact Hk].
    + constructor; [exact IH|].
      apply (count_up_keys (fun q => ~ k == q)); [|exact Hk].
      intros Hq. apply Qeq_bool_iff in Hq. simpl in Hq. congruence.
Qed.

Lemma Counter_distinct (xs : list Q) :
  StronglySorted (fun p q => ~ fst p == fst q) (Counter xs).
Proof.
  unfold Counter.
  assert (G : forall l c, StronglySorted (fun p q => ~ fst p == fst q) c ->
              StronglySorted (fun p q => ~ fst p == fst q)
                (fold_left (fun c v => count_up v c) l c)).
  { induction l as [|v l IH]; intros c Hc; simpl; [exact Hc|].
    apply IH. now apply count_up_distinct. }
  apply G. constructor.
Qed.

Lemma insert_strict (a : Q * Z) (l : list (Q * Z)) :
  StronglySorted (fun p q => fst p < fst q) l ->
  Forall (fun q => ~ fst a == fst q) l ->
  StronglySorted (fun p q => fst p < fst q) (insert fst Qle_bool a l).
Proof.
  induction 1 as [|b l Hl IH Hb]; intros Hd; simpl.
  - repeat constructor.
  - inversion Hd as [|? ? Hab Hd']; subst.
    destruct (Qle_bool (fst a) (fst b)) eqn:E.
    + assert (Hlt : fst a < fst b).
      { apply Qle_bool_iff in E. apply Qle_lteq in E as [E|E]; [exact E | contradiction]. }
      constructor; [now constructor|].
      constructor; [exact Hlt|].
      eapply Forall_impl; [|exact Hb]. intros c Hc. simpl in Hc. lra.
    + assert (Hlt : fst b < fst a).
      { apply Qnot_le_lt. intros H. apply Qle_bool_iff in H. congruence. }
      constructor; [now apply IH|].
      eapply Permutation_Forall; [apply (insert_perm fst Qle_bool a l)|].
      constructor; [exact Hlt | exact Hb].
Qed.

Lemma sorted_strict (c : list (Q * Z)) :
  StronglySorted (fun p q => ~ fst p == fst q) c ->
  StronglySorted (fun p q => fst p < fst q) (sorted fst Qle_bool c).
Proof.
  induction 1 as [|a c Hc IH Ha]; simpl; [constructor|].
  apply insert_strict; [exact IH|].
  eapply Permutation_Forall; [apply sorted_perm | exact Ha].
Qed.

Lemma counted_le_count_up (x v : Q) (c : list (Q * Z)) :
  counted_le (count_up x c) v
  = (counted_le c v + (if Qle_bool x v then 1 else 0))%Z.
Proof.
  induction c as [|[k n] c IH]; simpl.
  - destruct (Qle_bool x v); lia.
  - destruct (Qeq_bool k x) eqn:E; cbn [counted_le].
    + apply Qeq_bool_iff in E. rewrite (Qle_bool_eq_l k x v E).
      destruct (Qle_bool x v); lia.
    + rewrite IH. lia.
Qed.

Lemma counted_le_Counter (xs : list Q) (v : Q) :
  counted_le (Counter xs) v = count_le xs v.
Proof.
  unfold Counter, count_le.
  assert (G : forall l c,
             counted_le (fold_left (fun c x => count_up x c) l c) v
             = (counted_le c v
                + Z.of_nat (List.length (filter (fun u => Qle_bool u v) l)))%Z).
  { induction l as [|a l IH]; intros c; cbn [fold_left filter]; [simpl; lia|].
    rewrite IH, counted_le_count_up.
    destruct (Qle_bool a v); cbn [List.length]; lia. }
  rewrite G. simpl. lia.
Qed.

Lemma counted_le_perm (c c' : list (Q * Z)) (v : Q) :
  Permutation c c' -> counted_le c v = counted_le c' v.
Proof.
  induction 1 as [|[k n] c c' _ IH|[k n] [k' n'] c|c c' c'' _ IH1 _ IH2]; simpl;
    lia.
Qed.

(** On a counter whose keys ascend strictly, the running count at a key
    is what the counter holds at the keys not above it. *)
Lemma running_counted (fl : Float.arith) (c : list (Q * Z)) (acc : Z) :
  StronglySorted (fun p q => fst p < fst q) c ->
  running (ints fl) acc c = map (fun p => (counted_le c (fst p) + acc)%Z) c.
Proof.
  intros H. revert acc. induction H as [|[k n] c Hs IH Hk]; intros acc; [reflexivity|].
  cbn [running map plus ints snd fst counted_le].
  assert (Hz : counted_le c k = 0%Z).
  { clear - Hk. induction Hk as [|[k' n'] c Hlt _ IH]; [reflexivity|].
    cbn [counted_le]. cbn [fst] in Hlt.
    assert (Qle_bool k' k = false) as ->.
    { destruct (Qle_bool k' k) eqn:E; [|reflexivity].
      apply Qle_bool_iff in E. apply Qle_not_lt in E. contradiction. }
    rewrite IH. reflexivity. }
  rewrite Qle_bool_refl, Hz. f_equal; [lia|].
  rewrite IH. apply map_ext_in. intros [k' n'] Hin. cbn [fst].
  rewrite Forall_forall in Hk. specialize (Hk _ Hin). cbn [fst] in Hk.
  assert (Qle_bool k k' = true) as -> by (apply Qle_bool_iff, Qlt_le_weak, Hk).
  lia.
Qed.

Lemma count_le_mono (xs : list Q) (u v : Q) :
  u <= v -> (count_le xs u <= count_le xs v)%Z.
Proof.
  intros Huv. unfold count_le. apply inj_le.
  induction xs as [|x xs IH]; cbn [filter]; [lia|].
  destruct (Qle_bool x u) eqn:E.
  - assert (Qle_bool x v = true) as ->.
    { apply Qle_bool_iff. apply Qle_bool_iff in E. eapply Qle_trans; eauto. }
    cbn [List.length]. lia.
  - destruct (Qle_bool x v); cbn [List.length]; lia.
Qed.

Lemma count_le_all (xs : list Q) (v : Q) :
  Forall (fun x => x <= v) xs -> count_le xs v = Z.of_nat (List.length xs).
Proof.
  intros H. unfold count_le. f_equal.
  induction H as [|x xs Hx _ IH]; cbn [filter]; [reflexivity|].
  apply Qle_bool_iff in Hx. rewrite Hx. cbn [List.length]. now rewrite IH.
Qed.

End CounterFacts.

Lemma StronglySorted_map {A B} (R : A -> A -> Prop) (S : B -> B -> Prop)
    (h : A -> B) (l : list A) :
  (forall a b, R a b -> S (h a) (h b)) ->
  StronglySorted R l -> StronglySorted S (map h l).
Proof.
  intros HRS. induction 1 as [|a l Hl IH Ha]; simpl; constructor; auto.
  apply Forall_map. eapply Forall_impl; [|exact Ha]. intros b. apply HRS.
Qed.

Section CdfFacts.
Import Stat Fit.
Variable fl : Float.arith.
Hypothesis fl_monotone : monotone fl.

Lemma rnd_proper (a b : Q) : a == b -> Float.rnd fl a == Float.rnd fl b.
Proof.
  intros E. destruct fl_monotone as [Hm _].
  apply Qle_antisym; apply Hm; rewrite E; apply Qle_refl.
Qed.

(** The CDF block on a raw sample of two values or more. *)
Lemma empirical_cdf_raw (xs ys : list Q) :
  (2 <= List.length xs)%nat ->
  let keys := map fst (sorted fst Qle_bool (Counter xs)) in
  empirical_cdf fl false xs ys = Ok (keys, empirical fl xs keys).
Proof.
  intros Hlen keys. unfold empirical_cdf, quantiles.
  assert ((List.length xs <? 2)%nat = false) as -> by (apply Nat.ltb_ge; exact Hlen).
  cbn [Py.bind]. unfold cdf_points.
  set (c := sorted fst Qle_bool (Counter xs)) in *.
  assert (Hp : Permutation (Counter xs) c) by apply sorted_perm.
  assert (Hs : StronglySorted (fun p q => fst p < fst q) c)
    by apply sorted_strict, Counter_distinct.
  cbn [total ints zero over].
  assert (Ht : int_sum (map snd c) = Z.of_nat (List.length xs)).
  { rewrite <- (proj1 (Counter_spec xs)). symmetry. apply int_sum_perm.
    now apply Permutation_map. }
  rewrite Ht, (running_counted fl c 0 Hs).
  rewrite (mapM_map_ok _ (fun k => Float.rnd fl (inject_Z k
                                    / inject_Z (Z.of_nat (List.length xs))))).
  - cbn [Py.bind]. unfold empirical, keys. rewrite !map_map. do 2 f_equal.
    apply map_ext. intros p. rewrite Z.add_0_r.
    now rewrite <- (counted_le_perm _ _ _ Hp), counted_le_Counter.
  - intros k. unfold int_div.
    assert ((Z.of_nat (List.length xs) =? 0)%Z = false) as -> by (apply Z.eqb_neq; lia).
    reflexivity.
Qed.

(** C5 (as amended). For every raw sample of two values or more the CDF
    block computes the empirical CDF: its abscissas are the distinct
    values of the sample, ascending, and the cumulative probability at
    each is the number of samples not above it over the number of
    samples, as a float; the cumulative probabilities do not decrease
    and the last one is 1. A raw dataset for which [stat_plot] reaches
    that block has two values or more, and [stat_plot] returns with this
    CDF. *)
Theorem empirical_cdf_monotone :
  (forall xs ys : list Q,
     (2 <= List.length xs)%nat ->
     exists keys,
       empirical_cdf fl false xs ys = Ok (keys, empirical fl xs keys) /\
       StronglySorted Qlt keys /\
       (forall v, In v xs -> exists x, In x keys /\ x == v) /\
       (forall x, In x keys -> In x xs) /\
       StronglySorted Qle (empirical fl xs keys) /\
       last (empirical fl xs keys) 0 == 1) /\
  (forall (ppf : Q -> Q -> res Q) (d : dataset) (pre : progress),
     buckets d = false ->
     before_cdf fl ppf d = Ok pre ->
     (2 <= List.length (Fit.xs d))%nat /\
     exists keys,
       stat_plot fl ppf d = Ok (with_cdf pre (keys, empirical fl (Fit.xs d) keys))).
Proof.
  assert (A : forall xs ys : list Q,
     (2 <= List.length xs)%nat ->
     exists keys,
       empirical_cdf fl false xs ys = Ok (keys, empirical fl xs keys) /\
       StronglySorted Qlt keys /\
       (forall v, In v xs -> exists x, In x keys /\ x == v) /\
       (forall x, In x keys -> In x xs) /\
       StronglySorted Qle (empirical fl xs keys) /\
       last (empirical fl xs keys) 0 == 1).
  { intros xs ys Hlen.
    set (c := sorted fst Qle_bool (Counter xs)).
    exists (map fst c).
    assert (Hp : Permutation (Counter xs) c) by apply sorted_perm.
    assert (Hs : StronglySorted (fun p q => fst p < fst q) c)
      by apply sorted_strict, Counter_distinct.
    assert (Hk : StronglySorted Qlt (map fst c)).
    { apply (StronglySorted_map (fun p q : Q * Z => fst p < fst q)); auto. }
    destruct (Counter_spec xs) as (_ & Hhas & Hfrom).
    assert (Hin : forall v, In v xs -> exists x, In x (map fst c) /\ x == v).
    { intros v Hv. destruct (Hhas v Hv) as (p & Hpin & Hpv).
      exists (fst p). split; [|exact Hpv].
      apply in_map. eapply Permutation_in; eauto. }
    destruct fl_monotone as [Hm H1].
    assert (Hn : 0 < inject_Z (Z.of_nat (List.length xs))).
    { change 0 with (inject_Z 0). rewrite <- Zlt_Qlt. lia. }
    split; [now apply empirical_cdf_raw|]. split; [exact Hk|]. split; [exact Hin|].
    split; [|split].
    - intros x Hx. apply Hfrom.
      eapply Permutation_in; [apply Permutation_sym, Permutation_map; exact Hp | exact Hx].
    - unfold empirical. apply (StronglySorted_map Qlt); [|exact Hk].
      intros a b Hab. apply Hm. unfold Qdiv.
      apply Qmult_le_compat_r.
      + rewrite <- Zle_Qle. apply count_le_mono. now apply Qlt_le_weak.
      + apply Qlt_le_weak, Qinv_lt_0_compat, Hn.
    - assert (Hne : map fst c <> []).
      { destruct xs as [|v xs']; [simpl in Hlen; lia|].
        destruct (Hin v (or_introl eq_refl)) as (x & Hx & _).
        intros E. rewrite E in Hx. exact Hx. }
      unfold empirical.
      rewrite (last_map_nonempty _ (map fst c) 0 0 Hne).
      assert (Hall : Forall (fun x => x <= last (map fst c) 0) xs).
      { apply Forall_forall. intros v Hv. destruct (Hin v Hv) as (x & Hx & E).
        rewrite <- E.
        destruct (exists_last Hne) as (l' & w & El). rewrite El in *.
        rewrite last_last.
        assert (Hle : StronglySorted Qle (l' ++ [w])).
        { clear - Hk. induction Hk; constructor; auto.
          eapply Forall_impl; [|eassumption]. intros b. apply Qlt_le_weak. }
        pose proof (sorted_last_max Qle l' w (Qle_refl w) Hle) as Hmax.
        rewrite Forall_forall in Hmax. now apply Hmax. }
      rewrite (count_le_all xs _ Hall).
      rewrite <- H1. apply rnd_proper. field.
      intros E. rewrite E in Hn. now apply Qlt_irrefl in Hn. }
  split; [exact A|].
  intros ppf d pre Hb Hpre.
  assert (Hlen : (2 <= List.length (Fit.xs d))%nat).
  { unfold before_cdf in Hpre.
    destruct (moments fl d) as [[avg stddev]|]; [|discriminate]. cbn [Py.bind] in Hpre.
    destruct (normal_curve d avg stddev); [|discriminate]. cbn [Py.bind] in Hpre.
    destruct (poisson_curve d avg); [|discriminate]. cbn [Py.bind] in Hpre.
    destruct (exponential_curve fl d avg); [|discriminate]. cbn [Py.bind] in Hpre.
    destruct (uniform_curve fl d); [|discriminate]. cbn [Py.bind] in Hpre.
    destruct (quartiles_data d) as [q|] eqn:Eq; [|discriminate].
    unfold quartiles_data in Eq. rewrite Hb in Eq. cbn [Py.bind] in Eq.
    unfold quantiles in Eq.
    destruct (List.length (Fit.xs d) <? 2)%nat eqn:El; [discriminate|].
    now apply Nat.ltb_ge in El. }
  split; [exact Hlen|].
  destruct (A (Fit.xs d) (Fit.ys d) Hlen) as (keys & E & _).
  exists keys. unfold stat_plot. rewrite Hpre. cbn [Py.bind]. rewrite Hb, E. reflexivity.
Qed.

End CdfFacts.

Lemma exact_monotone : monotone Float.exact.
Proof. split; [intros a b H; exact H | reflexivity]. Qed.

Lemma empirical_cdf_monotone_witness :
  (exists keys,
     Stat.empirical_cdf Float.exact false (Fit.xs raw_halves) []
     = Ok (keys, empirical Float.exact (Fit.xs raw_halves) keys) /\
     last (empirical Float.exact (Fit.xs raw_halves) keys) 0 == 1) /\
  (exists pre keys,
     Fit.before_cdf Float.exact ppf_mean raw_halves = Ok pre /\
     Fit.stat_plot Float.exact ppf_mean raw_halves
     = Ok (Fit.with_cdf pre (keys, empirical Float.exact (Fit.xs raw_halves) keys))).
Proof.
  split.
  - destruct (proj1 (empirical_cdf_monotone Float.exact exact_monotone)
                (Fit.xs raw_halves) [] ltac:(simpl; lia))
      as (keys & E & _ & _ & _ & _ & L).
    exists keys. split; [exact E | exact L].
  - assert (P : exists pre, Fit.before_cdf Float.exact ppf_mean raw_halves = Ok pre)
      by (eexists; vm_compute; reflexivity).
    destruct P as (pre & P).
    destruct (proj2 (empirical_cdf_monotone Float.exact exact_monotone)
                ppf_mean raw_halves pre eq_refl P) as (_ & keys & E).
    exists pre, keys. split; [exact P | exact E].
Defined.

(** C5 fails as stated: a raw dataset with a single sample and a bucketed
    dataset are not empty, yet [stat_plot] builds no CDF for them: the
    first ends at the standard deviation, which needs two samples, the
    second at the Poisson curve, where [math.factorial] is applied to the
    float abscissas. *)
Lemma no_cdf_for_one_sample_nor_for_buckets :
  Fit.stat_plot Float.exact ppf_mean raw_single = Raise StatisticsError /\
  Stat.empirical_cdf Float.exact false [5] [] = Raise StatisticsError /\
  Fit.stat_plot Float.exact ppf_mean two_buckets = Raise TypeError.
Proof. repeat split. Qed.

(** ** Failures inside [stat_plot] *)

Section FitClaims.
Import Stat Fit.
Variable fl : Float.arith.
Variable ppf : Q -> Q -> res Q.

Lemma mapM_raise_head {A B} (f : A -> res B) (a : A) (l : list A) (e : exn) :
  f a = Raise e -> mapM f (a :: l) = Raise e.
Proof. intros H. simpl. now rewrite H. Qed.

Lemma mapM_raise_in {A B} (f : A -> res B) (l : list A) :
  (exists a e, In a l /\ f a = Raise e) -> exists e, mapM f l = Raise e.
Proof.
  intros (a & e & Hin & Ha). induction l as [|b l IH]; [contradiction|].
  cbn [mapM]. destruct (f b) as [y|e0] eqn:Eb; cbn [Py.bind]; [|now exists e0].
  destruct Hin as [->|Hin]; [congruence|].
  destruct (IH Hin) as (e' & ->). cbn [Py.bind]. now exists e'.
Qed.

(** C4 (as amended). A zero standard deviation makes the normal curve
    divide by zero, and a mean that is not positive makes the Poisson
    curve take the logarithm of a non-positive number; either exception
    is uncaught and ends [stat_plot] for that dataset, so none of its
    later curves, quartiles or CDF is produced. Only the Poisson quantile
    computation is guarded: whatever it raises, the quantiles alone are
    skipped and every other result of the dataset is unchanged. Datasets
    are processed independently of each other: the outcome for one is the
    outcome of [stat_plot] on it alone. *)
Theorem stat_plot_failures :
  (forall d avg stddev,
     moments fl d = Ok (avg, stddev) -> stddev == 0 ->
     stat_plot fl ppf d = Raise ZeroDivisionError) /\
  (forall d avg stddev,
     moments fl d = Ok (avg, stddev) -> ~ stddev == 0 -> avg <= 0 ->
     (if buckets d then xs d else edges d) <> [] ->
     stat_plot fl ppf d = Raise ValueError) /\
  (forall d f,
     stat_plot fl ppf d = Ok f ->
     forall ppf' : Q -> Q -> res Q,
       stat_plot fl ppf' d
       = Ok (mkFit (Fit.avg f) (Fit.stddev f) (normal f) (poisson f)
                   (poisson_quantiles ppf' (Fit.avg f))
                   (exponential f) (uniform f) (quartiles_sample f) (cdf f))) /\
  (forall avg, (exists p e, In p prob_steps /\ ppf p avg = Raise e) ->
               poisson_quantiles ppf avg = None) /\
  (forall ds i,
     nth_error (stat_all fl ppf ds) i = option_map (stat_plot fl ppf) (nth_error ds i)).
Proof.
  split; [|split; [|split; [|split]]].
  - intros d avg stddev Hm Hz. unfold stat_plot, before_cdf. rewrite Hm. cbn [Py.bind].
    unfold normal_curve. apply Qeq_bool_iff in Hz. now rewrite Hz.
  - intros d avg stddev Hm Hnz Havg Hx. unfold stat_plot, before_cdf.
    rewrite Hm. cbn [Py.bind]. unfold normal_curve.
    assert (Qeq_bool stddev 0 = false) as ->.
    { destruct (Qeq_bool stddev 0) eqn:E; [|reflexivity].
      apply Qeq_bool_iff in E. contradiction. }
    cbn [Py.bind]. unfold poisson_curve.
    assert (Hle : Qle_bool avg 0 = true) by now apply Qle_bool_iff.
    destruct (buckets d).
    + destruct (xs d) as [|v l]; [now elim Hx|].
      rewrite (mapM_raise_head _ v l ValueError); [reflexivity | now rewrite Hle].
    + destruct (edges d) as [|v l]; [now elim Hx|].
      cbn [map]. rewrite (mapM_raise_head _ _ _ ValueError); [reflexivity | now rewrite Hle].
  - intros d f H ppf'. unfold stat_plot, before_cdf in *.
    destruct (moments fl d) as [[avg stddev]|]; [|discriminate]. cbn [Py.bind] in *.
    destruct (normal_curve d avg stddev); [|discriminate]. cbn [Py.bind] in *.
    destruct (poisson_curve d avg); [|discriminate]. cbn [Py.bind] in *.
    destruct (exponential_curve fl d avg); [|discriminate]. cbn [Py.bind] in *.
    destruct (uniform_curve fl d); [|discriminate]. cbn [Py.bind] in *.
    destruct (quartiles_data d); [|discriminate]. cbn [Py.bind] in *.
    destruct (empirical_cdf fl (buckets d) (xs d) (ys d)); [|discriminate].
    cbn [Py.bind] in *. inversion H; subst. reflexivity.
  - intros avg Hex. unfold poisson_quantiles.
    destruct (mapM_raise_in (fun p => ppf p avg) prob_steps Hex) as (e & ->).
    reflexivity.
  - intros ds i. unfold stat_all. apply nth_error_map.
Qed.

End FitClaims.

Lemma stat_plot_failures_witness :
  Fit.stat_plot Float.exact ppf_mean single_bucket = Raise ZeroDivisionError.
Proof.
  refine (proj1 (stat_plot_failures Float.exact ppf_mean) single_bucket _ _ _ _).
  - vm_compute. reflexivity.
  - reflexivity.
Defined.

(** C4 fails as stated: the division by zero of the normal curve ends
    the whole of [stat_plot], although the exponential and uniform curves
    and the CDF of the same dataset can be computed. *)
Lemma normal_curve_failure_ends_stat_plot :
  Py.is_ok (Fit.normal_curve single_bucket 2 0) = false /\
  Py.is_ok (Fit.exponential_curve Float.exact single_bucket 2) = true /\
  Py.is_ok (Fit.uniform_curve Float.exact single_bucket) = true /\
  Py.is_ok (Stat.empirical_cdf Float.exact true [2] [3]) = true /\
  Py.is_ok (Fit.stat_plot Float.exact ppf_mean single_bucket) = false.
Proof. repeat split; vm_compute; reflexivity. Qed.

(** ** The shared domain of categorical datasets *)

Section AlignFacts.
Import Prepare Align.

Lemma py_eq_str (s : string) (v : value) : py_eq (VStr s) v = true <-> v = VStr s.
Proof.
  destruct v; simpl; try (split; [discriminate | intros H; discriminate H]).
  rewrite String.eqb_eq. split; [now intros -> | now intros [= ->]].
Qed.

Lemma py_eq_str_l (s : string) (v : value) : py_eq v (VStr s) = true <-> v = VStr s.
Proof.
  destruct v; simpl; try (split; [discriminate | intros H; discriminate H]).
  rewrite String.eqb_eq. split; [now intros -> | now intros [= ->]].
Qed.

Lemma py_in_str (s : string) (l : list value) : py_in (VStr s) l = true <-> In (VStr s) l.
Proof.
  unfold py_in. rewrite existsb_exists. split.
  - intros (v & Hin & He). apply py_eq_str in He. now subst.
  - intros Hin. exists (VStr s). split; [exact Hin | now apply py_eq_str].
Qed.

Local Abbreviation add_keys xs m :=
  (fold_left (fun m v => if negb (py_in v m) then m ++ [v] else m) xs m).

Local Abbreviation add_datasets several group m :=
  (fold_left
     (fun merged p =>
        if is_categorical_in_x p && several then add_keys (x p) merged else merged)
     group m).

(** The inner loop of the merge: the new keys of one dataset. *)
Lemma add_keys_spec (xs m : list value) :
  Forall is_str xs -> Forall is_str m -> NoDup m ->
  Forall is_str (add_keys xs m) /\ NoDup (add_keys xs m) /\
  (forall v, In v (add_keys xs m) <-> In v m \/ In v xs).
Proof.
  intros Hxs. revert m. induction Hxs as [|v xs [s ->] _ IH]; intros m Hm Hnd; simpl.
  - repeat split; auto. intros [H|[]]; exact H.
  - destruct (py_in (VStr s) m) eqn:E; simpl.
    + destruct (IH m Hm Hnd) as (H1 & H2 & H3). repeat split; auto.
      * intros H. apply H3 in H. tauto.
      * intros [H|[<-|H]]; apply H3; auto. left. now apply py_in_str.
    + assert (Hni : ~ In (VStr s) m).
      { intros H. apply py_in_str in H. congruence. }
      destruct (IH (m ++ [VStr s])) as (H1 & H2 & H3).
      * apply Forall_app. split; [exact Hm|]. repeat constructor. now exists s.
      * apply NoDup_app; [exact Hnd | repeat constructor; auto | ].
        intros a Ha [<-|[]]. contradiction.
      * repeat split; auto.
        -- intros H. apply H3 in H. rewrite in_app_iff in H. simpl in H. tauto.
        -- intros H. apply H3. rewrite in_app_iff. simpl. tauto.
Qed.

Lemma merge_keys_spec (group : list plot) (nb : nat) :
  (1 < nb)%nat ->
  Forall (fun p => is_categorical_in_x p = true /\ Forall is_str (x p)) group ->
  Forall is_str (merge_keys nb group) /\ NoDup (merge_keys nb group) /\
  (forall v, In v (merge_keys nb group) <-> exists p, In p group /\ In v (x p)).
Proof.
  intros Hnb Hg. unfold merge_keys.
  assert ((1 <? nb)%nat = true) as -> by now apply Nat.ltb_lt.
  assert (G : forall m, Forall is_str m -> NoDup m ->
    Forall is_str (add_datasets true group m) /\ NoDup (add_datasets true group m) /\
    (forall v, In v (add_datasets true group m) <->
               In v m \/ exists p, In p group /\ In v (x p))).
  { induction Hg as [|p group [Hc Hx] _ IH]; intros m Hm Hnd; cbn [fold_left].
    - repeat split; auto. intros [H|(p & [] & _)]; exact H.
    - rewrite Hc. cbn [andb].
      destruct (add_keys_spec (x p) m Hx Hm Hnd) as (H1 & H2 & H3).
      destruct (IH _ H1 H2) as (K1 & K2 & K3). repeat split; auto.
      + intros H. apply K3 in H as [H|(q & Hq & Hv)].
        * apply H3 in H as [H|H]; [now left | right; exists p; simpl; auto].
        * right. exists q. simpl. auto.
      + intros [H|(q & [<-|Hq] & Hv)]; apply K3.
        * left. apply H3. now left.
        * left. apply H3. now right.
        * right. exists q. auto. }
  destruct (G [] (Forall_nil _) (NoDup_nil _)) as (H1 & H2 & H3).
  repeat split; auto.
  - intros H. apply H3 in H as [[]|H]. exact H.
  - intros H. apply H3. now right.
Qed.

Lemma insert_adjacent {A K} (key : A -> K) (kle : K -> K -> bool) (a : A) (l : list A) :
  (forall u v, kle u v = false -> kle v u = true) ->
  Sorted (fun u v => kle (key u) (key v) = true) l ->
  Sorted (fun u v => kle (key u) (key v) = true) (insert key kle a l).
Proof.
  intros Htot. induction 1 as [|b l Hl IH Hb]; simpl.
  - repeat constructor.
  - destruct (kle (key a) (key b)) eqn:E.
    + repeat constructor; auto.
    + constructor; [exact IH|].
      destruct Hb as [|c l' Hc]; simpl.
      * constructor. now apply Htot.
      * destruct (kle (key a) (key c)); constructor; auto.
Qed.

Lemma sorted_adjacent {A K} (key : A -> K) (kle : K -> K -> bool) (l : list A) :
  (forall u v, kle u v = false -> kle v u = true) ->
  Sorted (fun u v => kle (key u) (key v) = true) (sorted key kle l).
Proof.
  intros Htot. induction l; simpl; [constructor | now apply insert_adjacent].
Qed.

Lemma string_leb_total (s t : string) : String.leb s t = false -> String.leb t s = true.
Proof. destruct (String.leb_total s t) as [H|H]; [congruence | auto]. Qed.

Lemma insert_str (a : value) (l : list value) :
  is_str a -> Forall is_str l ->
  insert (fun v => v) Py.leb a l = insert str_key String.leb a l.
Proof.
  intros [s ->]. induction 1 as [|b l [t ->] _ IH]; simpl; [reflexivity|].
  unfold Py.leb at 1. simpl. now rewrite IH.
Qed.

Lemma sorted_str (l : list value) :
  Forall is_str l -> sorted (fun v => v) Py.leb l = sorted str_key String.leb l.
Proof.
  induction 1 as [|a l Ha Hl IH]; simpl; [reflexivity|].
  rewrite IH. apply insert_str; [exact Ha|].
  eapply Permutation_Forall; [apply sorted_perm | exact Hl].
Qed.

Lemma map_str_key (l : list value) : Forall is_str l -> l = map VStr (map str_key l).
Proof.
  induction 1 as [|a l [s ->] _ IH]; simpl; [reflexivity | now rewrite <- IH].
Qed.

Lemma strict_adjacent (l : list value) :
  Forall is_str l -> NoDup l ->
  Sorted (fun u v => String.leb (str_key u) (str_key v) = true) l ->
  Sorted (fun s t => String.ltb s t = true) (map str_key l).
Proof.
  intros Hs Hnd H. induction H as [|a l Hl IH Ha]; simpl; [constructor|].
  apply Forall_cons_iff in Hs as [Hsa Hsl]. apply NoDup_cons_iff in Hnd as [Hna Hndl].
  constructor; [now apply IH|].
  destruct Ha as [|b l' Hab]; simpl; constructor.
  destruct Hsa as [s ->]. apply Forall_cons_iff in Hsl as [[t ->] _]. simpl in *.
  unfold String.leb in Hab. unfold String.ltb.
  destruct (String.compare s t) eqn:C; [|reflexivity|discriminate].
  apply String.compare_eq_iff in C. subst. elim Hna. now left.
Qed.

(** The shared domain: the keys of all datasets, each once, ascending. *)
Lemma merged_x_spec (group : list plot) :
  (1 < List.length group)%nat ->
  Forall (fun p => is_categorical_in_x p = true /\ Forall is_str (x p)) group ->
  exists dom : list string,
    merged_x group = map VStr dom /\
    Sorted (fun s t => String.ltb s t = true) dom /\
    (forall s, In s dom <-> exists p, In p group /\ In (VStr s) (x p)).
Proof.
  intros Hn Hg. destruct (merge_keys_spec group _ Hn Hg) as (Hs & Hnd & Hin).
  unfold merged_x. set (m := merge_keys (List.length group) group) in *.
  assert (Hp : Permutation m (sorted (fun v => v) Py.leb m)) by apply sorted_perm.
  assert (Hs' : Forall is_str (sorted (fun v => v) Py.leb m))
    by (eapply Permutation_Forall; eauto).
  exists (map str_key (sorted (fun v => v) Py.leb m)).
  split; [now apply map_str_key|]. split.
  - apply strict_adjacent; [exact Hs' | eapply Permutation_NoDup; eauto |].
    rewrite (sorted_str m Hs). apply sorted_adjacent, string_leb_total.
  - intros s. rewrite <- Hin. split.
    + intros H. apply (in_map VStr) in H. rewrite <- map_str_key in H by exact Hs'.
      eapply Permutation_in; [apply Permutation_sym; exact Hp | exact H].
    + intros H. apply (Permutation_in _ Hp) in H.
      apply (in_map str_key) in H. exact H.
Qed.

End AlignFacts.

Section RealignFacts.
Import Prepare Align.

Lemma py_index_lt (v : value) (l : list value) :
  py_in v l = true -> (py_index v l < List.length l)%nat.
Proof.
  unfold py_in. induction l as [|a l IH]; simpl; [discriminate|].
  assert (Hsym : py_eq a v = py_eq v a).
  { destruct a, v; simpl; try reflexivity.
    - apply eq_true_iff_eq. rewrite !Qeq_bool_iff. split; intros H; now symmetry.
    - now destruct positive, positive0.
    - apply String.eqb_sym.
    - apply eq_true_iff_eq. rewrite !Qeq_bool_iff. split; intros H; now symmetry. }
  rewrite Hsym. destruct (py_eq v a); simpl; [lia|].
  intros H. apply IH in H. lia.
Qed.

Lemma index_nth {A} (l : list A) (i : nat) (d : A) :
  (i < List.length l)%nat -> index l i = Ok (nth i l d).
Proof.
  intros H. unfold index. destruct (nth_error l i) eqn:E.
  - now rewrite (nth_error_nth l i d E).
  - apply nth_error_None in E. lia.
Qed.

Lemma realign_own (gap : value) (p : plot) (merged : list value) :
  List.length (y p) = List.length (x p) ->
  realign gap p merged = Ok (map (own_value gap p) merged).
Proof.
  intros Hlen. unfold realign. apply mapM_map_ok. intros v. unfold own_value.
  destruct (py_in v (x p)) eqn:E; [|reflexivity].
  apply index_nth. rewrite Hlen. now apply py_index_lt.
Qed.

Lemma py_remove_length (v : value) (l : list value) :
  py_in v l = true -> S (List.length (py_remove v l)) = List.length l.
Proof.
  unfold py_in. induction l as [|a l IH]; simpl; [discriminate|].
  assert (Hsym : py_eq a v = py_eq v a).
  { destruct a, v; simpl; try reflexivity.
    - apply eq_true_iff_eq. rewrite !Qeq_bool_iff. split; intros H; now symmetry.
    - now destruct positive, positive0.
    - apply String.eqb_sym.
    - apply eq_true_iff_eq. rewrite !Qeq_bool_iff. split; intros H; now symmetry. }
  rewrite Hsym. destruct (py_eq v a); simpl; [reflexivity|].
  intros H. now rewrite IH.
Qed.

Lemma align_one_spec (nb : nat) (merged : list value) (st : carried) (p : plot) :
  (1 < nb)%nat ->
  is_categorical_in_x p = true ->
  List.length (y p) = List.length (x p) ->
  exists yd st',
    align_one nb merged st p = Ok (x_data st, yd, st') /\
    x_data st' = x_data st /\
    realigned merged p (x_data st, yd).
Proof.
  intros Hnb Hc Hlen. unfold align_one, realigned. rewrite Hc.
  assert ((1 <? nb)%nat = true) as -> by now apply Nat.ltb_lt.
  cbn [andb]. destruct (is_categorical_in_y p) eqn:Ey.
  - rewrite (realign_own _ p merged Hlen). cbn [Py.bind].
    set (aligned := map (own_value (VStr "") p) merged).
    destruct (negb (null_value_found st) && py_in (VStr "") aligned) eqn:E.
    + apply andb_true_iff in E as [_ E].
      eexists _, _. split; [reflexivity|]. split; [reflexivity|]. cbn [snd].
      split; [|split; [discriminate|]].
      * cbn [List.length]. rewrite (py_remove_length _ _ E). apply length_map.
      * intros _. right. split; [exact E | reflexivity].
    + eexists _, _. split; [reflexivity|]. split; [reflexivity|]. cbn [snd].
      split; [apply length_map|]. split; [discriminate|]. intros _. now left.
  - rewrite (realign_own _ p merged Hlen). cbn [Py.bind].
    eexists _, _. split; [reflexivity|]. split; [reflexivity|]. cbn [snd].
    split; [apply length_map|]. split; [reflexivity | discriminate].
Qed.

Lemma align_from_spec (nb : nat) (merged : list value) (group : list plot) (st : carried) :
  (1 < nb)%nat ->
  Forall (fun p => is_categorical_in_x p = true /\
                   List.length (y p) = List.length (x p)) group ->
  exists out,
    align_from nb merged st group = Ok out /\
    Forall2 (realigned merged) group out /\
    Forall (fun o => fst o = x_data st) out.
Proof.
  intros Hnb Hg. revert st. induction Hg as [|p group [Hc Hl] _ IH]; intros st.
  - exists []. repeat split; constructor.
  - destruct (align_one_spec nb merged st p Hnb Hc Hl) as (yd & st' & E & Hx & Hr).
    destruct (IH st') as (out & E' & Hf & Hxs).
    exists ((x_data st, yd) :: out). cbn [align_from]. rewrite E. cbn [Py.bind].
    rewrite E'. cbn [Py.bind]. split; [reflexivity|]. split.
    + constructor; assumption.
    + constructor; [reflexivity|]. now rewrite <- Hx.
Qed.

Lemma own_value_absent (gap : value) (p : plot) (s : string) :
  ~ In (VStr s) (x p) -> own_value gap p (VStr s) = gap.
Proof.
  intros H. unfold own_value. destruct (py_in (VStr s) (x p)) eqn:E; [|reflexivity].
  apply py_in_str in E. contradiction.
Qed.

Lemma py_index_first (s : string) (l1 l2 : list value) :
  ~ In (VStr s) l1 -> py_index (VStr s) (l1 ++ VStr s :: l2) = List.length l1.
Proof.
  induction l1 as [|a l1 IH]; simpl; intros H.
  - now rewrite String.eqb_refl.
  - destruct (py_eq a (VStr s)) eqn:E.
    + apply py_eq_str_l in E. subst. elim H. now left.
    + rewrite IH; [reflexivity|]. intros Hin. apply H. now right.
Qed.

Lemma own_value_present (gap : value) (p : plot) (s : string) (l1 l2 : list value) :
  x p = l1 ++ VStr s :: l2 -> ~ In (VStr s) l1 ->
  own_value gap p (VStr s) = nth (List.length l1) (y p) gap.
Proof.
  intros Hx Hn. unfold own_value.
  assert (py_in (VStr s) (x p) = true) as ->.
  { apply py_in_str. rewrite Hx. apply in_or_app. right. now left. }
  rewrite Hx. now rewrite py_index_first.
Qed.

Lemma lt_float_ok (u v : value) :
  is_float u -> is_float v -> exists b, Py.lt u v = Ok b.
Proof. destruct u, v; simpl; intros Hu Hv; try contradiction; eauto. Qed.

(** The bottom of the bars is computed whenever the min-y of the datasets
    compare with each other. *)
Lemma min_y_of_ok (group : list plot) :
  group <> [] -> comparable_min_y group -> exists m, min_y_of group = Ok m.
Proof.
  intros Hne Hc. unfold min_y_of.
  destruct group as [|p group]; [now elim Hne|]. cbn [map].
  destruct Hc as [Hf|Hs].
  - inversion Hf as [|? ? (v & Ev & Hv) Hf']; subst. rewrite Ev. clear Hf Ev Hne.
    revert v Hv. induction Hf' as [|q group (w & Ew & Hw) _ IH]; intros v Hv; cbn [map].
    + eexists. reflexivity.
    + cbn [min_entry_from]. rewrite Ew. cbn [lt_entry].
      destruct (lt_float_ok w v Hw Hv) as (b & ->). cbn [Py.bind].
      destruct b; now apply IH.
  - inversion Hs as [|? ? (s & Es) Hs']; subst. rewrite Es. clear Hs Es Hne.
    revert s. induction Hs' as [|q group (t & Et) _ IH]; intros s; cbn [map].
    + eexists. reflexivity.
    + cbn [min_entry_from]. rewrite Et. cbn [lt_entry Py.lt Py.bind].
      destruct (String.ltb t s); apply IH.
Qed.

(** C9 (as amended). For every group of two or more datasets that are
    categorical in x (text keys, as many y as x) and whose min-y compare
    with each other (all floats, or all text), the shared domain is the
    ascending list of the keys of all the datasets, each key once, and
    every dataset is plotted on it with a y-sequence as long as the
    domain. For a numeric y the sequence holds, at each key, the
    dataset's y at the first occurrence of the key, and NaN at a key the
    dataset lacks. For a categorical y it is the same sequence with the
    empty string for a lacking key, except that the first empty entry
    may have been moved to the front of the sequence. *)
Theorem group_bars_shared_domain (group : list plot) :
  (1 < List.length group)%nat ->
  Forall (fun p => is_categorical_in_x p = true /\ Forall is_str (x p) /\
                   List.length (y p) = List.length (x p)) group ->
  comparable_min_y group ->
  exists (dom : list string) (out : list (list value * list value)),
    merged_x group = map VStr dom /\
    Sorted (fun s t => String.ltb s t = true) dom /\
    (forall s, In s dom <-> exists p, In p group /\ In (VStr s) (x p)) /\
    do_plot_group_bars group = Ok out /\
    Forall2 (realigned (map VStr dom)) group out /\
    (forall gap p s, ~ In (VStr s) (x p) -> own_value gap p (VStr s) = gap) /\
    (forall gap p s l1 l2,
       x p = l1 ++ VStr s :: l2 -> ~ In (VStr s) l1 ->
       own_value gap p (VStr s) = nth (List.length l1) (y p) gap).
Proof.
  intros Hn Hg Hcmp.
  destruct (merged_x_spec group Hn) as (dom & Hm & Hs & Hin).
  { eapply Forall_impl; [|exact Hg]. intros p (H1 & H2 & _). auto. }
  unfold do_plot_group_bars.
  destruct (min_y_of_ok group) as (lowest & ->); [intros ->; simpl in Hn; lia | exact Hcmp|].
  cbn [Py.bind]. unfold align_group. rewrite Hm.
  destruct (align_from_spec (List.length group) (map VStr dom) group
              (mkCarried false
                 (map (fun i => VNum (inject_Z (Z.of_nat i)))
                      (seq 0 (List.length (map VStr dom))))) Hn)
    as (out & E & Hf & _).
  { eapply Forall_impl; [|exact Hg]. intros p (H1 & _ & H3). auto. }
  exists dom, out. repeat split; auto.
  - apply Hin.
  - apply Hin.
  - apply own_value_absent.
  - apply own_value_present.
Qed.

End RealignFacts.

Lemma group_bars_shared_domain_witness :
  exists (dom : list string) (out : list (list value * list value)),
    Align.merged_x group_numeric = map VStr dom /\
    Align.do_plot_group_bars group_numeric = Ok out /\
    Forall2 (realigned (map VStr dom)) group_numeric out.
Proof.
  destruct (group_bars_shared_domain group_numeric) as (dom & out & Hm & _ & _ & E & Hf & _).
  - simpl. lia.
  - repeat constructor; eexists; reflexivity.
  - left. repeat constructor; eexists; (split; [reflexivity | exact I]).
  - exists dom, out. auto.
Defined.

(** Merging the key sets {a, c} and {b, c}: the domain is a, b, c and
    both sequences have length 3, with NaN at the missing key. *)
Example merge_ac_bc :
  Align.merged_x group_numeric = [VStr "a"; VStr "b"; VStr "c"] /\
  Align.do_plot_group_bars group_numeric
  = Ok [([VNum 0; VNum 1; VNum 2], [VNum 1; VNaN; VNum 3]);
        ([VNum 0; VNum 1; VNum 2], [VNaN; VNum 2; VNum 4])].
Proof. split; reflexivity. Qed.

(** C9 fails as stated: with text y values the first empty entry is moved
    to the front, so the first dataset, which has the key a, shows the
    gap at a and its value for a at the key b, which it lacks. *)
Lemma text_gap_is_moved_to_front :
  Align.merged_x group_text = [VStr "a"; VStr "b"; VStr "c"] /\
  Align.do_plot_group_bars group_text
  = Ok [([VNum 0; VNum 1; VNum 2], [VStr ""; VStr "u"; VStr "w"]);
        ([VNum 0; VNum 1; VNum 2], [VStr ""; VStr "p"; VStr "q"])] /\
  own_value (VStr "") (bars [VStr "a"; VStr "c"] [VStr "u"; VStr "w"] true (VStr "u"))
            (VStr "a")
  = VStr "u".
Proof. repeat split; reflexivity. Qed.

(** A group that mixes a numeric and a text min-y is not plotted: the
    bottom of the bars cannot be computed. *)
Example mixed_min_y_raises :
  Align.do_plot_group_bars group_mixed = Raise TypeError /\
  Py.is_ok (Align.align_group group_mixed) = true.
Proof. split; reflexivity. Qed.

(* ================================================================== *)
(** * Further properties of the preparation *)

Section InferenceFacts.
Import Prepare.
Variable py_float : string -> option float.
Variable strptime : string -> option Q.
Variable nan_sorted : forall A : Type, (A -> value) -> list A -> list A.

Lemma mapM_compose_ok {A B C} (h : A -> res B) (f : B -> res C) (l : list A) (col : list B) :
  mapM h l = Ok col ->
  mapM (fun a => b <- h a ;; f b) l = mapM f col.
Proof.
  revert col. induction l as [|a l IH]; simpl; intros col H.
  - inversion H. reflexivity.
  - destruct (h a) as [b|]; [|discriminate]. cbn [Py.bind] in *.
    destruct (mapM h l) as [bs|]; [|discriminate]. cbn [Py.bind] in *.
    inversion H; subst. simpl. now rewrite (IH bs eq_refl).
Qed.

Lemma mapM_to_float_all (col : list string) :
  Forall (fun s => py_float s <> None) col ->
  exists fs, mapM (to_float py_float) col = Ok (map of_float fs) /\
             map py_float col = map Some fs.
Proof.
  induction 1 as [|s col Hs _ (qs & E & M)]; simpl.
  - exists []. auto.
  - unfold to_float at 1. destruct (py_float s) as [q|] eqn:P; [|now elim Hs].
    cbn [Py.bind]. rewrite E. cbn [Py.bind]. exists (q :: qs). simpl. now rewrite M.
Qed.

Lemma mapM_to_float_some (col : list string) :
  Exists (fun s => py_float s = None) col ->
  exists e, mapM (to_float py_float) col = Raise e.
Proof.
  intros H. apply mapM_raise_in. apply Exists_exists in H as (s & Hin & Hs).
  exists s, ValueError. split; [exact Hin|]. unfold to_float. now rewrite Hs.
Qed.

(** X1. Type inference is all or nothing. When every data line has the
    column, the axis is numeric, holding the float of every field,
    exactly when every field reads as a float; as soon as one field does
    not, the axis is categorical and holds every field as its raw text,
    the fields that do read as floats included. *)
Theorem to_numbers_all_or_nothing (rows : list (list string)) (i : nat) (col : list string) :
  mapM (fun sp => index sp i) (rows_with 1 rows) = Ok col ->
  (Forall (fun s => py_float s <> None) col ->
   exists fs, to_numbers py_float rows i = Ok (map of_float fs, false) /\
              map py_float col = map Some fs) /\
  (Exists (fun s => py_float s = None) col ->
   to_numbers py_float rows i = Ok (map VStr col, true)).
Proof.
  intros Hc. unfold to_numbers.
  rewrite (mapM_compose_ok (fun sp => index sp i) (to_float py_float) _ col Hc).
  rewrite (mapM_compose_ok (fun sp => index sp i) (fun s => Ok (VStr s)) _ col Hc).
  split.
  - intros Hall. destruct (mapM_to_float_all col Hall) as (qs & -> & M). eauto.
  - intros Hex. destruct (mapM_to_float_some col Hex) as (e & ->).
    rewrite (mapM_map_ok (fun s => Ok (VStr s)) VStr) by reflexivity. reflexivity.
Qed.

(** X2. A data line that lacks the column ends the preparation: the
    exception raised while reading floats is swallowed, but reading the
    same column again as text raises [IndexError], which is not caught. *)
Theorem to_numbers_missing_column (rows : list (list string)) (i : nat) :
  Exists (fun sp => (List.length sp <= i)%nat) (rows_with 1 rows) ->
  to_numbers py_float rows i = Raise IndexError.
Proof.
  intros Hex. unfold to_numbers.
  assert (Hi : forall sp : list string,
             (List.length sp <= i)%nat -> index sp i = Raise IndexError).
  { intros sp Hs. unfold index. destruct (nth_error sp i) eqn:N; [|reflexivity].
    assert (i < List.length sp)%nat by (apply nth_error_Some; congruence). lia. }
  assert (Hf : forall (f : string -> res value) l,
             Exists (fun sp => (List.length sp <= i)%nat) l ->
             is_ok (mapM (fun sp => s <- index sp i ;; f s) l) = false).
  { intros f l H. induction H as [sp l Hs|sp l _ IH]; cbn [mapM].
    - now rewrite (Hi sp Hs).
    - destruct (index sp i); [|reflexivity]. cbn [Py.bind].
      destruct (f a); [|reflexivity]. cbn [Py.bind].
      destruct (mapM _ l); [discriminate | reflexivity]. }
  destruct (mapM (fun sp => s <- index sp i;; to_float py_float s) (rows_with 1 rows)) eqn:M.
  - specialize (Hf (to_float py_float) _ Hex). rewrite M in Hf. discriminate.
  - clear M. induction Hex as [sp l Hs|sp l _ IH]; cbn [mapM].
    + now rewrite (Hi sp Hs).
    + destruct (index sp i) eqn:I0.
      * cbn [Py.bind].
        destruct (mapM (fun sp0 => s <- index sp0 i;; Ok (VStr s)) l); [discriminate|].
        cbn [Py.bind]. inversion IH. reflexivity.
      * unfold index in I0. destruct (nth_error sp i); [discriminate|]. now inversion I0.
Qed.

(** X3. [check_limits] never fails and is idempotent: each limit comes
    back as a float, as NaN, or untouched, and checking the result again
    changes nothing. *)
Theorem check_limits_idempotent (limits : option value * option value) :
  check_limits py_float (check_limits py_float limits) = check_limits py_float limits /\
  (forall b, check_limit py_float b = b \/
             (exists f, check_limit py_float b = Some (of_float f))).
Proof.
  assert (H1 : forall b, check_limit py_float (check_limit py_float b)
                         = check_limit py_float b).
  { intros [v|]; [|reflexivity]. destruct v as [q| |i|s|t]; simpl; try reflexivity.
    unfold to_float. destruct (py_float s) as [f|] eqn:P; simpl.
    - now rewrite float_of_float.
    - unfold to_float. now rewrite P. }
  split.
  - unfold check_limits. simpl. now rewrite !H1.
  - intros [v|]; [|now left]. destruct v as [q| |i|s|t]; simpl; try (now left).
    unfold to_float. destruct (py_float s); simpl; [right; eauto | now left].
Qed.

(** X4. A file with a header and no data line, whose two x bounds are
    left empty, ends the preparation in [IndexError] for every graph
    type: the first x value is looked up to fill in min-x. *)
Theorem prepare_plot_no_data (g : graph_type) (lo_y hi_y : string) :
  py_float "" = None ->
  prepare_plot py_float strptime nan_sorted (read_plot g "" "" lo_y hi_y []) = Raise IndexError.
Proof.
  intros He. unfold prepare_plot, read_plot.
  destruct g; cbn [graph_type_of all_data min_x max_x min_y max_y x y
                   is_categorical_in_x is_categorical_in_y
                   extract_x extract_y is_histogram is_timeseries is_pie
                   to_numbers rows_with filter mapM Py.bind bounds_x bounds_y
                   date_if_given given truthy negb String.eqb check_limits fst snd
                   check_limit float_of];
    unfold to_float; rewrite ?He; cbn [Py.bind];
    try (destruct (check_limits py_float (Some (VStr lo_y), Some (VStr hi_y))));
    reflexivity.
Qed.

(** X5. In a time series a data line of two fields or more whose first
    field is not a timestamp in the fixed format ends the preparation in
    [ValueError]. *)
Theorem prepare_plot_bad_timestamp (p : plot) :
  graph_type_of p = Timeseries ->
  Exists (fun sp => (2 <= List.length sp)%nat /\
                    exists s, nth_error sp 0 = Some s /\ strptime s = None) (all_data p) ->
  prepare_plot py_float strptime nan_sorted p = Raise ValueError.
Proof.
  intros Hg Hex. unfold prepare_plot, extract_x. rewrite Hg.
  assert (mapM (fun sp => s <- index sp 0;; to_date strptime s) (rows_with 2 (all_data p))
          = Raise ValueError) as ->; [|reflexivity].
  unfold rows_with. induction Hex as [sp l (Hl & s & Hs & Hp)|sp l _ IH]; cbn [filter].
  - assert ((2 <=? List.length sp)%nat = true) as -> by now apply Nat.leb_le.
    assert (I0 : index sp 0 = Ok s) by (unfold index; now rewrite Hs).
    cbn [mapM]. rewrite I0. cbn [Py.bind]. unfold to_date at 1. now rewrite Hp.
  - destruct (2 <=? List.length sp)%nat eqn:E; [|exact IH].
    destruct (nth_error sp 0) as [s|] eqn:N.
    + assert (I0 : index sp 0 = Ok s) by (unfold index; now rewrite N).
      cbn [mapM]. rewrite I0. cbn [Py.bind].
      unfold to_date at 1. destruct (strptime s); [|reflexivity].
      cbn [Py.bind]. now rewrite IH.
    + apply nth_error_None in N. apply Nat.leb_le in E. lia.
Qed.

End InferenceFacts.

(** ** The histogram branch of the range restriction *)

Section HistogramFacts.
Import Prepare.
Variable nan_sorted : forall A : Type, (A -> value) -> list A -> list A.

Lemma find_first_app {A} (f : A -> bool) (l1 l2 : list A) :
  Forall (fun v => f v = false) l1 ->
  find_first f (l1 ++ l2) = option_map (fun j => (List.length l1 + j)%nat) (find_first f l2).
Proof.
  induction 1 as [|v l1 Hv _ IH]; simpl.
  - destruct (find_first f l2); reflexivity.
  - rewrite Hv, IH. destruct (find_first f l2); reflexivity.
Qed.

(** A list sorted by key splits into the elements not above [b] and the
    elements above [b]; the first part is as long as the upper cut. *)
Lemma sorted_split_at (b : Q) (t : list value) :
  StronglySorted ascending t ->
  exists t1 t2,
    t = t1 ++ t2 /\
    Forall (fun v => Qle_bool (keyq v) b = true) t1 /\
    Forall (fun v => Qle_bool (keyq v) b = false) t2 /\
    List.length t1 = upper_cut keyq b t.
Proof.
  unfold upper_cut.
  induction 1 as [|u t Ht (t1 & t2 & E & H1 & H2 & L) Hu].
  - exists [], []. repeat split; constructor.
  - destruct (Qle_bool (keyq u) b) eqn:Eu.
    + exists (u :: t1), t2. cbn [find_first]. rewrite Eu. cbn [negb].
      split; [now rewrite E|]. split; [now constructor|]. split; [exact H2|].
      destruct (find_first _ t); simpl in *; now rewrite L.
    + exists [], (u :: t). cbn [find_first]. rewrite Eu.
      split; [reflexivity|]. split; [constructor|]. split; [|reflexivity].
      constructor; [exact Eu|].
      eapply Forall_impl; [|exact Hu]. intros v Hv. unfold ascending in Hv.
      destruct (Qle_bool (keyq v) b) eqn:Ev; [|reflexivity].
      rewrite (Qle_bool_trans _ _ _ Hv Ev) in Eu. discriminate.
Qed.

(** The index the backward scan of a histogram stops at. *)
Lemma right_cut_histogram_kind (t : list value) (b : Q) :
  Forall (kind Histogram) t ->
  StronglySorted ascending t ->
  Exists (fun v => Qle_bool (keyq v) b = true) t ->
  given (Some (VNum b)) = Some (VNum b) ->
  right_cut_histogram t (Some (VNum b))
  = Ok ((upper_cut keyq b t - 1)%nat, Some (VNum b)).
Proof.
  intros Hk Hs Hex Hg. unfold right_cut_histogram. rewrite Hg.
  destruct (sorted_split_at b t Hs) as (t1 & t2 & E & H1 & H2 & L).
  unfold last_index.
  rewrite (first_index_pure _ (fun v => Qle_bool (keyq v) b)).
  2:{ apply Forall_rev. eapply Forall_impl; [|exact Hk]. intros v Hv.
      unfold kind, inj in Hv. simpl in Hv. rewrite Hv. reflexivity. }
  cbn [Py.bind].
  assert (Hne : t1 <> []).
  { intros ->. simpl in E. subst t2. apply Exists_exists in Hex as (v & Hin & Hv).
    rewrite Forall_forall in H2. rewrite (H2 v Hin) in Hv. discriminate. }
  destruct (exists_last Hne) as (t1' & w & Ew).
  assert (Hw : Qle_bool (keyq w) b = true).
  { rewrite Forall_forall in H1. apply H1. rewrite Ew. apply in_or_app. right. now left. }
  rewrite E at 1. rewrite rev_app_distr, find_first_app by now apply Forall_rev.
  rewrite Ew at 1. rewrite rev_unit. cbn [find_first]. rewrite Hw. cbn [option_map].
  rewrite <- L. rewrite E, !length_app, length_rev.
  replace (List.length t1 + List.length t2 - 1 - (List.length t2 + 0))%nat
    with (List.length t1 - 1)%nat by lia.
  reflexivity.
Qed.

Lemma removelast_slice {A} (t : list A) (i j : nat) :
  (1 <= j)%nat -> (j <= List.length t)%nat ->
  slice t i (j - 1) = removelast (slice t i j).
Proof.
  intros H1 Hj. unfold slice. destruct (Nat.le_gt_cases j i) as [Hle|Hgt].
  - replace (j - 1 - i)%nat with 0%nat by lia. replace (j - i)%nat with 0%nat by lia.
    reflexivity.
  - replace (j - i)%nat with (S (j - 1 - i)) by lia.
    rewrite removelast_firstn; [reflexivity|]. rewrite length_skipn. lia.
Qed.

(** X6. In a histogram of finite values whose max-x is given (a finite
    number other than zero) and is reached from below by some value, and
    whose min-x is left out or is a finite number that some value
    reaches: the backward scan stops at the last value not above max-x
    and the slice ends before it, so the clipped data are the sorted
    values within [[a, max-x]] without the largest of them ([a] being
    min-x, or the smallest value when min-x is left out). *)
Theorem clip_histogram_drops_last (xs : list value) (lo : option value) (b : Q) :
  Forall (kind Histogram) xs ->
  bound_kind Histogram lo ->
  (forall m, given lo = Some m ->
             Exists (fun v => Qle_bool (keyq m) (keyq v) = true) xs) ->
  given (Some (VNum b)) = Some (VNum b) ->
  Exists (fun v => Qle_bool (keyq v) b = true) xs ->
  let t := sorted (fun v => v) Py.leb xs in
  let a := bound_or lo (first_key t) in
  clip_histogram nan_sorted xs lo (Some (VNum b))
  = Ok (removelast (filter (in_range a b) t), Some (VNum a), Some (VNum b)).
Proof.
  intros Hk Hlo Hexa Hg Hexb t a.
  assert (Et : t = sorted keyq Qle_bool xs) by (apply (sorted_kind Histogram (fun v => v) xs Hk)).
  assert (Hpt : Permutation xs t) by apply sorted_perm.
  assert (Hst : StronglySorted ascending t).
  { rewrite Et. apply sorted_sorted; [apply Qle_bool_total | apply Qle_bool_trans]. }
  assert (Hkt : Forall (kind Histogram) t) by (eapply Permutation_Forall; eauto).
  assert (Hne : t <> []).
  { intros E. rewrite E in Hpt. apply Permutation_sym, Permutation_nil in Hpt.
    subst xs. inversion Hexb. }
  unfold clip_histogram.
  rewrite (py_sorted_kind nan_sorted Histogram (fun v => v) xs Hk). fold t.
  rewrite (left_cut_kind Histogram t lo Hkt Hne Hlo). cbn [Py.bind]. fold a.
  rewrite (right_cut_histogram_kind t b Hkt Hst); [|eapply Permutation_Exists; eauto|exact Hg].
  cbn [Py.bind].
  assert (Hup : (1 <= upper_cut keyq b t <= List.length t)%nat).
  { destruct (sorted_split_at b t Hst) as (t1 & t2 & E & H1 & H2 & L). rewrite <- L.
    split.
    - destruct t1; [|simpl; lia]. simpl in E. subst t2.
      assert (Hex' : Exists (fun v => Qle_bool (keyq v) b = true) t)
        by (eapply Permutation_Exists; eauto).
      apply Exists_exists in Hex' as (v & Hin & Hv).
      rewrite Forall_forall in H2. rewrite (H2 v Hin) in Hv. discriminate.
    - rewrite E, length_app. lia. }
  rewrite removelast_slice by lia.
  rewrite (@slice_cuts_inside _ keyq a b t Hst); [reflexivity|].
  apply (find_first_exists (fun u => Qle_bool a (keyq u))).
  unfold a, bound_or. destruct (given lo) as [m|] eqn:G.
  - eapply Permutation_Exists; [exact Hpt | now apply Hexa].
  - destruct t as [|p t']; [now elim Hne|]. constructor. apply Qle_bool_refl.
Qed.

(** X7. A histogram holding at least one value, all of them finite,
    whose two x bounds are left out is sorted ascending and kept whole,
    and the bounds written back are its smallest and largest values. *)
Theorem clip_histogram_unbounded (xs : list value) (lo hi : option value) :
  Forall (kind Histogram) xs -> xs <> [] ->
  given lo = None -> given hi = None ->
  let t := sorted (fun v => v) Py.leb xs in
  clip_histogram nan_sorted xs lo hi = Ok (t, Some (VNum (first_key t)), Some (VNum (last_key t))) /\
  Permutation xs t /\
  StronglySorted ascending t /\
  Forall (fun v => in_range (first_key t) (last_key t) v = true) t.
Proof.
  intros Hk Hne Hlo Hhi t.
  assert (Et : t = sorted keyq Qle_bool xs) by (apply (sorted_kind Histogram (fun v => v) xs Hk)).
  assert (Hpt : Permutation xs t) by apply sorted_perm.
  assert (Hst : StronglySorted ascending t).
  { rewrite Et. apply sorted_sorted; [apply Qle_bool_total | apply Qle_bool_trans]. }
  assert (Hkt : Forall (kind Histogram) t) by (eapply Permutation_Forall; eauto).
  assert (Hnt : t <> []).
  { intros E. rewrite E in Hpt. apply Permutation_sym, Permutation_nil in Hpt. contradiction. }
  split; [|split; [exact Hpt|split; [exact Hst|]]].
  - unfold clip_histogram.
  rewrite (py_sorted_kind nan_sorted Histogram (fun v => v) xs Hk). fold t. unfold left_cut, right_cut_histogram.
    rewrite Hlo, Hhi.
    destruct t as [|v t'] eqn:Dt; [now elim Hnt|]. cbn [index nth_error Py.bind].
    destruct (@exists_last _ (v :: t')) as (t1 & w & E); [discriminate|].
    assert (L : last_item (v :: t') = Ok w) by (rewrite E; apply last_item_app).
    rewrite L. cbn [Py.bind]. rewrite slice_all.
    assert (Hv : kind Histogram v) by now inversion Hkt.
    assert (Hw : kind Histogram w).
    { rewrite Forall_forall in Hkt. apply Hkt. rewrite E. apply in_or_app. right. now left. }
    unfold kind, inj in Hv, Hw. simpl in Hv, Hw.
    unfold first_key, last_key. rewrite E at 3. rewrite rev_unit.
    now rewrite <- Hv, <- Hw.
  - destruct (exists_last Hnt) as (t1 & w & E).
    assert (Hmax : Forall (fun u => ascending u w) t).
    { rewrite E. apply sorted_last_max; [apply Qle_bool_refl | now rewrite <- E]. }
    assert (Hlast : last_key t = keyq w) by (unfold last_key; now rewrite E, rev_unit).
    destruct t as [|v t']; [now elim Hnt|].
    assert (Hmin : Forall (fun u => ascending v u) (v :: t')).
    { inversion Hst; subst. constructor; [apply Qle_bool_refl | assumption]. }
    rewrite Hlast. unfold first_key.
    apply Forall_forall. intros u Hu. unfold in_range.
    rewrite Forall_forall in Hmin, Hmax.
    specialize (Hmin u Hu). specialize (Hmax u Hu). unfold ascending in *.
    now rewrite Hmin, Hmax.
Qed.

End HistogramFacts.

(** ** Bounds that Python takes for absent *)

Section AbsentBoundFacts.
Import Prepare.
Variable py_float : string -> option float.
Variable strptime : string -> option Q.
Variable nan_sorted : forall A : Type, (A -> value) -> list A -> list A.

Lemma left_cut_given (xs : list value) (lo lo' : option value) :
  given lo = given lo' -> left_cut xs lo = left_cut xs lo'.
Proof.
  intros H. unfold left_cut. rewrite <- H.
  destruct (given lo) as [m|] eqn:G; [|reflexivity].
  apply given_some in G. symmetry in H. apply given_some in H. now subst lo lo'.
Qed.

Lemma right_cut_given (xs : list value) (hi hi' : option value) :
  given hi = given hi' -> right_cut xs hi = right_cut xs hi'.
Proof.
  intros H. unfold right_cut. rewrite <- H.
  destruct (given hi) as [m|] eqn:G; [|reflexivity].
  apply given_some in G. symmetry in H. apply given_some in H. now subst hi hi'.
Qed.

Lemma right_cut_histogram_given (xs : list value) (hi hi' : option value) :
  given hi = given hi' -> right_cut_histogram xs hi = right_cut_histogram xs hi'.
Proof.
  intros H. unfold right_cut_histogram. rewrite <- H.
  destruct (given hi) as [m|] eqn:G; [|reflexivity].
  apply given_some in G. symmetry in H. apply given_some in H. now subst hi hi'.
Qed.

Lemma given_zero (s : string) (q : Q) :
  py_float s = Some (Finite q) -> q == 0 ->
  given (check_limit py_float (Some (VStr s))) = None.
Proof.
  intros Hs Hq. unfold check_limit, float_of, to_float. rewrite Hs.
  cbn [of_float]. unfold given, truthy. apply Qeq_bool_iff in Hq. now rewrite Hq.
Qed.

Lemma given_empty :
  py_float "" = None -> given (check_limit py_float (Some (VStr ""))) = None.
Proof.
  intros He. unfold check_limit, float_of, to_float. rewrite He. reflexivity.
Qed.

(** X8. Outside time series an x bound that reads as zero is taken for a
    bound left out: the dataset is prepared exactly as if the min-x and
    max-x fields of its header were empty. *)
Theorem zero_x_bound_is_no_bound (g : graph_type) (lo hi lo_y hi_y : string)
    (rows : list (list string)) (a b : Q) :
  is_timeseries g = false ->
  py_float "" = None ->
  py_float lo = Some (Finite a) -> a == 0 ->
  py_float hi = Some (Finite b) -> b == 0 ->
  prepare_plot py_float strptime nan_sorted (read_plot g lo hi lo_y hi_y rows)
  = prepare_plot py_float strptime nan_sorted (read_plot g "" "" lo_y hi_y rows).
Proof.
  intros Hts He Ha Ha0 Hb Hb0.
  pose proof (given_zero lo a Ha Ha0) as Glo.
  pose proof (given_zero hi b Hb Hb0) as Ghi.
  pose proof (given_empty He) as Ge.
  unfold prepare_plot, read_plot.
  cbn [graph_type_of all_data min_x max_x min_y max_y x y
       is_categorical_in_x is_categorical_in_y].
  assert (Ex : forall s s', extract_x py_float strptime
              (mkPlot g rows (Some (VStr s)) (Some (VStr s')) (Some (VStr lo_y))
                 (Some (VStr hi_y)) [] [] false false)
            = extract_x py_float strptime
              (mkPlot g rows (Some (VStr "")) (Some (VStr "")) (Some (VStr lo_y))
                 (Some (VStr hi_y)) [] [] false false)) by reflexivity.
  rewrite (Ex lo hi). clear Ex.
  destruct (extract_x _ _ _) as [[xs cat_x]|]; [|reflexivity]. cbn [Py.bind].
  unfold extract_y. cbn [graph_type_of all_data y].
  destruct (if is_histogram g then Ok ([], false) else to_numbers py_float rows 1)
    as [[ys cat_y]|]; [|reflexivity]. cbn [Py.bind].
  unfold bounds_x, bounds_y. cbn [graph_type_of min_x max_x min_y max_y].
  rewrite Hts. cbn [Py.bind]. unfold check_limits. cbn [fst snd].
  destruct (if is_histogram g
            then (Some (VStr lo_y), Some (VStr hi_y))
            else (check_limit py_float (Some (VStr lo_y)),
                  check_limit py_float (Some (VStr hi_y)))) as [ly hy].
  set (l1 := check_limit py_float (Some (VStr lo))) in *.
  set (h1 := check_limit py_float (Some (VStr hi))) in *.
  set (l0 := check_limit py_float (Some (VStr ""))) in *.
  destruct (is_histogram g).
  - unfold clip_histogram.
    rewrite (left_cut_given _ l1 l0) by congruence.
    destruct (left_cut _ l0) as [[i lo']|]; [|reflexivity]. cbn [Py.bind].
    rewrite (right_cut_histogram_given _ h1 l0) by congruence. reflexivity.
  - unfold clip_xy.
    destruct (sorted_pairs _ _ _ _ _ _) as [tmp|]; [|reflexivity]. cbn [Py.bind].
    rewrite (left_cut_given _ l1 l0) by congruence.
    destruct (left_cut _ l0) as [[i lo']|]; [|reflexivity]. cbn [Py.bind].
    rewrite (right_cut_given _ h1 l0) by congruence. reflexivity.
Qed.


(** ** Y-axis ranging on floats *)

Lemma min_from_num (m0 : Q) (l : list Q) :
  exists m, min_from (VNum m0) (map VNum l) = Ok (VNum m) /\
            m <= m0 /\ Forall (fun q => m <= q) l /\ (m = m0 \/ In m l).
Proof.
  revert m0. induction l as [|c l IH]; intros m0; simpl.
  - exists m0. repeat split; [apply Qle_refl | constructor | now left].
  - destruct (Qle_bool m0 c) eqn:E; simpl.
    + destruct (IH m0) as (m & -> & H1 & H2 & H3). exists m.
      apply Qle_bool_iff in E.
      split; [reflexivity|]. split; [exact H1|]. split.
      * constructor; [eapply Qle_trans; eauto | exact H2].
      * destruct H3; auto.
    + destruct (IH c) as (m & -> & H1 & H2 & H3). exists m.
      assert (c <= m0) by (apply Qle_bool_iff, Qle_bool_total, E).
      split; [reflexivity|]. split; [eapply Qle_trans; eauto|]. split.
      * constructor; assumption.
      * destruct H3 as [->|H3]; auto.
Qed.

Lemma max_from_num (m0 : Q) (l : list Q) :
  exists m, max_from (VNum m0) (map VNum l) = Ok (VNum m) /\
            m0 <= m /\ Forall (fun q => q <= m) l /\ (m = m0 \/ In m l).
Proof.
  revert m0. induction l as [|c l IH]; intros m0; simpl.
  - exists m0. repeat split; [apply Qle_refl | constructor | now left].
  - destruct (Qle_bool c m0) eqn:E; simpl.
    + destruct (IH m0) as (m & -> & H1 & H2 & H3). exists m.
      apply Qle_bool_iff in E.
      split; [reflexivity|]. split; [exact H1|]. split.
      * constructor; [eapply Qle_trans; eauto | exact H2].
      * destruct H3; auto.
    + destruct (IH c) as (m & -> & H1 & H2 & H3). exists m.
      assert (m0 <= c) by (apply Qle_bool_iff, Qle_bool_total, E).
      split; [reflexivity|]. split; [eapply Qle_trans; eauto|]. split.
      * constructor; assumption.
      * destruct H3 as [->|H3]; auto.
Qed.

Lemma mapM_map_Forall {A B} (f : A -> res B) (h : A -> B) (l : list A) :
  Forall (fun a => f a = Ok (h a)) l -> mapM f l = Ok (map h l).
Proof.
  induction 1 as [|a l Ha _ IH]; simpl; [reflexivity|]. now rewrite Ha, IH.
Qed.

(** X9. On a numeric y-axis whose values are all finite: with both y
    bounds given as finite numbers other than zero, y-ranging keeps the
    bounds and maps every y to itself when it lies in [[min-y, max-y]]
    and to NaN otherwise; with both bounds left out and at least one
    value, it changes no value and writes back the smallest and the
    largest y, between which every y lies. *)
Theorem range_y_numeric (qs : list Q) :
  (forall a b, ~ a == 0 -> ~ b == 0 ->
     range_y py_float false (map VNum qs) (Some (VNum a)) (Some (VNum b))
     = Ok (map (fun q => if Qle_bool a q && Qle_bool q b then VNum q else VNaN) qs,
           Some (VNum a), Some (VNum b))) /\
  (forall lo hi, qs <> [] -> given lo = None -> given hi = None ->
     exists m M,
       range_y py_float false (map VNum qs) lo hi
       = Ok (map VNum qs, Some (VNum m), Some (VNum M)) /\
       In m qs /\ In M qs /\ Forall (fun q => m <= q /\ q <= M) qs).
Proof.
  split.
  - intros a b Ha Hb. unfold range_y. cbn [negb].
    assert (Ga : given (Some (VNum a)) = Some (VNum a)).
    { unfold given, truthy. destruct (Qeq_bool a 0) eqn:E; [|reflexivity].
      apply Qeq_bool_iff in E. contradiction. }
    assert (Gb : given (Some (VNum b)) = Some (VNum b)).
    { unfold given, truthy. destruct (Qeq_bool b 0) eqn:E; [|reflexivity].
      apply Qeq_bool_iff in E. contradiction. }
    unfold float_if_given. rewrite Ga, Gb. cbn [float_of Py.bind]. rewrite Ga, Gb.
    unfold blank_below, blank_above.
    rewrite (mapM_map_Forall _ (fun c => if Qle_bool a (keyq c) then c else VNaN)).
    2:{ apply Forall_map, Forall_forall. intros q _. reflexivity. }
    cbn [Py.bind].
    rewrite (mapM_map_Forall _ (fun c => match c with
                                         | VNum q => if Qle_bool q b then c else VNaN
                                         | _ => VNaN
                                         end)).
    2:{ apply Forall_map, Forall_map, Forall_forall. intros q _. simpl.
        destruct (Qle_bool a q); reflexivity. }
    cbn [Py.bind]. rewrite !map_map. f_equal. f_equal. f_equal.
    apply map_ext. intros q. simpl. destruct (Qle_bool a q); simpl; reflexivity.
  - intros lo hi Hne Hlo Hhi. unfold range_y. cbn [negb].
    unfold float_if_given. rewrite Hlo, Hhi. cbn [Py.bind]. rewrite Hlo. cbn [Py.bind].
    destruct qs as [|q0 qs']; [now elim Hne|]. cbn [map py_min].
    destruct (min_from_num q0 qs') as (m & -> & Hm1 & Hm2 & Hm3). cbn [Py.bind].
    rewrite Hhi. cbn [py_max].
    destruct (max_from_num q0 qs') as (M & -> & HM1 & HM2 & HM3). cbn [Py.bind].
    exists m, M. split; [reflexivity|]. repeat split.
    + destruct Hm3 as [->|H]; [now left | now right].
    + destruct HM3 as [->|H]; [now left | now right].
    + constructor; [split; assumption|].
      rewrite Forall_forall in Hm2, HM2. apply Forall_forall. intros q Hq. auto.
Qed.

End AbsentBoundFacts.

(* ================================================================== *)
(** * Further properties of the statistics *)

Section SampleFacts.
Import Stat.

(** X11. [Counter] counts every sample exactly once: the counts add up
    to the number of samples and every sample has a key equal to it, so
    the total the empirical CDF of raw samples divides by is the sample
    size. *)
Theorem Counter_total (xs : list Q) :
  int_sum (map snd (Counter xs)) = Z.of_nat (List.length xs) /\
  (forall v, In v xs -> exists p, In p (Counter xs) /\ fst p == v).
Proof.
  destruct (Counter_spec xs) as (H1 & H2 & _). split; assumption.
Qed.

End SampleFacts.

Section FitEdgeFacts.
Import Stat Fit.
Variable fl : Float.arith.
Variable ppf : Q -> Q -> res Q.


Lemma is_integral_int (z : Z) : is_integral (inject_Z z) = true.
Proof.
  unfold is_integral, Expand.py_int. simpl. rewrite Z.quot_1_r.
  apply Qeq_bool_iff. reflexivity.
Qed.

(** X13. [stat_plot] produces no result for a bucketed dataset: the
    Poisson curve hands the float abscissas to [math.factorial]. And a
    result for a raw dataset guarantees that the mean is positive, the
    standard deviation is not zero, every abscissa the Poisson curve is
    drawn on is a non-negative integer, there is at least one, and the
    sample has two items or more. *)
Theorem stat_plot_result_needs (d : dataset) (f : fit) :
  stat_plot fl ppf d = Ok f ->
  buckets d = false /\
  0 < Fit.avg f /\
  ~ Fit.stddev f == 0 /\
  x_values (poisson f) <> [] /\
  Forall (fun v => is_integral v = true /\ 0 <= v) (x_values (poisson f)) /\
  quartiles_sample f = xs d /\
  (2 <= List.length (xs d))%nat.
Proof.
  unfold stat_plot, before_cdf. intros H.
  destruct (moments fl d) as [[avg stddev]|]; [|discriminate]. cbn [Py.bind] in H.
  destruct (normal_curve d avg stddev) as [n|] eqn:En; [|discriminate]. cbn [Py.bind] in H.
  destruct (poisson_curve d avg) as [p|] eqn:Ep; [|discriminate]. cbn [Py.bind] in H.
  destruct (exponential_curve fl d avg); [|discriminate]. cbn [Py.bind] in H.
  destruct (uniform_curve fl d); [|discriminate]. cbn [Py.bind] in H.
  destruct (quartiles_data d) as [q|] eqn:Eq; [|discriminate]. cbn [Py.bind] in H.
  destruct (empirical_cdf fl (buckets d) (Fit.xs d) (Fit.ys d)); [|discriminate].
  cbn [Py.bind] in H. inversion H; subst; clear H.
  cbn [with_cdf Fit.avg Fit.stddev poisson quartiles_sample so_far_avg so_far_stddev
       so_far_poisson so_far_sample].
  unfold normal_curve in En.
  destruct (Qeq_bool stddev 0) eqn:Ez; [discriminate|].
  unfold poisson_curve in Ep.
  set (pts := if buckets d then Fit.xs d
              else map (fun v => inject_Z (Expand.py_int v)) (edges d)) in *.
  destruct (mapM _ pts) as [l|] eqn:M; [|discriminate]. cbn [Py.bind] in Ep.
  destruct pts as [|v0 pts'] eqn:Dp; [discriminate|]. inversion Ep; subst; clear Ep.
  cbn [x_values].
  apply mapM_Forall2 in M.
  assert (Hall : Forall (fun v => Qle_bool avg 0 = false /\ buckets d = false /\ 0 <= v)
                        (v0 :: pts')).
  { clear - M. induction M as [|v w l l' Hv _ IH]; constructor; auto.
    destruct (Qle_bool avg 0); [discriminate|].
    destruct (buckets d); [discriminate|].
    destruct (Qle_bool 0 v) eqn:E; [|discriminate].
    apply Qle_bool_iff in E. auto. }
  assert (Hb : buckets d = false) by (inversion Hall as [|? ? (_ & Hb & _) _]; exact Hb).
  unfold quartiles_data in Eq. rewrite Hb in Eq. cbn [Py.bind] in Eq.
  unfold quantiles in Eq.
  destruct (List.length (Fit.xs d) <? 2)%nat eqn:El; [discriminate|]. inversion Eq; subst.
  split; [exact Hb|]. split; [|split; [|split; [|split; [|split]]]].
  - inversion Hall as [|? ? (Ha & _) _]; subst.
    apply Qnot_le_lt. intros Hle. apply Qle_bool_iff in Hle. congruence.
  - intros Hz. apply Qeq_bool_iff in Hz. congruence.
  - discriminate.
  - assert (Hi : Forall (fun v => is_integral v = true) (v0 :: pts')).
    { rewrite <- Dp. unfold pts. rewrite Hb. apply Forall_map, Forall_forall.
      intros v _. apply is_integral_int. }
    rewrite Forall_forall in Hi, Hall. apply Forall_forall. intros v Hv.
    split; [now apply Hi | now apply Hall].
  - reflexivity.
  - apply Nat.ltb_ge in El. exact El.
Qed.

End FitEdgeFacts.

(* ================================================================== *)
(** * Further properties of the category merge *)

Section ReorderFacts.
Import Prepare Align.

Lemma align_one_flag (nb : nat) (merged : list value) (st : carried) (p : plot) :
  (1 < nb)%nat ->
  is_categorical_in_x p = true ->
  List.length (y p) = List.length (x p) ->
  exists yd st',
    align_one nb merged st p = Ok (x_data st, yd, st') /\
    ((laid_out merged p (x_data st, yd) /\ st' = st) \/
     (null_value_found st = false /\ null_value_found st' = true /\
      yd = VStr "" :: py_remove (VStr "") (map (own_value (VStr "") p) merged))).
Proof.
  intros Hnb Hc Hlen. unfold align_one, laid_out, gap_of. rewrite Hc.
  assert ((1 <? nb)%nat = true) as -> by now apply Nat.ltb_lt.
  cbn [andb]. destruct (is_categorical_in_y p) eqn:Ey.
  - rewrite (realign_own _ p merged Hlen). cbn [Py.bind].
    destruct (null_value_found st) eqn:Ef; cbn [negb andb].
    + eexists _, _. split; [reflexivity|]. left. split; reflexivity.
    + destruct (py_in (VStr "") (map (own_value (VStr "") p) merged)).
      * eexists _, _. split; [reflexivity|]. right. repeat split.
      * eexists _, _. split; [reflexivity|]. left. split; reflexivity.
  - rewrite (realign_own _ p merged Hlen). cbn [Py.bind].
    eexists _, _. split; [reflexivity|]. left. split; reflexivity.
Qed.

Lemma align_from_found (nb : nat) (merged : list value) (group : list plot) (st : carried) :
  (1 < nb)%nat ->
  Forall (fun p => is_categorical_in_x p = true /\
                   List.length (y p) = List.length (x p)) group ->
  null_value_found st = true ->
  exists out, align_from nb merged st group = Ok out /\ Forall2 (laid_out merged) group out.
Proof.
  intros Hnb Hg. revert st. induction Hg as [|p group [Hc Hl] _ IH]; intros st Hf.
  - exists []. split; [reflexivity | constructor].
  - destruct (align_one_flag nb merged st p Hnb Hc Hl) as (yd & st' & E & [[Hy ->]|(Hn & _)]);
      [|congruence].
    destruct (IH st Hf) as (out & E' & Hout).
    exists ((x_data st, yd) :: out). cbn [align_from]. rewrite E. cbn [Py.bind].
    rewrite E'. cbn [Py.bind]. split; [reflexivity | now constructor].
Qed.

(** X14. In a group of two or more datasets categorical in x, with as
    many y as x and with min-y that compare with each other (all floats,
    or all text), the reordering of the first empty entry happens for
    one dataset at most: either every dataset is
    plotted with its values laid out key by key, or exactly one is
    plotted with its first gap moved to the front and all the others,
    before and after it, are laid out key by key. *)
Theorem gap_moved_once (group : list plot) :
  (1 < List.length group)%nat ->
  Forall (fun p => is_categorical_in_x p = true /\
                   List.length (y p) = List.length (x p)) group ->
  comparable_min_y group ->
  exists out,
    do_plot_group_bars group = Ok out /\
    (Forall2 (laid_out (merged_x group)) group out \/
     exists g1 p g2 o1 o o2,
       group = g1 ++ p :: g2 /\ out = o1 ++ o :: o2 /\
       Forall2 (laid_out (merged_x group)) g1 o1 /\
       Forall2 (laid_out (merged_x group)) g2 o2 /\
       is_categorical_in_y p = true /\
       snd o = VStr "" :: py_remove (VStr "")
                             (map (own_value (VStr "") p) (merged_x group))).
Proof.
  intros Hn Hg Hcmp. unfold do_plot_group_bars.
  destruct (min_y_of_ok group) as (lowest & ->); [intros ->; simpl in Hn; lia | exact Hcmp|].
  cbn [Py.bind]. unfold align_group. clear Hcmp.
  set (merged := merged_x group). set (nb := List.length group).
  generalize (mkCarried false
                (map (fun i => VNum (inject_Z (Z.of_nat i))) (seq 0 (List.length merged)))).
  fold nb in Hn. clearbody nb merged.
  induction Hg as [|p group [Hc Hl] Hg IH]; intros st.
  - exists []. split; [reflexivity|]. left. constructor.
  - destruct (align_one_flag nb merged st p Hn Hc Hl)
      as (yd & st' & E & [[Hy ->]|(Hf & Hf' & Hyd)]).
    + destruct (IH st) as (out & E' & Hout).
      exists ((x_data st, yd) :: out). cbn [align_from]. rewrite E. cbn [Py.bind].
      rewrite E'. cbn [Py.bind]. split; [reflexivity|].
      destruct Hout as [Hall|(g1 & q & g2 & o1 & o & o2 & -> & -> & H1 & H2 & Hq & Ho)].
      * left. now constructor.
      * right. exists (p :: g1), q, g2, ((x_data st, yd) :: o1), o, o2.
        repeat split; auto; now constructor.
    + destruct (align_from_found nb merged group st' Hn Hg Hf') as (out & E' & Hout).
      exists ((x_data st, yd) :: out). cbn [align_from]. rewrite E. cbn [Py.bind].
      rewrite E'. cbn [Py.bind]. split; [reflexivity|].
      right. exists [], p, group, [], (x_data st, yd), out.
      split; [reflexivity|]. split; [reflexivity|]. split; [constructor|].
      split; [exact Hout|]. split; [|exact Hyd].
      * unfold align_one in E. rewrite Hc in E.
        assert ((1 <? nb)%nat = true) as Hb by now apply Nat.ltb_lt.
        rewrite Hb in E. cbn [andb] in E.
        destruct (is_categorical_in_y p); [reflexivity|].
        rewrite (realign_own _ p merged Hl) in E. cbn [Py.bind] in E.
        inversion E; subst. rewrite Hf in Hf'. discriminate.
Qed.

End ReorderFacts.

(* ================================================================== *)
(** * Properties of the command line helpers and of the file loader *)

Section CliFacts.
Import Cli.

Lemma mem_In (s : string) (l : list string) : mem s l = true -> In s l.
Proof.
  unfold mem. rewrite existsb_exists. intros (t & Hin & E).
  apply String.eqb_eq in E. now subst.
Qed.

(** X15. [saving_logic] always settles on a format. When none is given,
    the format returned is a supported one: the extension of the file
    name if that is supported, "svg" otherwise. When no file name is
    given the format is "svg" whatever format was asked for; and a
    format given along with a file name is returned as it is, supported
    or not. *)
Theorem saving_logic_format (save_as save_as_format : option string) :
  (exists f, snd (saving_logic save_as save_as_format) = Some f) /\
  (save_as_format = None ->
   exists f, snd (saving_logic save_as save_as_format) = Some f /\ In f FORMAT_CHOICES) /\
  (save_as = None ->
   saving_logic save_as save_as_format = (None, false, Some DEFAULT_FILE_FORMAT)) /\
  (forall name f, save_as = Some name -> save_as_format = Some f ->
                  snd (saving_logic save_as save_as_format) = Some f).
Proof.
  assert (Hsvg : In DEFAULT_FILE_FORMAT FORMAT_CHOICES) by (apply mem_In; reflexivity).
  unfold saving_logic. split; [|split; [|split]].
  - destruct save_as as [name|]; [|cbn [snd]; eauto].
    destruct (String.eqb (String.substring 0 1 name) "!");
      destruct save_as_format as [f|]; cbn beta iota zeta;
      try match goal with
          | |- context [if ?c then _ else _] => destruct c
          end; cbn [snd]; eauto.
  - intros ->. destruct save_as as [name|]; [|cbn [snd]; eauto].
    destruct (String.eqb (String.substring 0 1 name) "!"); cbn beta iota zeta;
      match goal with
      | |- context [(-1 <? ?p)%Z && mem ?e FORMAT_CHOICES] =>
          destruct (-1 <? p)%Z; cbn [andb snd]; [|eauto];
          destruct (mem e FORMAT_CHOICES) eqn:M; cbn [snd]; [|eauto];
          exists e; split; [reflexivity | now apply mem_In]
      end.
  - intros ->. reflexivity.
  - intros name f [= ->] [= ->].
    destruct (String.eqb (String.substring 0 1 name) "!"); reflexivity.
Qed.

(** X16. The default page layout of [check_geometry]: for one graph or
    more it has as many columns as graphs, three at most, and the least
    number of rows that holds every graph; for no graph at all the
    computation divides by zero. *)
Theorem check_geometry_default (parse_geom : string -> option (Z * Z)) (nb_graphs : Z) :
  ((1 <= nb_graphs)%Z ->
   exists nb_rows nb_cols,
     check_geometry parse_geom nb_graphs None = Ok (Some (nb_rows, nb_cols)) /\
     nb_cols = Z.min nb_graphs 3 /\
     ((nb_rows - 1) * nb_cols < nb_graphs <= nb_rows * nb_cols)%Z) /\
  (nb_graphs = 0%Z ->
   check_geometry parse_geom nb_graphs None = Raise ZeroDivisionError).
Proof.
  unfold check_geometry, DEFAULT_GRAPHS_PER_ROW, floordiv. split.
  - intros Hn. destruct (nb_graphs <=? 3)%Z eqn:E.
    + apply Z.leb_le in E.
      assert ((nb_graphs =? 0)%Z = false) as -> by (apply Z.eqb_neq; lia).
      cbn [Py.bind]. eexists _, _. split; [reflexivity|]. split; [lia|].
      rewrite Z.div_small by lia. lia.
    + apply Z.leb_gt in E. cbn [Z.eqb Py.bind].
      eexists _, _. split; [reflexivity|]. split; [lia|].
      pose proof (Z.div_mod (nb_graphs - 1) 3 ltac:(lia)).
      pose proof (Z.mod_pos_bound (nb_graphs - 1) 3 ltac:(lia)). lia.
  - intros ->. reflexivity.
Qed.

End CliFacts.

Section IngestFacts.
Import Ingest.
Variable py_int : string -> option Z.

Lemma load_file_accepted (current_plot : option string) (text : string) (d : dataset) :
  load_file py_int current_plot text = Accepted d ->
  of_name (graph_type d) = Some (Prepare.graph_type_of (plot d)) /\
  (forall c, current_plot = Some c -> c <> EmptyString -> graph_type d = c).
Proof.
  unfold load_file. destruct (all_data_of text) as [|header data]; [discriminate|].
  destruct (split "|" header) as [|t0 rest] eqn:Es; [discriminate|].
  destruct (truthy (option_map VStr current_plot) &&
            negb (String.eqb t0 (match current_plot with Some c => c | None => "" end)))
    eqn:Ec; [discriminate|].
  destruct (of_name t0) as [g|] eqn:Eg; [|discriminate].
  destruct (nth_error (t0 :: rest) 1) as [t1|]; [|discriminate].
  destruct (nth_error (t0 :: rest) 2) as [t2|]; [|discriminate].
  destruct (nth_error (t0 :: rest) 3) as [t3|]; [|discriminate].
  destruct (nth_error (t0 :: rest) 4) as [t4|]; [|discriminate].
  destruct (nth_error (t0 :: rest) 5) as [t5|]; [|discriminate].
  destruct (nth_error (t0 :: rest) 6) as [t6|]; [|discriminate].
  destruct (nth_error (t0 :: rest) 7) as [t7|]; [|discriminate].
  destruct (nth_error (t0 :: rest) 8) as [t8|]; [|discriminate].
  destruct (nth_error (t0 :: rest) 9) as [t9|]; [|discriminate].
  destruct (nth_error (t0 :: rest) 10) as [t10|]; [|discriminate].
  destruct (Cli.saving_logic (Some t9) (Some t10)) as [[name replace_] fmt].
  assert (Hd : forall bins,
             Accepted (mkDataset t0 t1 t2 t3 t8 name replace_ fmt bins
                         (Prepare.read_plot g t4 t5 t6 t7 (map (split ",") data)))
             = Accepted d ->
             of_name (graph_type d) = Some (Prepare.graph_type_of (plot d)) /\
             (forall c, current_plot = Some c -> c <> EmptyString -> graph_type d = c)).
  { intros bins H. inversion H; subst; clear H. cbn [graph_type plot]. split; [exact Eg|].
    intros c -> Hc. cbn [option_map truthy] in Ec.
    assert (negb (String.eqb c "") = true) as Ht.
    { destruct (String.eqb c "") eqn:E; [apply String.eqb_eq in E; contradiction | reflexivity]. }
    rewrite Ht in Ec. cbn [andb] in Ec. apply negb_false_iff, String.eqb_eq in Ec. exact Ec. }
  destruct (Prepare.is_histogram g); [|apply Hd].
  destruct (nth_error (t0 :: rest) 11) as [t11|]; [|discriminate].
  destruct (String.eqb t11 ""); [apply Hd|].
  destruct (py_int t11); [apply Hd | discriminate].
Qed.

Lemma of_name_not_empty (name : string) (g : Prepare.graph_type) :
  of_name name = Some g -> name <> EmptyString.
Proof. intros H ->. discriminate H. Qed.

Lemma load_group_typed (c : string) (texts : list string) (ds : list dataset) :
  c <> EmptyString ->
  load_group py_int (Some c) texts = Loaded ds ->
  Forall (fun d => graph_type d = c) ds /\ (List.length ds <= List.length texts)%nat.
Proof.
  intros Hc. revert ds. induction texts as [|text texts IH]; intros ds H; simpl in H.
  - inversion H. split; [constructor | simpl; lia].
  - destruct (load_file py_int (Some c) text) as [d| | |e] eqn:E; try discriminate.
    + destruct (load_file_accepted _ _ _ E) as [_ Hd].
      specialize (Hd c eq_refl Hc). rewrite Hd in H.
      destruct (load_group py_int (Some c) texts) as [ds'| |]; try discriminate.
      inversion H; subst. destruct (IH ds' eq_refl) as [IH1 IH2].
      split; [constructor; auto | simpl; lia].
    + destruct (IH ds H) as [IH1 IH2]. split; [exact IH1 | simpl; lia].
Qed.

(** X17. Every dataset the loader keeps for a group has the graph type
    of the first dataset kept, a supported one; files are only ever left
    out, never added. *)
Theorem load_group_one_type (texts : list string) (ds : list dataset) :
  load_group py_int None texts = Loaded ds ->
  (forall d1 d2, In d1 ds -> In d2 ds -> graph_type d1 = graph_type d2) /\
  Forall (fun d => of_name (graph_type d) = Some (Prepare.graph_type_of (plot d))) ds /\
  (List.length ds <= List.length texts)%nat.
Proof.
  assert (G : forall cur texts ds,
             (forall c, cur = Some c -> c <> EmptyString) ->
             load_group py_int cur texts = Loaded ds ->
             Forall (fun d => of_name (graph_type d)
                              = Some (Prepare.graph_type_of (plot d))) ds).
  { intros cur ts. revert cur. induction ts as [|text ts IH]; intros cur ds0 Hcur H; simpl in H.
    - inversion H. constructor.
    - destruct (load_file py_int cur text) as [d| | |e] eqn:E; try discriminate.
      + destruct (load_file_accepted _ _ _ E) as [Hn _].
        destruct (load_group py_int (Some (graph_type d)) ts) as [ds'| |] eqn:L;
          try discriminate.
        inversion H; subst. constructor; [exact Hn|].
        apply (IH (Some (graph_type d))); [|exact L].
        intros c [= <-]. eapply of_name_not_empty; eauto.
      + eapply IH; eauto. }
  revert ds. induction texts as [|text texts IH]; intros ds H.
  - simpl in H. inversion H. repeat split; [intros ? ? [] | constructor | simpl; lia].
  - pose proof (G None (text :: texts) ds ltac:(discriminate) H) as Hall.
    simpl in H. destruct (load_file py_int None text) as [d| | |e] eqn:E; try discriminate.
    + destruct (load_file_accepted _ _ _ E) as [Hn _].
      destruct (load_group py_int (Some (graph_type d)) texts) as [ds'| |] eqn:L;
        try discriminate.
      inversion H; subst.
      destruct (load_group_typed (graph_type d) texts ds'
                  (of_name_not_empty _ _ Hn) L) as [Ht Hl].
      assert (Hsame : Forall (fun d' => graph_type d' = graph_type d) (d :: ds'))
        by (constructor; auto).
      split; [|split; [exact Hall | simpl; lia]].
      intros d1 d2 H1 H2. rewrite Forall_forall in Hsame.
      now rewrite (Hsame d1 H1), (Hsame d2 H2).
    + destruct (IH ds H) as (I1 & I2 & I3). split; [exact I1|]. split; [exact I2 | simpl; lia].
Qed.

(** X18. How one file is refused. Its header being the first kept line
    and [t0] the first field of the header: once a group has a type, a
    file of another type is skipped, whether that type is supported or
    not; a first file of an unsupported type ends the program; and a
    header of a supported type with fewer than eleven fields, that is
    without the save-as and format fields, ends the run in
    [IndexError]. A file with no line to keep does so too. *)
Theorem load_file_refusals (current_plot : option string) (text header : string)
    (data : list string) (t0 : string) (rest : list string) :
  all_data_of text = header :: data ->
  split "|" header = t0 :: rest ->
  (forall c, current_plot = Some c -> c <> EmptyString -> t0 <> c ->
             load_file py_int current_plot text = Skipped) /\
  (current_plot = None -> of_name t0 = None ->
   load_file py_int current_plot text = Exit) /\
  (current_plot = None -> of_name t0 <> None -> (List.length rest < 10)%nat ->
   load_file py_int current_plot text = Crash IndexError) /\
  (forall text', all_data_of text' = [] ->
                 load_file py_int current_plot text' = Crash IndexError).
Proof.
  intros Ha Hs. split; [|split; [|split]].
  - intros c -> Hc Hne. unfold load_file. rewrite Ha, Hs. cbn [option_map truthy].
    assert (String.eqb c "" = false) as -> by now apply String.eqb_neq.
    assert (String.eqb t0 c = false) as -> by now apply String.eqb_neq.
    reflexivity.
  - intros -> Hn. unfold load_file. rewrite Ha, Hs. cbn [option_map truthy andb].
    now rewrite Hn.
  - intros -> Hn Hl. unfold load_file. rewrite Ha, Hs. cbn [option_map truthy andb].
    destruct (of_name t0) as [g|]; [|now elim Hn].
    assert (N : nth_error (t0 :: rest) 10 = None) by (apply nth_error_None; simpl; lia).
    rewrite N.
    repeat match goal with
           | |- context [match nth_error ?l ?n with _ => _ end] =>
               destruct (nth_error l n)
           end; reflexivity.
  - intros text' He. unfold load_file. now rewrite He.
Qed.

End IngestFacts.

(* ================================================================== *)
(** * The further properties on sample data *)

Lemma to_numbers_all_or_nothing_witness :
  Prepare.to_numbers Literal.dec_float rows_abc 0
  = Ok ([VStr "a"; VStr "b"; VStr "c"], true).
Proof.
  refine (proj2 (to_numbers_all_or_nothing Literal.dec_float rows_abc 0
                   ["a"; "b"; "c"]%string _) _).
  - reflexivity.
  - constructor. reflexivity.
Defined.

Lemma to_numbers_missing_column_witness :
  Prepare.to_numbers Literal.dec_float [["1"; "5"]; ["3"]]%string 1 = Raise IndexError.
Proof.
  apply to_numbers_missing_column.
  apply Exists_cons_tl, Exists_cons_hd. simpl. lia.
Defined.

Lemma prepare_plot_no_data_witness :
  Prepare.prepare_plot Literal.dec_float Literal.stamp Literal.as_given
    (Prepare.read_plot Prepare.Bar "" "" "1" "9" []) = Raise IndexError.
Proof. apply prepare_plot_no_data. reflexivity. Defined.

Lemma prepare_plot_bad_timestamp_witness :
  Prepare.prepare_plot Literal.dec_float Literal.stamp Literal.as_given series_bad_stamp = Raise ValueError.
Proof.
  apply prepare_plot_bad_timestamp; [reflexivity|].
  apply Exists_cons_tl, Exists_cons_hd. split; [simpl; lia|].
  exists "yesterday"%string. split; reflexivity.
Defined.

Lemma clip_histogram_drops_last_witness :
  Prepare.clip_histogram Literal.as_given [VNum 1; VNum 3; VNum 2] None (Some (VNum 2))
  = Ok ([VNum 1], Some (VNum 1), Some (VNum 2)).
Proof.
  refine (clip_histogram_drops_last Literal.as_given [VNum 1; VNum 3; VNum 2] None 2
            _ _ _ _ _).
  - repeat constructor.
  - left. reflexivity.
  - intros m H. discriminate H.
  - reflexivity.
  - constructor. reflexivity.
Defined.

Lemma clip_histogram_unbounded_witness :
  Prepare.clip_histogram Literal.as_given [VNum 1; VNum 3; VNum 2] (Some (VStr "")) (Some (VStr ""))
  = Ok ([VNum 1; VNum 2; VNum 3], Some (VNum 1), Some (VNum 3)).
Proof.
  refine (proj1 (clip_histogram_unbounded Literal.as_given [VNum 1; VNum 3; VNum 2]
                   (Some (VStr "")) (Some (VStr "")) _ _ _ _)).
  - repeat constructor.
  - discriminate.
  - reflexivity.
  - reflexivity.
Defined.

Lemma zero_x_bound_is_no_bound_witness :
  Prepare.prepare_plot Literal.dec_float Literal.stamp Literal.as_given
    (Prepare.read_plot Prepare.Bar "0" "0.0" "" "" rows_132)
  = Prepare.prepare_plot Literal.dec_float Literal.stamp Literal.as_given
      (Prepare.read_plot Prepare.Bar "" "" "" "" rows_132).
Proof.
  refine (zero_x_bound_is_no_bound Literal.dec_float Literal.stamp Literal.as_given
            Prepare.Bar
            "0" "0.0" "" "" rows_132 _ _ _ _ _ _ _ _).
  - reflexivity.
  - reflexivity.
  - vm_compute. reflexivity.
  - reflexivity.
  - vm_compute. reflexivity.
  - reflexivity.
Defined.

Lemma range_y_numeric_witness :
  Prepare.range_y Literal.dec_float false [VNum 5; VNum 7; VNum 6]
    (Some (VNum 6)) (Some (VNum 8))
  = Ok ([VNaN; VNum 7; VNum 6], Some (VNum 6), Some (VNum 8)).
Proof.
  refine (proj1 (range_y_numeric Literal.dec_float [5; 7; 6]) 6 8 _ _);
    intros H; discriminate H.
Defined.

Lemma Counter_total_witness :
  Stat.int_sum (map snd (Stat.Counter [1; 2; 2; 3])) = 4%Z.
Proof.
  destruct (Counter_total [1; 2; 2; 3]) as [H _]. exact H.
Defined.


Lemma stat_plot_result_needs_witness :
  exists f,
    Fit.stat_plot Float.exact ppf_mean raw_halves = Ok f /\
    Fit.avg f == 2 /\ Fit.stddev f == 1 /\
    0 < Fit.avg f /\ ~ Fit.stddev f == 0.
Proof.
  assert (E : exists f, Fit.stat_plot Float.exact ppf_mean raw_halves = Ok f /\
                        Fit.avg f == 2 /\ Fit.stddev f == 1).
  { eexists. split; [vm_compute; reflexivity|]. split; reflexivity. }
  destruct E as (f & E & Ha & Hs). exists f. split; [exact E|].
  destruct (stat_plot_result_needs Float.exact ppf_mean raw_halves f E)
    as (_ & H1 & H2 & _).
  repeat split; assumption.
Defined.

Lemma gap_moved_once_witness :
  exists out,
    Align.do_plot_group_bars group_text = Ok out /\ List.length out = 2%nat.
Proof.
  destruct (gap_moved_once group_text) as (out & E & _).
  - simpl. lia.
  - repeat constructor.
  - right. repeat constructor; eexists; reflexivity.
  - exists out. split; [exact E|]. vm_compute in E. injection E as <-. reflexivity.
Defined.

Lemma saving_logic_format_witness :
  exists f, snd (Cli.saving_logic (Some "!out.png"%string) None) = Some f /\
            In f Cli.FORMAT_CHOICES.
Proof.
  exact (proj1 (proj2 (saving_logic_format (Some "!out.png"%string) None)) eq_refl).
Defined.

Lemma check_geometry_default_witness :
  exists nb_rows nb_cols,
    Cli.check_geometry (fun _ => None) 7 None = Ok (Some (nb_rows, nb_cols)) /\
    nb_cols = 3%Z /\ ((nb_rows - 1) * nb_cols < 7 <= nb_rows * nb_cols)%Z.
Proof.
  destruct (proj1 (check_geometry_default (fun _ => None) 7) ltac:(lia))
    as (r & c & E & Hc & Hr).
  exists r, c. split; [exact E|]. split; [exact Hc | exact Hr].
Defined.

Lemma load_group_one_type_witness :
  exists ds,
    Ingest.load_group no_int None [file_bar_1; file_line; file_bar_2] = Ingest.Loaded ds /\
    map Ingest.title ds = ["first"; "third"]%string /\
    (forall d1 d2, In d1 ds -> In d2 ds -> Ingest.graph_type d1 = Ingest.graph_type d2).
Proof.
  assert (E : exists ds,
             Ingest.load_group no_int None [file_bar_1; file_line; file_bar_2]
             = Ingest.Loaded ds /\
             map Ingest.title ds = ["first"; "third"]%string).
  { eexists. split; [vm_compute; reflexivity | reflexivity]. }
  destruct E as (ds & E & Ht). exists ds. split; [exact E|]. split; [exact Ht|].
  exact (proj1 (load_group_one_type no_int _ ds E)).
Defined.

Lemma load_file_refusals_witness :
  Ingest.load_file no_int (Some "bar"%string) file_line = Ingest.Skipped.
Proof.
  refine (proj1 (load_file_refusals no_int (Some "bar"%string) file_line
                   "line|second|x|y|||||two|g|png" ["1,2"]%string "line"
                   ["second"; "x"; "y"; ""; ""; ""; ""; "two"; "g"; "png"]%string _ _)
                "bar"%string eq_refl _ _).
  - reflexivity.
  - reflexivity.
  - discriminate.
  - discriminate.
Defined.

(* ================================================================== *)
(** * The slices of a pie *)

Section PieFacts.
Import Prepare.
Variable py_float : string -> option float.
Variable strptime : string -> option Q.
Variable nan_sorted : forall A : Type, (A -> value) -> list A -> list A.

Lemma clip_xy_whole (g : graph_type) (cat_y : bool) (rows : list (list string))
    (xs ys : list value) (lo hi : option value) :
  is_timeseries g = false -> xs <> [] ->
  given lo = None -> given hi = None ->
  List.length ys = List.length xs ->
  exists first last,
    clip_xy py_float strptime nan_sorted g true cat_y rows xs ys lo hi
    = Ok (xs, ys, Some first, Some last).
Proof.
  intros Hts Hne Hlo Hhi Hlen. unfold clip_xy, sorted_pairs.
  rewrite Hts. cbn [negb Py.bind andb].
  unfold left_cut, right_cut. rewrite Hlo, Hhi.
  destruct xs as [|v xs0]; [now elim Hne|]. cbn [index nth_error Py.bind].
  destruct (@exists_last _ (v :: xs0)) as (xs' & w & E); [discriminate|].
  assert (L : last_item (v :: xs0) = Ok w) by (rewrite E; apply last_item_app).
  exists v, w. rewrite L. cbn [Py.bind].
  rewrite slice_all. rewrite <- Hlen, slice_all. reflexivity.
Qed.

(** X19. A pie whose x bounds are left empty keeps its slices whole and
    in file order: after the preparation the labels are the first fields
    of the data lines, and there are as many labels, as many values and
    as many exploded offsets as data lines. *)
Theorem pie_slices_aligned (lo_y hi_y : string) (rows : list (list string)) (p' : plot) :
  py_float "" = None ->
  prepare_plot py_float strptime nan_sorted (read_plot Pie "" "" lo_y hi_y rows) = Ok p' ->
  mapM (fun sp => s <- index sp 0 ;; Ok (VStr s)) (rows_with 2 rows) = Ok (x p') /\
  List.length (x p') = List.length (Pie.exploded rows) /\
  List.length (y p') = List.length (Pie.exploded rows).
Proof.
  intros He H. unfold prepare_plot, read_plot in H.
  cbn [graph_type_of all_data min_x max_x min_y max_y x y is_categorical_in_x
       is_categorical_in_y extract_x extract_y is_histogram is_timeseries] in H.
  destruct (mapM (fun sp => s <- index sp 0 ;; Ok (VStr s)) (rows_with 2 rows))
    as [xs|e] eqn:Ex; [cbn [Py.bind] in H | discriminate H].
  destruct (to_numbers py_float rows 1) as [[ys cat_y]|e] eqn:Ey;
    [cbn [Py.bind] in H | discriminate H].
  unfold bounds_x, bounds_y in H.
  cbn [graph_type_of min_x max_x min_y max_y is_timeseries is_histogram Py.bind] in H.
  unfold check_limits in H. cbn [fst snd] in H.
  pose proof (given_empty py_float He) as Ge.
  set (l0 := check_limit py_float (Some (VStr ""))) in *.
  apply to_numbers_length in Ey as [Ly Hy].
  assert (Hrows : rows_with 2 rows = rows_with 1 rows) by now apply rows_with_two.
  assert (Lx : List.length xs = List.length (rows_with 2 rows)) by now apply mapM_length in Ex.
  assert (Hlen : List.length ys = List.length xs) by (rewrite Ly, Lx; now rewrite Hrows).
  destruct xs as [|v xs0] eqn:Dx.
  { unfold clip_xy, sorted_pairs, left_cut in H.
    cbn [is_timeseries negb Py.bind] in H. rewrite Ge in H. discriminate H. }
  destruct (clip_xy_whole Pie cat_y rows (v :: xs0) ys l0 l0 eq_refl ltac:(discriminate)
              Ge Ge Hlen) as (first & last & Ec).
  rewrite Ec in H. cbn [Py.bind] in H.
  bind_inv H as Er. destruct a as [[ys' ly'] hy']. inversion H; subst; clear H.
  cbn [x y]. apply range_y_blanked in Er as (lo1 & hi1 & _ & _ & Hbl).
  apply Forall2_length in Hbl.
  unfold Pie.exploded. rewrite length_map.
  split; [reflexivity|]. split; [exact Lx|]. rewrite <- Hbl, Hlen. exact Lx.
Qed.

End PieFacts.

Lemma pie_slices_aligned_witness :
  exists p',
    Prepare.prepare_plot Literal.dec_float Literal.stamp Literal.as_given
      (Prepare.read_plot Prepare.Pie "" "" "" ""
         [["apples"; "3"; "e"]; ["pears"; "5"]]%string) = Ok p' /\
    Prepare.x p' = [VStr "apples"; VStr "pears"] /\
    List.length (Prepare.y p')
    = List.length (Pie.exploded [["apples"; "3"; "e"]; ["pears"; "5"]]%string).
Proof.
  assert (E : exists p',
             Prepare.prepare_plot Literal.dec_float Literal.stamp Literal.as_given
               (Prepare.read_plot Prepare.Pie "" "" "" ""
                  [["apples"; "3"; "e"]; ["pears"; "5"]]%string) = Ok p' /\
             Prepare.x p' = [VStr "apples"; VStr "pears"]).
  { eexists. split; [vm_compute; reflexivity | reflexivity]. }
  destruct E as (p' & E & Hx). exists p'. split; [exact E|]. split; [exact Hx|].
  exact (proj2 (proj2 (pie_slices_aligned Literal.dec_float Literal.stamp Literal.as_given
                         "" "" _ p' eq_refl E))).
Defined.
